(** * SalesSight: per-product forecasting lifecycle and recommendation ranking

    A shallow embedding of the Python sources under [ml_model/]:
    [evaluate.py], [recommend.py], [inference.py], [train.py] and the parts of
    [forecast.py] and [preprocess.py] they call.

    Numbers.  Python and numpy floats are modelled by [float]: either [NaN] or
    a finite value carried as an exact rational.  Rounding error of binary
    floating point and the infinities are not modelled; NaN, its propagation
    through arithmetic and its behaviour under comparison ([False] for every
    ordering test) are.  The builtin [round] rounds the exact value, half to
    even.  Pandas columns of observed or predicted values hold no missing
    entries (they are dropped or filled upstream), so they are lists of
    rationals; the arrays given to [evaluate_predictions] may hold NaN and
    are lists of [float].

    Effects.  The models directory is a dictionary from file names to file
    contents; training threads it as state and may raise.  Logging and the
    files of the output directory are not modelled.  The table handed to the
    entry points of train.py is the result of [get_preprocessed]. *)

From Stdlib Require Import String Ascii ZArith QArith Qround Qabs Qminmax List Bool.
From Stdlib Require Import Lia Lqa Sorting.Sorted Sorting.Permutation Morphisms.
Import ListNotations.

Set Implicit Arguments.

(** ** Python values *)

Module PyFloat.

Local Open Scope Q_scope.

Inductive float : Type :=
| NaN
| Fin (q : Q).

Definition lift2 (f : Q -> Q -> Q) (a b : float) : float :=
  match a, b with
  | Fin x, Fin y => Fin (f x y)
  | _, _ => NaN
  end.

Definition fadd := lift2 Qplus.
Definition fsub := lift2 Qminus.
Definition fmul := lift2 Qmult.

(** Every division of the modelled code is guarded against a zero divisor;
    a zero divisor gives [NaN] here (numpy's 0/0). *)
Definition fdiv (a b : float) : float :=
  match a, b with
  | Fin x, Fin y => if Qeq_bool y 0 then NaN else Fin (x / y)
  | _, _ => NaN
  end.

Definition fabs (a : float) : float :=
  match a with Fin x => Fin (Qabs x) | NaN => NaN end.

Definition isnan (a : float) : bool :=
  match a with NaN => true | Fin _ => false end.

(** Ordering tests: [a < b], [a <= b], [a > b]; false when an operand is NaN. *)
Definition Qltb (x y : Q) : bool := negb (Qle_bool y x).

Definition flt (a b : float) : bool :=
  match a, b with Fin x, Fin y => Qltb x y | _, _ => false end.
Definition fle (a b : float) : bool :=
  match a, b with Fin x, Fin y => Qle_bool x y | _, _ => false end.
Definition fgt (a b : float) : bool := flt b a.

(** [bool(x)]: zero is falsy, everything else (NaN too) is truthy. *)
Definition truthy (a : float) : bool :=
  match a with Fin x => negb (Qeq_bool x 0) | NaN => true end.

(** [a or b] *)
Definition py_or (a b : float) : float := if truthy a then a else b.

(** The builtins [max(a, b)] and [min(a, b)]: the first argument is kept
    unless the second is strictly greater (smaller). *)
Definition max2 (a b : float) : float := if fgt b a then b else a.
Definition min2 (a b : float) : float := if flt b a then b else a.

(** [max(l)] and [min(l)] on a nonempty list (they raise on an empty one,
    which the callers exclude; [NaN] stands for that case). *)
Definition py_max (l : list float) : float :=
  match l with
  | [] => NaN
  | x :: xs => fold_left max2 xs x
  end.

Definition py_min (l : list float) : float :=
  match l with
  | [] => NaN
  | x :: xs => fold_left min2 xs x
  end.

(** Round half to even, the rule of the builtin [round]. *)
Definition round_half_even (x : Q) : Z :=
  let f := Qfloor x in
  let d := x - inject_Z f in
  if Qltb d (1 # 2) then f
  else if Qltb (1 # 2) d then (f + 1)%Z
  else if Z.even f then f else (f + 1)%Z.

Definition pow10 (n : nat) : Z := (10 ^ Z.of_nat n)%Z.

(** [round(x, ndigits)] *)
Definition Qround (x : Q) (ndigits : nat) : Q :=
  inject_Z (round_half_even (x * inject_Z (pow10 ndigits)))
  / inject_Z (pow10 ndigits).

Definition py_round (a : float) (ndigits : nat) : float :=
  match a with
  | NaN => NaN
  | Fin x => Fin (Qround x ndigits)
  end.

(** [sum] of a column, and [mean]: NaN on an empty column. *)
Definition Qsum (l : list Q) : Q := fold_left Qplus l 0.

Definition col_sum (l : list Q) : float := Fin (Qsum l).

Definition col_mean (l : list Q) : float :=
  fdiv (Fin (Qsum l)) (Fin (inject_Z (Z.of_nat (length l)))).

(** Equality of float values: NaN only with NaN (as a value of the model,
    not Python's [==]), finite values as rationals. *)
Definition feq (a b : float) : Prop :=
  match a, b with
  | NaN, NaN => True
  | Fin x, Fin y => x == y
  | _, _ => False
  end.

Definition in_unit (a : float) : Prop :=
  exists q, a = Fin q /\ 0 <= q <= 1.

End PyFloat.

(** Dictionaries keep insertion order; assigning to an existing key keeps
    its position. *)
Module PyDict.

Definition dict (V : Type) : Type := list (string * V).

Fixpoint get {V} (d : dict V) (k : string) : option V :=
  match d with
  | [] => None
  | (k', v) :: d' => if String.eqb k' k then Some v else get d' k
  end.

Definition contains {V} (d : dict V) (k : string) : bool :=
  match get d k with Some _ => true | None => false end.

(** [d[k] = v] *)
Fixpoint set {V} (d : dict V) (k : string) (v : V) : dict V :=
  match d with
  | [] => [(k, v)]
  | (k', v') :: d' =>
      if String.eqb k' k then (k, v) :: d' else (k', v') :: set d' k v
  end.

Definition keys {V} (d : dict V) : list string := map fst d.

End PyDict.

(** [list.sort], [sorted] and [sort_values]: stable sorts.  [lt y x] tells
    that [y] comes strictly before [x] in the target order; an element is
    inserted in front of the first one that does not come strictly before it,
    so equal elements keep the order they had. *)
Module PySort.

Section Sort.
Variable A : Type.
Variable lt : A -> A -> bool.

Fixpoint insert (x : A) (l : list A) : list A :=
  match l with
  | [] => [x]
  | y :: l' => if lt y x then y :: insert x l' else x :: y :: l'
  end.

Definition sort (l : list A) : list A := fold_right insert [] l.

End Sort.

End PySort.

(** Exceptions, and computations that may raise. *)
Module Exn.

Inductive exn : Type :=
| ValueError (msg : string)
| RuntimeError (msg : string)
| OtherError (msg : string).

(** [str(e)] *)
Definition str (e : exn) : string :=
  match e with
  | ValueError m | RuntimeError m | OtherError m => m
  end.

Inductive result (A : Type) : Type :=
| Return (a : A)
| Raise (e : exn).

Arguments Return {A} a.
Arguments Raise {A} e.

Definition bind {A B} (c : result A) (k : A -> result B) : result B :=
  match c with
  | Return a => k a
  | Raise e => Raise e
  end.

End Exn.

Declare Scope py_scope.
Delimit Scope py_scope with py.
Notation "x <- c ;; k" := (Exn.bind c (fun x => k))
  (at level 61, c at next level, right associativity) : py_scope.

(** [pathlib]: the functions used on the final component of a path.  The
    artifact names never hold a separator, so a path inside the models
    directory is its file name. *)
Module PyPath.

(** [name.rfind('.')] *)
Fixpoint rfind_dot (name : string) : option nat :=
  match name with
  | EmptyString => None
  | String c rest =>
      match rfind_dot rest with
      | Some i => Some (S i)
      | None => if Ascii.eqb c "."%char then Some 0%nat else None
      end
  end.

(** The index at which the suffix starts: the last dot, when it is neither
    the first nor the last character. *)
Definition suffix_start (name : string) : option nat :=
  match rfind_dot name with
  | Some i =>
      if (0 <? i)%nat && (i <? String.length name - 1)%nat then Some i else None
  | None => None
  end.

Definition suffix (name : string) : string :=
  match suffix_start name with
  | Some i => substring i (String.length name - i) name
  | None => EmptyString
  end.

Definition stem (name : string) : string :=
  match suffix_start name with
  | Some i => substring 0 i name
  | None => name
  end.

Definition with_suffix (name sfx : string) : string :=
  (stem name ++ sfx)%string.

End PyPath.

(** The models directory: file names with their contents.  A pickle file
    holds a model, [meta.json] a metadata document; anything else, or a
    damaged file, is [Garbage] to both loaders. *)
Module FS.
Import PyFloat Exn.

(** A metadata record [{"past_avg": .., "last_ds": ..}]; either key may be
    missing.  [last_ds] is a day number. *)
Record Info : Type := mkInfo {
  past_avg : option float;
  last_ds : option Z
}.

Definition Meta : Type := PyDict.dict Info.

Inductive File (Model : Type) : Type :=
| Pickle (m : Model)
| Json (meta : Meta)
| Garbage.

Arguments Pickle {Model} m.
Arguments Json {Model} meta.
Arguments Garbage {Model}.

Definition Dir (Model : Type) : Type := PyDict.dict (File Model).

(** [pickle.load] and [json.load] of a file *)
Definition pickle_load {Model} (f : File Model) : result Model :=
  match f with
  | Pickle m => Return m
  | _ => Raise (OtherError "could not unpickle")
  end.

Definition json_load {Model} (f : File Model) : result Meta :=
  match f with
  | Json meta => Return meta
  | _ => Raise (ValueError "could not decode JSON")
  end.

(** Computations that write to the models directory and may raise; what was
    written before a raise stays written. *)
Definition M (Model A : Type) : Type := Dir Model -> result A * Dir Model.

Definition ret {Model A} (a : A) : M Model A := fun fs => (Return a, fs).

Definition raise {Model A} (e : exn) : M Model A := fun fs => (Raise e, fs).

Definition bind {Model A B} (c : M Model A) (k : A -> M Model B) : M Model B :=
  fun fs =>
    match c fs with
    | (Return a, fs') => k a fs'
    | (Raise e, fs') => (Raise e, fs')
    end.

Definition lift {Model A} (r : result A) : M Model A := fun fs => (r, fs).

Definition write_file {Model} (name : string) (f : File Model) : M Model unit :=
  fun fs => (Return tt, PyDict.set fs name f).

End FS.

Declare Scope fs_scope.
Delimit Scope fs_scope with fs.
Notation "x <- c ;; k" := (FS.bind c (fun x => k))
  (at level 61, c at next level, right associativity) : fs_scope.

(** ** forecast.py and the table of preprocess.py *)

Module Forecast.
Import PyFloat Exn.

(** A row of the standardized table: date (a day number), product name,
    category, sales. *)
Record TableRow : Type := mkRow {
  date : Z;
  product_name : string;
  category : string;
  sales : Q
}.

Definition Table : Type := list TableRow.

(** A series in Prophet's format: columns [ds] and [y]. *)
Definition Point : Type := (Z * Q)%type.
Definition Series : Type := list Point.
Definition ds (p : Point) : Z := fst p.
Definition y (p : Point) : Q := snd p.

(** A frame of predictions: columns [ds] (or [date]) and [yhat] (or
    [predicted_sales]). *)
Definition Frame : Type := list (Z * Q).
Definition yhat (f : Frame) : list Q := map snd f.

(** [sort_values("ds")] *)
Definition sort_values_ds (s : Series) : Series :=
  PySort.sort (fun a b => (ds a <? ds b)%Z) s.

(** [drop_duplicates(subset=["ds"])]: the first row of each date is kept. *)
Fixpoint drop_duplicates_ds (seen : list Z) (s : Series) : Series :=
  match s with
  | [] => []
  | p :: s' =>
      if existsb (Z.eqb (ds p)) seen then drop_duplicates_ds seen s'
      else p :: drop_duplicates_ds (ds p :: seen) s'
  end.

Definition _prepare_prophet_series (df : Table) (product : string) : Series :=
  let sub :=
    map (fun r => (date r, sales r))
        (filter (fun r => String.eqb (product_name r) product) df) in
  drop_duplicates_ds [] (sort_values_ds sub).

(** [series["ds"].max()]; only taken of nonempty series. *)
Definition ds_max (s : Series) : Z :=
  match s with
  | [] => 0%Z
  | p :: s' => fold_left Z.max (map ds s') (ds p)
  end.

(** [series["y"].mean()] *)
Definition y_mean (s : Series) : float := col_mean (map y s).

(** The forecasting model is an external capability: fitting, building the
    frame of dates to predict (the history followed by [periods] future
    days) and predicting.  Each may raise. *)
Class Prophet (Model : Type) : Type := {
  prophet_installed : bool;
  fit : Series -> result Model;
  make_future_dataframe : Model -> Z -> result (list Z);
  predict : Model -> list Z -> result Frame
}.

Section WithProphet.
Context {Model : Type} `{Prophet Model}.

(** The path the model is pickled to: [save_path], with its suffix replaced
    by [.pkl] when it has another one or none. *)
Definition pickle_path (save_path : string) : string :=
  if negb (String.eqb (PyPath.suffix save_path) ".pkl")
  then PyPath.with_suffix save_path ".pkl"
  else save_path.

(** [save_path] is the file name inside the models directory. *)
Definition train_prophet_for_product
    (series : Series) (product : string) (save_path : option string)
  : FS.M Model Model :=
  (if negb prophet_installed then
     FS.raise (RuntimeError "prophet is not installed. pip install prophet")
   else if (length series <? 2)%nat then
     FS.raise (ValueError ("Need at least 2 points for product " ++ product))
   else
     model <- FS.lift (fit series) ;;
     match save_path with
     | Some save_path =>
         let save_path := pickle_path save_path in
         _ <- FS.write_file save_path (FS.Pickle model) ;;
         FS.ret model
     | None => FS.ret model
     end)%fs.

Definition forecast_days (model : Model) (periods : Z) : result Frame :=
  (future <- make_future_dataframe model periods ;;
   predict model future)%py.

End WithProphet.

(** [re.sub] of the class of nine characters unsafe in file names (angle
    brackets, colon, double quote, slash, backslash, bar, question mark,
    star) by an underscore, then the slice [[:200]]: the function of the
    three names [_safe_filename] (forecast.py), [_safe_fname] (train.py) and
    [_safe_fname] (inference.py). *)
Definition unsafe_chars : list ascii :=
  ["060"; "062"; "058"; "034"; "047"; "092"; "124"; "063"; "042"]%char.

Definition is_unsafe (c : ascii) : bool := existsb (Ascii.eqb c) unsafe_chars.

Fixpoint re_sub_unsafe (name : string) : string :=
  match name with
  | EmptyString => EmptyString
  | String c rest =>
      String (if is_unsafe c then "_"%char else c) (re_sub_unsafe rest)
  end.

Definition _safe_filename (name : string) : string :=
  substring 0 200 (re_sub_unsafe name).

End Forecast.

(** ** evaluate.py *)

Module Evaluate.
Import PyFloat Exn Forecast.

(** A metrics record [{"mae": .., "rmse": ..}]; [run_pipeline] adds the key
    ["error"] to the record of a product whose training raised. *)
Record Metrics : Type := mkMetrics {
  mae : float;
  rmse : float;
  error : option string
}.

Definition nan_metrics : Metrics :=
  {| mae := NaN; rmse := NaN; error := None |}.

(** Slice bounds [l[:k]] and [l[k:]]: a negative bound counts from the end,
    and bounds are clipped to the length. *)
Definition slice_index (k : Z) (len : nat) : nat :=
  Z.to_nat (if (k <? 0)%Z then Z.max 0 (Z.of_nat len + k)
            else Z.min k (Z.of_nat len)).

Definition iloc_to {A} (k : Z) (l : list A) : list A :=
  firstn (slice_index k (length l)) l.

Definition iloc_from {A} (k : Z) (l : list A) : list A :=
  skipn (slice_index k (length l)) l.

Definition split_train_val (series : Series) (val_days : Z)
  : Series * Series :=
  let series := sort_values_ds series in
  if (Z.of_nat (length series) <=? val_days)%Z then (series, [])
  else
    let split_idx := (Z.of_nat (length series) - val_days)%Z in
    let train := iloc_to split_idx series in
    let val := iloc_from split_idx series in
    (train, val).

(** numpy's square root on finite values is a parameter of the model: a
    rational cannot carry an exact root, and numpy's own is a rounding. *)
Class Sqrt : Type := { sqrtQ : Q -> Q }.

Class SqrtLaws `{Sqrt} : Prop := {
  sqrtQ_0 : (sqrtQ 0 == 0)%Q;
  sqrtQ_proper : Proper (Qeq ==> Qeq) sqrtQ
}.

(** An executable instance: the root truncated to nine decimals. *)
Definition sqrt_trunc (x : Q) : Q :=
  (Z.sqrt (Qfloor (x * inject_Z (10 ^ 18))) # (10 ^ 9))%Q.

Definition Sqrt_trunc : Sqrt := {| sqrtQ := sqrt_trunc |}.

Section Metrics.
Context `{Sqrt}.

Definition np_sqrt (a : float) : float :=
  match a with
  | NaN => NaN
  | Fin x => if Qltb x 0 then NaN else Fin (sqrtQ x)
  end.

(** [np.mean] of an array *)
Definition np_mean (l : list float) : float :=
  fdiv (fold_left fadd l (Fin 0)) (Fin (inject_Z (Z.of_nat (length l)))).

Fixpoint map2 {A B C} (f : A -> B -> C) (l : list A) (l' : list B) : list C :=
  match l, l' with
  | a :: t, b :: t' => f a b :: map2 f t t'
  | _, _ => []
  end.

(** Boolean-mask indexing [a[mask]] *)
Fixpoint select {A} (mask : list bool) (l : list A) : list A :=
  match mask, l with
  | b :: mask', a :: l' => if b then a :: select mask' l' else select mask' l'
  | _, _ => []
  end.

Definition evaluate_predictions (actual predicted : list float) : Metrics :=
  let a := actual in
  let p := predicted in
  let '(a, p) :=
    if negb (length a =? length p)%nat then
      let min_len := Nat.min (length a) (length p) in
      (firstn min_len a, firstn min_len p)
    else (a, p) in
  let mask := map2 (fun x z => negb (isnan x || isnan z)) a p in
  let '(a, p) := (select mask a, select mask p) in
  if (length a =? 0)%nat then nan_metrics
  else
    let mae := np_mean (map fabs (map2 fsub a p)) in
    let rmse := np_sqrt (np_mean (map (fun d => fmul d d) (map2 fsub a p))) in
    {| mae := mae; rmse := rmse; error := None |}.

Context {Model : Type} `{Prophet Model}.
Local Open Scope py_scope.

Definition evaluate_product_forecast
    (series : Series) (model : Model) (val_days : Z) : result Metrics :=
  let '(train, val) := split_train_val series val_days in
  if (length val =? 0)%nat || (length train <? 2)%nat then Return nan_metrics
  else
    let future := map ds val in
    pred <- predict model future ;;
    Return (evaluate_predictions (map (fun p => Fin (y p)) val)
                                 (map Fin (yhat pred))).

End Metrics.

(** The claim's wording of the metrics: the pairs of the two sequences up to
    the shorter length whose two values are both numbers, the mean of the
    absolute differences, and the root of the mean of the squared ones. *)
Definition valid_pairs (actual predicted : list float) : list (Q * Q) :=
  flat_map (fun ap => match ap with
                      | (Fin a, Fin p) => [(a, p)]
                      | _ => []
                      end)
           (combine actual predicted).

(** Date order of two points. *)
Definition ds_le (a b : Point) : Prop := (ds a <= ds b)%Z.

(** The last [n] points of a sequence. *)
Definition last_points {A} (n : nat) (l : list A) : list A :=
  skipn (length l - n) l.

Definition Qmean (l : list Q) : Q :=
  (Qsum l / inject_Z (Z.of_nat (length l)))%Q.

Definition spec_mae (pairs : list (Q * Q)) : Q :=
  Qmean (map (fun ap => Qabs (fst ap - snd ap)) pairs).

Definition spec_mse (pairs : list (Q * Q)) : Q :=
  Qmean (map (fun ap => (fst ap - snd ap) * (fst ap - snd ap))%Q pairs).

End Evaluate.

(** ** recommend.py *)

Module Recommend.
Import PyFloat Forecast.

(** The per-product entry of [forecast_results]: a dictionary with the keys
    ["series"] and ["forecast_<h>"]; [{}] is the entry with neither. *)
Record Data : Type := mkData {
  d_series : option Series;
  d_forecasts : list (Z * Frame)
}.

Definition empty_data : Data := {| d_series := None; d_forecasts := [] |}.

(** [bool(data)] *)
Definition data_truthy (d : Data) : bool :=
  match d_series d, d_forecasts d with
  | None, [] => false
  | _, _ => true
  end.

(** [data.get(f"forecast_{horizon}")] *)
Fixpoint get_forecast (fs : list (Z * Frame)) (horizon : Z) : option Frame :=
  match fs with
  | [] => None
  | (h, f) :: fs' => if (h =? horizon)%Z then Some f else get_forecast fs' horizon
  end.

Definition compute_growth_rate (past_sales future_sales : list Q) : float :=
  let past_avg := col_mean past_sales in
  let future_avg := col_mean future_sales in
  if fle past_avg (Fin 0) then Fin 0
  else fmul (fdiv (fsub future_avg past_avg) past_avg) (Fin 100).

Record Row : Type := mkRow {
  product : string;
  predicted_sales : float;
  growth_rate : float;
  past_avg : float;
  future_avg : float
}.

Record Recommendation : Type := mkRec {
  rec_product : string;
  rec_predicted_sales : float;
  rec_growth_rate : float;
  recommendation_score : float
}.

(** [a] may stand before [b] in a list of non-increasing score. *)
Definition score_ge (a b : Recommendation) : Prop :=
  fle (recommendation_score b) (recommendation_score a) = true.

(** The accumulators of the first loop: [rows], [pred_sales_list],
    [growth_list]. *)
Definition Acc : Type := (list Row * list float * list float)%type.

Definition collect_step (horizon : Z) (acc : Acc) (item : string * Data) : Acc :=
  let '(rows, pred_sales_list, growth_list) := acc in
  let '(product, data) := item in
  match d_series data, get_forecast (d_forecasts data) horizon with
  | Some series, Some forecast_df =>
      if (length series =? 0)%nat || (length forecast_df =? 0)%nat then acc
      else
        let past_avg := col_mean (map y series) in
        let future_sales := yhat forecast_df in
        let future_avg := col_mean future_sales in
        let predicted_total := col_sum future_sales in
        let growth_rate := compute_growth_rate (map y series) future_sales in
        (rows ++ [ {| product := product;
                      predicted_sales := py_round predicted_total 2;
                      growth_rate := py_round growth_rate 2;
                      past_avg := past_avg;
                      future_avg := future_avg |} ],
         pred_sales_list ++ [predicted_total],
         growth_list ++ [growth_rate])
  | _, _ => acc
  end.

Definition collect (forecast_results : PyDict.dict Data) (horizon : Z) : Acc :=
  fold_left (collect_step horizon) forecast_results ([], [], []).

(** The normalisation constants taken from the two lists. *)
Definition pred_max_of (pred_sales_list : list float) : float :=
  py_or (py_max pred_sales_list) (Fin 1).

Definition growth_max_of (growth_list : list float) : float :=
  match growth_list with [] => Fin 1 | _ => py_max growth_list end.

Definition growth_min_of (growth_list : list float) : float :=
  match growth_list with [] => Fin 0 | _ => py_min growth_list end.

(** The two normalised signals of a row, as the second loop computes them
    from the row's rounded fields. *)
Definition sales_norm (pred_max : float) (r_predicted_sales : float) : float :=
  if truthy pred_max then fdiv r_predicted_sales pred_max else Fin 0.

Definition growth_norm (growth_min growth_max g : float) : float :=
  if fgt growth_max growth_min
  then fdiv (fsub g growth_min) (fsub growth_max growth_min)
  else Fin (1 # 2).

Definition blend (s g : float) : float :=
  fadd (fmul (Fin (1 # 2)) s) (fmul (Fin (1 # 2)) g).

(** The divisor of [sales_norm] when the largest predicted total is [m]. *)
Definition divisor (m : Q) : Q := if Qeq_bool m 0 then 1 else m.

(** What the code guarantees of [sales_norm], given the [predicted_sales]
    fields of the rows and [pred_sales_list]: the list holds numbers, with a
    largest one [m]; the fields are these numbers rounded to two decimals;
    [pred_max] is [m], or 1 when [m] is 0; for a total that the rounding
    leaves unchanged, [sales_norm] is the total over [pred_max]; and when
    [m] is positive, such a total has a [sales_norm] of at most 1, equal to 1
    exactly when the total is [m]. *)
Definition sales_norm_law (sales pred_sales_list : list float) : Prop :=
  exists (totals : list Q) (m : Q),
    pred_sales_list = map Fin totals
    /\ sales = map (fun t => Fin (Qround t 2)) totals
    /\ In m totals /\ (forall t, In t totals -> t <= m)%Q
    /\ pred_max_of pred_sales_list = Fin (divisor m)
    /\ (forall t, In t totals -> (Qround t 2 == t)%Q ->
        feq (sales_norm (pred_max_of pred_sales_list) (Fin (Qround t 2)))
            (Fin (t / divisor m)))
    /\ ((0 < m)%Q -> forall t, In t totals -> (Qround t 2 == t)%Q ->
        (t / divisor m <= 1)%Q
        /\ ((t / divisor m == 1)%Q <-> (t == m)%Q)).

(** The score as a function of [sales_norm] alone, when [growth_norm] is
    one half. *)
Definition score_of_sales (s : float) : float :=
  min2 (Fin 1) (max2 (Fin 0) (py_round (blend s (Fin (1 # 2))) 4)).

(** Invariant of the first loop: a list of the loop holds numbers, and the
    matching field of the rows holds them rounded to two decimals. *)
Definition rounded_from (fields values : list float) : Prop :=
  exists qs : list Q,
    values = map Fin qs /\ fields = map (fun q => Fin (Qround q 2)) qs.

(** What the code guarantees of [growth_norm], given the [growth_rate]
    fields of the rows and [growth_list]: the list holds numbers, with a
    smallest one [lo] and a largest one [hi]; the fields are these numbers
    rounded to two decimals; when [hi] equals [lo] every [growth_norm] is
    one half; otherwise [growth_norm] is the rounded rate scaled by
    [lo] and [hi], which for a rate that rounding leaves unchanged is its
    min-max scaling, a number of the unit interval. *)
Definition growth_norm_law (rates growth_list : list float) : Prop :=
  exists (growths : list Q) (lo hi : Q),
    growth_list = map Fin growths
    /\ rates = map (fun g => Fin (Qround g 2)) growths
    /\ In lo growths /\ In hi growths
    /\ (forall g, In g growths -> lo <= g <= hi)%Q
    /\ growth_min_of growth_list = Fin lo
    /\ growth_max_of growth_list = Fin hi
    /\ ((hi == lo)%Q -> forall g : float,
        growth_norm (Fin lo) (Fin hi) g = Fin (1 # 2))
    /\ ((lo < hi)%Q -> forall g, In g growths ->
        growth_norm (Fin lo) (Fin hi) (Fin (Qround g 2))
        = Fin ((Qround g 2 - lo) / (hi - lo))
        /\ ((Qround g 2 == g)%Q ->
            (0 <= (Qround g 2 - lo) / (hi - lo) <= 1)%Q)).

(** The invariant, on the accumulators. *)
Definition collect_inv (acc : Acc) : Prop :=
  let '(rows, pred_sales_list, growth_list) := acc in
  rounded_from (map predicted_sales rows) pred_sales_list
  /\ rounded_from (map growth_rate rows) growth_list.

(** [build_recommendations] rounds, then clamps. *)
Definition score_row (pred_max growth_min growth_max : float) (r : Row) : float :=
  let sales_norm := sales_norm pred_max (predicted_sales r) in
  let g := growth_rate r in
  let growth_norm := growth_norm growth_min growth_max g in
  let score := py_round (blend sales_norm growth_norm) 4 in
  min2 (Fin 1) (max2 (Fin 0) score).

Definition to_rec (rs : Row * float) : Recommendation :=
  {| rec_product := product (fst rs);
     rec_predicted_sales := predicted_sales (fst rs);
     rec_growth_rate := growth_rate (fst rs);
     recommendation_score := snd rs |}.

(** [rows.sort(key=lambda x: x["recommendation_score"], reverse=True)] *)
Definition sort_by_score_desc (rows : list (Row * float)) : list (Row * float) :=
  PySort.sort (fun a b => fgt (snd a) (snd b)) rows.

Definition build_recommendations
    (forecast_results : PyDict.dict Data) (horizon : Z) : list Recommendation :=
  let '(rows, pred_sales_list, growth_list) := collect forecast_results horizon in
  match rows with
  | [] => []
  | _ =>
      let pred_max := pred_max_of pred_sales_list in
      let growth_max := growth_max_of growth_list in
      let growth_min := growth_min_of growth_list in
      let rows :=
        map (fun r => (r, score_row pred_max growth_min growth_max r)) rows in
      map to_rec (sort_by_score_desc rows)
  end.

End Recommend.

(** ** inference.py *)

Module Inference.
Import PyFloat Exn Forecast FS.

Definition HORIZON_DAYS : Z := 30.

Definition _safe_fname (name : string) : string :=
  substring 0 200 (re_sub_unsafe name).

(** [s.replace("_", " ")] *)
Fixpoint replace_underscores (s : string) : string :=
  match s with
  | EmptyString => EmptyString
  | String c rest =>
      String (if Ascii.eqb c "_"%char then " "%char else c)
             (replace_underscores rest)
  end.

(** The pattern [*.pkl] of [glob]: the name ends with [.pkl]. *)
Definition is_pkl (name : string) : bool :=
  let n := String.length name in
  (4 <=? n)%nat && String.eqb (substring (n - 4) 4 name) ".pkl".

(** The key under which [load_models] files an artifact. *)
Definition product_name_of (file_name : string) : string :=
  replace_underscores (PyPath.stem file_name).

Definition placeholder : Info :=
  {| past_avg := Some (Fin 100); last_ds := None |}.

(** [bool(info)] of a metadata record: false for [{}]. *)
Definition info_truthy (info : Info) : bool :=
  match past_avg info, last_ds info with
  | None, None => false
  | _, _ => true
  end.

Record Row : Type := mkRow {
  product : string;
  predicted_sales : float;
  growth_rate : float
}.

Definition Acc : Type := (list Row * list float * list float)%type.

(** The growth rate as the loop of [get_recommendations_from_models]
    computes it from the stored baseline and the mean of the forecast. *)
Definition growth_rate_of (past_avg future_avg : float) : float :=
  if fle past_avg (Fin 0) then Fin 0
  else fmul (fdiv (fsub future_avg past_avg) past_avg) (Fin 100).

(** Invariant of the first loop of [get_recommendations_from_models]: the
    list of totals holds numbers and the rows hold them rounded; the same
    for the rates when no stored baseline is NaN ([finite]). *)
Definition rank_inv (finite : Prop) (acc : Acc) : Prop :=
  let '(rows, pred_sales_list, growth_list) := acc in
  Recommend.rounded_from (map predicted_sales rows) pred_sales_list
  /\ (finite -> Recommend.rounded_from (map growth_rate rows) growth_list).

(** [pred.tail(n)] *)
Definition tail {A} (n : Z) (l : list A) : list A :=
  if (n =? 0)%Z then [] else Evaluate.iloc_from (- n) l.

Section WithProphet.
Context {Model : Type} `{Prophet Model}.

Definition load_step (st : PyDict.dict Model * Meta)
    (entry : string * File Model) : PyDict.dict Model * Meta :=
  let '(models, meta) := st in
  let '(name, file) := entry in
  let product_name := product_name_of name in
  let meta :=
    if negb (PyDict.contains meta product_name)
    then PyDict.set meta product_name placeholder
    else meta in
  match pickle_load file with
  | Return model => (PyDict.set models product_name model, meta)
  | Raise _ => (models, meta)
  end.

(** [models_dir] is [None] when the directory does not exist. *)
Definition load_models (models_dir : option (Dir Model))
  : PyDict.dict Model * Meta :=
  match models_dir with
  | None => ([], [])
  | Some dir =>
      let meta :=
        match PyDict.get dir "meta.json" with
        | Some f =>
            match json_load f with
            | Return meta => meta
            | Raise _ => []
            end
        | None => []
        end in
      let pkl_files := filter (fun e => is_pkl (fst e)) dir in
      fold_left load_step pkl_files ([], meta)
  end.

(** The model map alone: one step of the loading loop with the metadata
    left out. *)
Definition load_model_step (models : PyDict.dict Model)
    (entry : string * File Model) : PyDict.dict Model :=
  match pickle_load (snd entry) with
  | Return model => PyDict.set models (product_name_of (fst entry)) model
  | Raise _ => models
  end.

(** Every record of a metadata map is the placeholder. *)
Definition all_placeholder (meta : Meta) : Prop :=
  forall k info, PyDict.get meta k = Some info -> info = placeholder.

Definition rank_step (meta_dict : Meta) (horizon_days : Z)
    (acc : Acc) (item : string * Model) : Acc :=
  let '(rows, pred_sales_list, growth_list) := acc in
  let '(product, model) := item in
  match PyDict.get meta_dict product with
  | None => acc
  | Some info =>
      if negb (info_truthy info) then acc
      else
        let past_avg :=
          match past_avg info with Some v => v | None => Fin 0 end in
        match (future <- make_future_dataframe model horizon_days ;;
               predict model future)%py with
        | Raise _ => acc
        | Return pred =>
            let tail := tail horizon_days pred in
            if (length tail =? 0)%nat then acc
            else
              let yhat := yhat tail in
              let predicted_total := col_sum yhat in
              let future_avg := col_mean yhat in
              let growth_rate := growth_rate_of past_avg future_avg in
              (rows ++ [ {| product := product;
                            predicted_sales := py_round predicted_total 2;
                            growth_rate := py_round growth_rate 2 |} ],
               pred_sales_list ++ [predicted_total],
               growth_list ++ [growth_rate])
        end
  end.

(** [get_recommendations_from_models] clamps, then rounds. *)
Definition score_row (pred_max growth_min growth_max : float) (r : Row) : float :=
  let sales_norm := Recommend.sales_norm pred_max (predicted_sales r) in
  let g := growth_rate r in
  let growth_norm := Recommend.growth_norm growth_min growth_max g in
  let score := Recommend.blend sales_norm growth_norm in
  py_round (min2 (Fin 1) (max2 (Fin 0) score)) 4.

(** The score as a function of [sales_norm] alone, when [growth_norm] is
    one half. *)
Definition score_of_sales (s : float) : float :=
  py_round (min2 (Fin 1) (max2 (Fin 0) (Recommend.blend s (Fin (1 # 2))))) 4.

(** No stored baseline is NaN. *)
Definition finite_meta (meta_dict : Meta) : Prop :=
  forall product info,
    PyDict.get meta_dict product = Some info -> past_avg info <> Some NaN.

Definition to_rec (rs : Row * float) : Recommend.Recommendation :=
  {| Recommend.rec_product := product (fst rs);
     Recommend.rec_predicted_sales := predicted_sales (fst rs);
     Recommend.rec_growth_rate := growth_rate (fst rs);
     Recommend.recommendation_score := snd rs |}.

Definition get_recommendations_from_models
    (models_dict : PyDict.dict Model) (meta_dict : Meta) (horizon_days : Z)
  : list Recommend.Recommendation :=
  match models_dict, meta_dict with
  | [], _ | _, [] => []
  | _, _ =>
      let '(rows, pred_sales_list, growth_list) :=
        fold_left (rank_step meta_dict horizon_days) models_dict ([], [], []) in
      match rows with
      | [] => []
      | _ =>
          let pred_max := Recommend.pred_max_of pred_sales_list in
          let growth_max := Recommend.growth_max_of growth_list in
          let growth_min := Recommend.growth_min_of growth_list in
          let rows :=
            map (fun r => (r, score_row pred_max growth_min growth_max r)) rows in
          map to_rec (PySort.sort (fun a b => fgt (snd a) (snd b)) rows)
      end
  end.

End WithProphet.

End Inference.

(** ** preprocess.py: the product list *)

Module Preprocess.
Import Forecast.

(** [unique()]: first occurrences, in order. *)
Fixpoint unique (seen l : list string) : list string :=
  match l with
  | [] => []
  | s :: l' =>
      if existsb (String.eqb s) seen then unique seen l'
      else s :: unique (s :: seen) l'
  end.

Definition get_products (df : Table) : list string :=
  PySort.sort String.ltb (unique [] (map product_name df)).

End Preprocess.

(** ** train.py

    The entry points take the preprocessed table in place of [data_root],
    and the models directory ([None] when it does not exist yet).  The
    argument [horizons] of [run_pipeline] is not used by its body and is left
    out, as is [output_dir], to which the recommendations and the metrics
    are written as they are returned. *)

Module Train.
Import PyFloat Exn Forecast FS Evaluate Recommend.
Local Open Scope string_scope.

Definition VAL_DAYS : Z := 30.
Definition HORIZONS : list Z := [30; 90]%Z.

Definition _safe_fname (name : string) : string :=
  substring 0 200 (re_sub_unsafe name).

(** [models_dir / f"{_safe_fname(product)}.pkl"] *)
Definition artifact_path (product : string) : string :=
  (_safe_fname product ++ ".pkl")%string.

(** The name of the file that training writes for a product, and the key
    under which [load_models] files it. *)
Definition saved_name (product : string) : string :=
  pickle_path (artifact_path product).

Definition loaded_key (product : string) : string :=
  Inference.product_name_of (saved_name product).

(** Tests on the characters of a name. *)
Fixpoint all_chars (p : ascii -> bool) (s : string) : bool :=
  match s with
  | EmptyString => true
  | String c rest => p c && all_chars p rest
  end.

Definition no_unsafe_char (name : string) : bool :=
  all_chars (fun c => negb (is_unsafe c)) name.

Definition no_underscore (name : string) : bool :=
  all_chars (fun c => negb (Ascii.eqb c "_"%char)) name.

(** The dictionary returned by [run_pipeline]. *)
Record PipelineResult : Type := mkResult {
  recommendations : list Recommendation;
  metrics : PyDict.dict Metrics;
  message : option string;
  products_trained : option nat
}.

(** [products[:max_products]] when [max_products] is given and positive. *)
Definition limit_products (max_products : option Z) (products : list string)
  : list string :=
  match max_products with
  | Some n => if (0 <? n)%Z then iloc_to n products else products
  | None => products
  end.

(** [models_dir.mkdir(parents=True, exist_ok=True)] *)
Definition mkdir {Model} (models_dir : option (Dir Model)) : Dir Model :=
  match models_dir with
  | Some d => d
  | None => []
  end.

Definition info_of (series : Series) : Info :=
  {| FS.past_avg := Some (y_mean series); FS.last_ds := Some (ds_max series) |}.

Section WithProphet.
Context {Model : Type} `{Prophet Model} `{Sqrt}.

Definition _train_and_evaluate_one_product
    (df : Table) (product : string) (val_days : Z)
  : M Model (option Model * Metrics * Data) :=
  let series_full := _prepare_prophet_series df product in
  if (length series_full <? 10)%nat then
    FS.ret (None, nan_metrics, empty_data)
  else
    let '(train_series, val_series) := split_train_val series_full val_days in
    if (length train_series <? 2)%nat then
      FS.ret (None, nan_metrics, empty_data)
    else
      (model_val <- train_prophet_for_product train_series product None ;;
       metrics <- FS.lift (evaluate_product_forecast series_full model_val val_days) ;;
       model_full <- train_prophet_for_product series_full product
                       (Some (artifact_path product)) ;;
       fc_30 <- FS.lift (forecast_days model_full 30) ;;
       fc_90 <- FS.lift (forecast_days model_full 90) ;;
       let last_ds := ds_max series_full in
       let fc_30_future := filter (fun r => (last_ds <? fst r)%Z) fc_30 in
       let fc_90_future := filter (fun r => (last_ds <? fst r)%Z) fc_90 in
       FS.ret (Some model_full, metrics,
               {| d_series := Some series_full;
                  d_forecasts := [(30%Z, fc_30_future); (90%Z, fc_90_future)] |}))%fs.

(** The body of the loop of [run_training_only], with its [try]. *)
Definition training_step (df : Table) (st : Meta * Dir Model) (product : string)
  : Meta * Dir Model :=
  let '(meta, fs) := st in
  let series := _prepare_prophet_series df product in
  if (length series <? 2)%nat then (meta, fs)
  else
    let save_path := artifact_path product in
    match train_prophet_for_product series product (Some save_path) fs with
    | (Return _, fs') => (PyDict.set meta product (info_of series), fs')
    | (Raise _, fs') => (meta, fs')
    end.

(** What follows the computation of the product list in
    [run_training_only]. *)
Definition run_training_products (df : Table) (products : list string)
  : M Model unit :=
  match products with
  | [] => FS.raise (ValueError "No products found.")
  | _ =>
      fun fs =>
        let '(meta, fs) := fold_left (training_step df) products ([], fs) in
        FS.write_file "meta.json" (Json meta) fs
  end.

Definition run_training_only
    (df : Table) (models_dir : option (Dir Model)) (max_products : option Z)
  : result unit * Dir Model :=
  let fs := mkdir models_dir in
  match df with
  | [] => (Raise (ValueError "No data after preprocessing."), fs)
  | _ =>
      let products := limit_products max_products (Preprocess.get_products df) in
      run_training_products df products fs
  end.

(** The body of the loop of [run_pipeline], with its [try]: the state is
    [forecast_results], [metrics] and the models directory. *)
Definition Loop : Type :=
  (PyDict.dict Data * PyDict.dict Metrics * Dir Model)%type.

Definition pipeline_step (df : Table) (val_days : Z) (st : Loop) (product : string)
  : Loop :=
  let '(forecast_results, metrics, fs) := st in
  match _train_and_evaluate_one_product df product val_days fs with
  | (Return (model, m, data), fs') =>
      match model with
      | Some _ =>
          if data_truthy data
          then (PyDict.set forecast_results product data,
                PyDict.set metrics product m, fs')
          else (forecast_results, metrics, fs')
      | None => (forecast_results, metrics, fs')
      end
  | (Raise e, fs') =>
      (forecast_results,
       PyDict.set metrics product
         {| mae := NaN; rmse := NaN; error := Some (Exn.str e) |},
       fs')
  end.

(** The metrics record that one pass of the loop leaves under the product's
    name, if any, by the outcome of [_train_and_evaluate_one_product]. *)
Definition recorded (r : result (option Model * Metrics * Data))
  : option Metrics :=
  match r with
  | Return (Some _, m, data) => if data_truthy data then Some m else None
  | Return (None, _, _) => None
  | Raise e => Some {| mae := NaN; rmse := NaN; error := Some (Exn.str e) |}
  end.

(** The value a training computation returns does not depend on what the
    models directory holds. *)
Definition fs_blind {A} (c : M Model A) : Prop :=
  forall fs fs', fst (c fs) = fst (c fs').

(** The outcome of one product, by itself. *)
Definition outcome (df : Table) (val_days : Z) (product : string)
  : result (option Model * Metrics * Data) :=
  fst (_train_and_evaluate_one_product df product val_days []).

Definition metrics_of (st : Loop) : PyDict.dict Metrics := snd (fst st).

(** The loop that builds [meta] from [forecast_results]. *)
Definition meta_step (meta : Meta) (item : string * Data) : Meta :=
  let '(product, data) := item in
  match d_series data with
  | Some series =>
      if negb (length series =? 0)%nat
      then PyDict.set meta product (info_of series)
      else meta
  | None => meta
  end.

(** What follows the computation of the product list in [run_pipeline]. *)
Definition run_pipeline_products
    (df : Table) (products : list string) (val_days : Z)
  : M Model PipelineResult :=
  match products with
  | [] =>
      FS.ret {| recommendations := []; metrics := [];
                message := Some "No products found.";
                products_trained := None |}
  | _ =>
      fun fs =>
        let '(forecast_results, metrics, fs) :=
          fold_left (pipeline_step df val_days) products ([], [], fs) in
        let recommendations := build_recommendations forecast_results 30 in
        let meta := fold_left meta_step forecast_results [] in
        let '(_, fs) := FS.write_file "meta.json" (Json meta) fs in
        (Return {| recommendations := recommendations; metrics := metrics;
                   message := None;
                   products_trained := Some (length forecast_results) |}, fs)
  end.

Definition run_pipeline
    (df : Table) (models_dir : option (Dir Model))
    (val_days : Z) (max_products : option Z)
  : result PipelineResult * Dir Model :=
  let fs := mkdir models_dir in
  match df with
  | [] =>
      (Return {| recommendations := []; metrics := [];
                 message := Some "No data after preprocessing.";
                 products_trained := None |}, fs)
  | _ =>
      let products := limit_products max_products (Preprocess.get_products df) in
      run_pipeline_products df products val_days fs
  end.

End WithProphet.

End Train.

(** ** A model for the examples

    An executable stand-in for the external forecasting capability: fitting
    stores the series and raises on a negative observation, the future frame
    is the history followed by the next days, and every prediction is the
    mean of the stored series. *)

Module Toy.
Import PyFloat Exn Forecast.

Definition Model : Type := Series.

Definition mean_y (s : Series) : Q :=
  Qred (Qsum (map y s) / inject_Z (Z.of_nat (length s))).

Definition toy_fit (s : Series) : result Model :=
  if existsb (fun p => Qltb (y p) 0) s
  then Raise (OtherError "fit failed")
  else Return s.

Definition toy_future (m : Model) (periods : Z) : result (list Z) :=
  Return (map ds m
          ++ map (fun i => (ds_max m + 1 + Z.of_nat i)%Z)
                 (seq 0 (Z.to_nat periods))).

Definition toy_predict (m : Model) (dates : list Z) : result Frame :=
  Return (map (fun d => (d, mean_y m)) dates).

Definition ToyProphet : Prophet Model :=
  {| prophet_installed := true;
     fit := toy_fit;
     make_future_dataframe := toy_future;
     predict := toy_predict |}.

End Toy.

(** ** Orders and selections used to state properties of the code *)

Module Orders.
Import PyFloat Forecast Recommend.

(** Strictly earlier date. *)
Definition ds_lt (a b : Point) : Prop := (ds a < ds b)%Z.

(** Strictly smaller string, in the order of [sorted]. *)
Definition str_lt (a b : string) : Prop := String.ltb a b = true.

(** [a] is not after [b]. *)
Definition str_le (a b : string) : Prop := String.compare a b <> Gt.

(** The row of the table behind a point of a product's series. *)
Definition from_row (df : Table) (product : string) (p : Point) : Prop :=
  exists r, In r df /\ product_name r = product
            /\ date r = ds p /\ sales r = y p.

(** The test of the first loop of [build_recommendations]: the entry has a
    nonempty series and a nonempty forecast for the horizon. *)
Definition eligible (horizon : Z) (item : string * Data) : bool :=
  match d_series (snd item), get_forecast (d_forecasts (snd item)) horizon with
  | Some series, Some forecast_df =>
      negb ((length series =? 0)%nat || (length forecast_df =? 0)%nat)
  | _, _ => false
  end.

(** The scored rows of [build_recommendations] as they stand before the
    sort, in the order of the dictionary. *)
Definition scored_in_order (forecast_results : PyDict.dict Data) (horizon : Z)
  : list Recommendation :=
  let '(rows, pred_sales_list, growth_list) := collect forecast_results horizon in
  let pred_max := pred_max_of pred_sales_list in
  let growth_max := growth_max_of growth_list in
  let growth_min := growth_min_of growth_list in
  map (fun r => to_rec (r, score_row pred_max growth_min growth_max r)) rows.

(** The recommendation has the score [k]. *)
Definition has_score (k : float) (r : Recommendation) : bool :=
  match recommendation_score r, k with
  | Fin q, Fin q' => Qeq_bool q q'
  | _, _ => false
  end.

End Orders.

(** The same for [get_recommendations_from_models]. *)

Module InferenceOrders.
Import PyFloat Exn Forecast FS Inference.

Section WithProphet.
Context {Model : Type} `{Prophet Model}.

(** The tests of the first loop: the product has a metadata record that is
    not empty, the model predicts without raising, and the last
    [horizon_days] rows of the prediction are not empty. *)
Definition rankable (meta_dict : Meta) (horizon_days : Z)
    (item : string * Model) : bool :=
  match PyDict.get meta_dict (fst item) with
  | None => false
  | Some info =>
      info_truthy info
      && match (future <- make_future_dataframe (snd item) horizon_days ;;
                predict (snd item) future)%py with
         | Raise _ => false
         | Return pred => negb (length (tail horizon_days pred) =? 0)%nat
         end
  end.

(** The scored rows as they stand before the sort, in the order of the
    dictionary of models. *)
Definition scored_in_order (models_dict : PyDict.dict Model) (meta_dict : Meta)
    (horizon_days : Z) : list Recommend.Recommendation :=
  let '(rows, pred_sales_list, growth_list) :=
    fold_left (rank_step meta_dict horizon_days) models_dict ([], [], []) in
  let pred_max := Recommend.pred_max_of pred_sales_list in
  let growth_max := Recommend.growth_max_of growth_list in
  let growth_min := Recommend.growth_min_of growth_list in
  map (fun r => to_rec (r, score_row pred_max growth_min growth_max r)) rows.

End WithProphet.

End InferenceOrders.

(** ** A model whose prediction can fail, for the examples: it predicts the
    mean of the stored series, and raises when the stored series is empty. *)

Module Brittle.
Import PyFloat Exn Forecast.

Definition brittle_predict (m : Toy.Model) (dates : list Z) : result Frame :=
  match m with
  | [] => Raise (OtherError "predict failed")
  | _ => Toy.toy_predict m dates
  end.

Definition BrittleProphet : Prophet Toy.Model :=
  {| prophet_installed := true;
     fit := fun s => Return s;
     make_future_dataframe := Toy.toy_future;
     predict := brittle_predict |}.

(** A model whose prediction raises when asked for more dates than the
    stored series and 30 more. *)
Definition short_predict (m : Toy.Model) (dates : list Z) : result Frame :=
  if (length m + 30 <? length dates)%nat
  then Raise (OtherError "horizon too long")
  else Toy.toy_predict m dates.

Definition ShortHorizonProphet : Prophet Toy.Model :=
  {| prophet_installed := true;
     fit := Toy.toy_fit;
     make_future_dataframe := Toy.toy_future;
     predict := short_predict |}.

End Brittle.

(** ** What [load_models] reads from a directory *)

Module Loading.
Import Exn FS Inference.

(** The metadata that [load_models] starts from: the content of
    [meta.json] when the file is there and can be parsed, nothing
    otherwise. *)
Definition stored_meta {Model} (dir : Dir Model) : Meta :=
  match PyDict.get dir "meta.json"%string with
  | Some f =>
      match json_load f with
      | Return meta => meta
      | Raise _ => []
      end
  | None => []
  end.

(** The file is an artifact that can be loaded under the key [k]. *)
Definition loadable_as {Model} (dir : Dir Model) (k : string) : Prop :=
  exists name m,
    In (name, Pickle m) dir /\ is_pkl name = true /\ product_name_of name = k.

(** The same of a directory that may be missing. *)
Definition loadable_in {Model} (models_dir : option (Dir Model)) (k : string)
  : Prop :=
  match models_dir with
  | Some dir => loadable_as dir k
  | None => False
  end.

(** The file is an artifact, loadable or not, with the key [k]. *)
Definition artifact_as {Model} (dir : Dir Model) (k : string) : Prop :=
  exists name f,
    In (name, f) dir /\ is_pkl name = true /\ product_name_of name = k.

End Loading.

(** ** What training does for one product *)

Module Training.
Import Exn Forecast FS.

(** A product name that the file name keeps: not empty, at most 200
    characters, none of the unsafe characters and no underscore. *)
Definition clean_name (p : string) : bool :=
  negb (String.eqb p "") && (String.length p <=? 200)%nat
  && Train.no_unsafe_char p && Train.no_underscore p.

Section WithProphet.
Context {Model : Type} `{Prophet Model}.

(** The model that [train_prophet_for_product] comes back with, if it does:
    Prophet is installed, the series has two points or more, and the fit
    does not raise. *)
Definition fitted (series : Series) : option Model :=
  if negb prophet_installed then None
  else if (length series <? 2)%nat then None
  else match fit series with
       | Return model => Some model
       | Raise _ => None
       end.

(** The model that [run_training_only] saves for a product, if any. *)
Definition trained (df : Table) (product : string) : option Model :=
  fitted (_prepare_prophet_series df product).

End WithProphet.

End Training.

(** ** What the loop of [run_pipeline] keeps and writes for one product *)

Module Pipeline.
Import Exn Forecast FS Evaluate Recommend Train Training.

Section WithProphet.
Context {Model : Type} `{Prophet Model} `{Sqrt}.

(** The entry of [forecast_results] that one pass of the loop leaves under
    the product's name, if any, by the outcome of
    [_train_and_evaluate_one_product]. *)
Definition kept (r : result (option Model * Metrics * Data)) : option Data :=
  match r with
  | Return (Some _, _, data) => if data_truthy data then Some data else None
  | _ => None
  end.

Definition forecasts_of (st : @Loop Model) : PyDict.dict Data := fst (fst st).

Definition files_of (st : @Loop Model) : Dir Model := snd st.

(** The product is counted in [products_trained]. *)
Definition has_model (df : Table) (val_days : Z) (product : string) : bool :=
  match kept (outcome df val_days product) with
  | Some _ => true
  | None => false
  end.

(** The product is counted, and its entry passes the test of
    [build_recommendations] for the horizon of 30 days. *)
Definition recommendable (df : Table) (val_days : Z) (product : string)
  : bool :=
  match kept (outcome df val_days product) with
  | Some data => Orders.eligible 30 (product, data)
  | None => false
  end.

(** [forecast_results] after the loop over a list of distinct products. *)
Definition entries (df : Table) (val_days : Z) (products : list string)
  : PyDict.dict Data :=
  flat_map (fun p => match kept (outcome df val_days p) with
                     | Some data => [(p, data)]
                     | None => []
                     end) products.

(** The model that [_train_and_evaluate_one_product] writes to the models
    directory, if it gets that far: the series has ten points or more, the
    training part two or more, the fit on the training part and the
    evaluation do not raise, and the fit on the full series does not
    either. *)
Definition saved (df : Table) (val_days : Z) (product : string)
  : option Model :=
  let series_full := _prepare_prophet_series df product in
  if (length series_full <? 10)%nat then None
  else
    let '(train_series, val_series) := split_train_val series_full val_days in
    if (length train_series <? 2)%nat then None
    else
      match fitted train_series with
      | None => None
      | Some model_val =>
          match evaluate_product_forecast series_full model_val val_days with
          | Raise _ => None
          | Return _ => fitted series_full
          end
      end.

End WithProphet.

End Pipeline.

(** ** forecast.py: [run_forecasts_for_products], and the entry points
    [get_recommendations] of recommend.py and train.py *)

Module ForecastBatch.
Import PyFloat Exn Forecast FS Recommend.
Local Open Scope string_scope.

(** [out[f"forecast_{h}"] = pred_future] *)
Fixpoint set_forecast (out : list (Z * Frame)) (h : Z) (f : Frame)
  : list (Z * Frame) :=
  match out with
  | [] => [(h, f)]
  | (h', f') :: out' =>
      if (h' =? h)%Z then (h, f) :: out' else (h', f') :: set_forecast out' h f
  end.

Section WithProphet.
Context {Model : Type} `{Prophet Model}.

(** The body of the loop over the horizons. *)
Definition horizon_step (model : Model) (series : Series)
    (out : list (Z * Frame)) (h : Z) : result (list (Z * Frame)) :=
  (pred <- forecast_days model h ;;
   let last_ds := ds_max series in
   let pred_future := filter (fun r => (last_ds <? fst r)%Z) pred in
   Return (set_forecast out h pred_future))%py.

Fixpoint horizons_loop (model : Model) (series : Series) (horizons : list Z)
    (out : list (Z * Frame)) : result (list (Z * Frame)) :=
  match horizons with
  | [] => Return out
  | h :: horizons' =>
      (out' <- horizon_step model series out h ;;
       horizons_loop model series horizons' out')%py
  end.

(** An entry of the result: the model, and the series and forecasts that
    [build_recommendations] reads. *)
Definition Out : Type := (Model * Data)%type.

(** The body of the loop over the products; there is no [try]. *)
Definition product_step (df : Table) (horizons : list Z)
    (results : PyDict.dict Out) (product : string)
  : M Model (PyDict.dict Out) :=
  let series := _prepare_prophet_series df product in
  if (length series <? 2)%nat then FS.ret results
  else
    let save_path := _safe_filename product ++ ".pkl" in
    (model <- train_prophet_for_product series product (Some save_path) ;;
     forecasts <- FS.lift (horizons_loop model series horizons []) ;;
     FS.ret (PyDict.set results product
               (model, {| d_series := Some series;
                          d_forecasts := forecasts |})))%fs.

Fixpoint products_loop (df : Table) (horizons : list Z)
    (products : list string) (results : PyDict.dict Out)
  : M Model (PyDict.dict Out) :=
  match products with
  | [] => FS.ret results
  | product :: products' =>
      (results' <- product_step df horizons results product ;;
       products_loop df horizons products' results')%fs
  end.

(** The models directory is [None] as long as it does not exist; the check
    for Prophet comes before the directory is made. *)
Definition run_forecasts_for_products
    (df : Table) (products : list string) (horizons : list Z)
    (models_dir : option (Dir Model))
  : result (PyDict.dict Out) * option (Dir Model) :=
  if negb prophet_installed then
    (Raise (RuntimeError "prophet is not installed. pip install prophet"),
     models_dir)
  else
    let '(r, fs) :=
      products_loop df horizons products [] (Train.mkdir models_dir) in
    (r, Some fs).

(** What one pass of the loop over the products comes to when Prophet is
    installed, by itself: nothing for a series of fewer than two points,
    else the fitted model with the series and the forecasts, or the error
    of the fit or of a forecast. *)
Definition batch_out (df : Table) (horizons : list Z) (product : string)
  : result (option Out) :=
  let series := _prepare_prophet_series df product in
  if (length series <? 2)%nat then Return None
  else
    (model <- fit series ;;
     forecasts <- horizons_loop model series horizons [] ;;
     Return (Some (model, {| d_series := Some series;
                             d_forecasts := forecasts |})))%py.

(** The entry of [results] that a pass leaves, if any. *)
Definition entry_of (df : Table) (horizons : list Z) (product : string)
  : option Out :=
  match batch_out df horizons product with
  | Return (Some out) => Some out
  | _ => None
  end.

(** The product is recommended by [get_recommendations] of recommend.py:
    its pass gives an entry that passes the test of
    [build_recommendations] for the horizon of 30 days. *)
Definition batch_recommendable (df : Table) (product : string) : bool :=
  match batch_out df [30; 90]%Z product with
  | Return (Some (_, data)) => Orders.eligible 30 (product, data)
  | _ => false
  end.

End WithProphet.

End ForecastBatch.

Module RecommendEntry.
Import PyFloat Exn Forecast FS Recommend ForecastBatch.

Section WithProphet.
Context {Model : Type} `{Prophet Model}.

(** [get_recommendations] of recommend.py; [build_recommendations] reads
    the series and the forecasts of each entry. *)
Definition get_recommendations
    (df : Table) (max_products : option Z) (models_dir : option (Dir Model))
  : result (list Recommendation) * option (Dir Model) :=
  match df with
  | [] => (Return [], models_dir)
  | _ =>
      let products :=
        Train.limit_products max_products (Preprocess.get_products df) in
      match products with
      | [] => (Return [], models_dir)
      | _ =>
          match run_forecasts_for_products df products [30; 90]%Z models_dir
          with
          | (Return forecast_results, dir) =>
              (Return (build_recommendations
                         (map (fun e => (fst e, snd (snd e))) forecast_results)
                         30),
               dir)
          | (Raise e, dir) => (Raise e, dir)
          end
      end
  end.

End WithProphet.

End RecommendEntry.

Module TrainEntry.
Import PyFloat Exn Forecast FS Evaluate Recommend Train.

Section WithProphet.
Context {Model : Type} `{Prophet Model} `{Sqrt}.

(** [get_recommendations] of train.py *)
Definition get_recommendations (df : Table) (models_dir : option (Dir Model))
  : result (list Recommendation) * Dir Model :=
  match run_pipeline df models_dir VAL_DAYS None with
  | (Return result, fs) => (Return (recommendations result), fs)
  | (Raise e, fs) => (Raise e, fs)
  end.

End WithProphet.

End TrainEntry.

(** ** api.py: the state loaded at startup and the endpoints *)

Module Api.
Import PyFloat Exn Forecast FS Inference.
Local Open Scope string_scope.

(** The request body of [/predict]. *)
Record PredictRequest : Type := mkRequest {
  products : list string;
  horizon : Z
}.

Record Prediction : Type := mkPrediction {
  product : string;
  prediction : Z;
  confidence : Q
}.

Record PredictResponse : Type := mkResponse {
  status : string;
  predictions : list Prediction
}.

(** [enumerate(l)] *)
Fixpoint enumerate_from {A} (i : nat) (l : list A) : list (nat * A) :=
  match l with
  | [] => []
  | a :: l' => (i, a) :: enumerate_from (S i) l'
  end.

Definition enumerate {A} (l : list A) : list (nat * A) := enumerate_from 0 l.

Section WithProphet.
Context {Model : Type} `{Prophet Model}.

(** The globals [_models], [_meta] and [_models_loaded]. *)
Record AppState : Type := mkState {
  _models : PyDict.dict Model;
  _meta : Meta;
  _models_loaded : bool
}.

(** The globals before startup. *)
Definition initial : AppState :=
  {| _models := []; _meta := []; _models_loaded := false |}.

(** What [lifespan] does at startup; [models_dir] is the state of
    [MODELS_DIR]. *)
Definition lifespan (models_dir : option (Dir Model)) : AppState :=
  let '(models, meta) := load_models models_dir in
  {| _models := models; _meta := meta;
     _models_loaded := (0 <? length models)%nat |}.

Definition health (st : AppState) : string * bool :=
  ("ok", _models_loaded st).

Definition predict_endpoint (st : AppState) (req : PredictRequest)
  : PredictResponse :=
  if negb (_models_loaded st) then
    {| status := "mock";
       predictions :=
         map (fun ip => {| product := snd ip;
                           prediction := 100 + Z.of_nat (fst ip) * 10;
                           confidence := 9 # 10 |})
             (enumerate (products req)) |}
  else
    let results :=
      fold_left
        (fun results p =>
           if PyDict.contains (_models st) p
           then (results ++ [{| product := p; prediction := 150;
                                confidence := 95 # 100 |}])%list
           else (results ++ [{| product := p; prediction := 100;
                                confidence := 8 # 10 |}])%list)
        (products req) [] in
    {| status := "success"; predictions := results |}.

Definition mock_recommendations : list Recommend.Recommendation :=
  [ {| Recommend.rec_product := "Mock Product A";
       Recommend.rec_predicted_sales := Fin 500;
       Recommend.rec_growth_rate := Fin (155 # 10);
       Recommend.recommendation_score := Fin (95 # 100) |};
    {| Recommend.rec_product := "Mock Product B";
       Recommend.rec_predicted_sales := Fin 300;
       Recommend.rec_growth_rate := Fin (102 # 10);
       Recommend.recommendation_score := Fin (88 # 100) |};
    {| Recommend.rec_product := "Mock Product C";
       Recommend.rec_predicted_sales := Fin 150;
       Recommend.rec_growth_rate := Fin 5;
       Recommend.recommendation_score := Fin (75 # 100) |} ].

Definition recommend (st : AppState) : list Recommend.Recommendation :=
  if negb (_models_loaded st) then mock_recommendations
  else get_recommendations_from_models (_models st) (_meta st) HORIZON_DAYS.

Definition get_products (st : AppState) : list string :=
  if negb (_models_loaded st) then []
  else PyDict.keys (_models st).

End WithProphet.

End Api.

(** ** The ranking of the pipeline against the ranking of the service *)

Module Agreement.
Import PyFloat Exn Forecast FS.



Section WithProphet.
Context {Model : Type} `{Prophet Model} `{Evaluate.Sqrt}.






End WithProphet.

End Agreement.

(** ** evaluate.py: [compute_metrics_for_products] *)

Module EvaluateBatch.
Import PyFloat Exn Forecast Evaluate.

(** A row of the merged frame: [ds], [y], [pred]. *)
Definition Merged : Type := (Z * Q * Q)%type.
Definition m_y (t : Merged) : Q := snd (fst t).
Definition m_pred (t : Merged) : Q := snd t.

(** [series[["ds", "y"]].merge(pred_df[["ds", "pred"]], on="ds",
    how="inner")]: for each row of the series, in order, the rows of the
    predictions with the same date, in order. *)
Definition merge_on_ds (series : Series) (pred_df : Frame) : list Merged :=
  flat_map (fun p =>
              map (fun r => (ds p, y p, snd r))
                  (filter (fun r => (fst r =? ds p)%Z) pred_df))
           series.

Section WithSqrt.
Context `{Sqrt}.

(** The body of the loop. *)
Definition metrics_step (product_forecasts_val : PyDict.dict Frame)
    (out : PyDict.dict Metrics) (item : string * Series)
  : PyDict.dict Metrics :=
  let '(name, series) := item in
  match PyDict.get product_forecasts_val name with
  | None => PyDict.set out name nan_metrics
  | Some pred_df =>
      if (length series =? 0)%nat then PyDict.set out name nan_metrics
      else
        let merged := merge_on_ds series pred_df in
        if (length merged =? 0)%nat then PyDict.set out name nan_metrics
        else
          PyDict.set out name
            (evaluate_predictions (map (fun t => Fin (m_y t)) merged)
                                  (map (fun t => Fin (m_pred t)) merged))
  end.

Definition compute_metrics_for_products
    (product_series : PyDict.dict Series)
    (product_forecasts_val : PyDict.dict Frame) : PyDict.dict Metrics :=
  fold_left (metrics_step product_forecasts_val) product_series [].

End WithSqrt.

(** The pairs of an observed value and a predicted value of the same date
    that the metrics of a product are computed from; none when the product
    has no predictions. *)
Definition aligned (product_forecasts_val : PyDict.dict Frame)
    (item : string * Series) : list (Q * Q) :=
  match PyDict.get product_forecasts_val (fst item) with
  | None => []
  | Some pred_df =>
      map (fun t => (m_y t, m_pred t)) (merge_on_ds (snd item) pred_df)
  end.

End EvaluateBatch.

(** ** preprocess.py: [clean_and_aggregate] *)

Module Clean.
Import PyFloat Forecast.
Local Open Scope string_scope.

(** A value of the column [sales] as [pd.to_numeric(errors="coerce")] sees
    it: missing (NaN or None), a number, or something that is not a
    number. *)
Inductive RawSales : Type :=
| SalesMissing
| SalesNumber (q : Q)
| SalesNotNumeric.

(** A row of the frame that the loaders give: the date is [None] when it is
    missing or cannot be parsed (NaT), the product name and the category
    when they are missing. *)
Record RawRow : Type := mkRaw {
  raw_date : option Z;
  raw_product_name : option string;
  raw_category : option string;
  raw_sales : RawSales
}.

(** [dropna(subset=["date", "product_name", "sales"])], then the category
    filled with [Unknown] and the sales that are not numbers with 0. *)
Definition clean_row (r : RawRow) : option TableRow :=
  match raw_date r, raw_product_name r, raw_sales r with
  | Some d, Some p, SalesNumber q =>
      Some (mkRow d p (match raw_category r with
                       | Some c => c
                       | None => "Unknown"
                       end) q)
  | Some d, Some p, SalesNotNumeric =>
      Some (mkRow d p (match raw_category r with
                       | Some c => c
                       | None => "Unknown"
                       end) 0)
  | _, _, _ => None
  end.

Definition cleaned (df : list RawRow) : Table :=
  flat_map (fun r => match clean_row r with
                     | Some row => [row]
                     | None => []
                     end) df.

(** The key of [groupby(["date", "product_name", "category"])]. *)
Definition Key : Type := (Z * string * string)%type.

Definition key_of (r : TableRow) : Key :=
  (date r, product_name r, category r).

Definition key_eqb (a b : Key) : bool :=
  (fst (fst a) =? fst (fst b))%Z
  && String.eqb (snd (fst a)) (snd (fst b))
  && String.eqb (snd a) (snd b).

(** The order in which [groupby] puts its groups. *)
Definition key_ltb (a b : Key) : bool :=
  (fst (fst a) <? fst (fst b))%Z
  || ((fst (fst a) =? fst (fst b))%Z
      && (String.ltb (snd (fst a)) (snd (fst b))
          || (String.eqb (snd (fst a)) (snd (fst b))
              && String.ltb (snd a) (snd b)))).

(** The distinct keys, in order of first occurrence. *)
Fixpoint unique_keys (seen l : list Key) : list Key :=
  match l with
  | [] => []
  | k :: l' =>
      if existsb (key_eqb k) seen then unique_keys seen l'
      else k :: unique_keys (k :: seen) l'
  end.

(** The rows of a group. *)
Definition group (rows : Table) (k : Key) : Table :=
  filter (fun r => key_eqb (key_of r) k) rows.

(** [groupby(...)["sales"].sum()] with [as_index=False]: one row for each
    key, in the order of the keys, with the sum of the sales of the
    group. *)
Definition groupby_sum (rows : Table) : Table :=
  map (fun k => mkRow (fst (fst k)) (snd (fst k)) (snd k)
                      (Qsum (map sales (group rows k))))
      (PySort.sort key_ltb (unique_keys [] (map key_of rows))).

(** [sort_values(["product_name", "date"])] *)
Definition name_date_ltb (a b : TableRow) : bool :=
  String.ltb (product_name a) (product_name b)
  || (String.eqb (product_name a) (product_name b)
      && (date a <? date b)%Z).

Definition clean_and_aggregate (df : list RawRow) : Table :=
  match df with
  | [] => []
  | _ => PySort.sort name_date_ltb (groupby_sum (cleaned df))
  end.

(** The order of the result: by product name, then by date. *)
Definition name_date_le (a b : TableRow) : Prop :=
  match String.compare (product_name a) (product_name b) with
  | Lt => True
  | Eq => (date a <= date b)%Z
  | Gt => False
  end.

(** The sales of a product on a date, over the rows that are kept. *)
Definition day_sales (rows : Table) (product : string) (d : Z) : Q :=
  Qsum (map sales
            (filter (fun r => String.eqb (product_name r) product
                              && (date r =? d)%Z) rows)).

End Clean.

(** * Properties *)

(** ** Stable sorting *)

Module SortFacts.
Import PySort.

Section Facts.
Variable A : Type.
Variable lt : A -> A -> bool.

Lemma insert_perm (x : A) (l : list A) : Permutation (insert lt x l) (x :: l).
Proof.
  induction l as [|y l IH]; simpl; [apply Permutation_refl|].
  destruct (lt y x); [|apply Permutation_refl].
  eapply perm_trans; [apply perm_skip, IH|apply perm_swap].
Qed.

Lemma sort_perm (l : list A) : Permutation (sort lt l) l.
Proof.
  induction l as [|x l IH]; simpl; [constructor|].
  eapply perm_trans; [apply insert_perm|apply perm_skip, IH].
Qed.

Lemma sort_length (l : list A) : length (sort lt l) = length l.
Proof. apply Permutation_length, sort_perm. Qed.

Lemma sort_in (l : list A) (x : A) : In x (sort lt l) <-> In x l.
Proof.
  split; intro Hin.
  - eapply Permutation_in; [apply sort_perm|exact Hin].
  - eapply Permutation_in; [apply Permutation_sym, sort_perm|exact Hin].
Qed.

(** A list that is already in order is left as it is. *)
Lemma insert_front (x : A) (l : list A) :
  Forall (fun y => lt y x = false) l -> insert lt x l = x :: l.
Proof.
  destruct l as [|y l]; simpl; [reflexivity|].
  intro Hall. inversion Hall as [|? ? Hy _]. now rewrite Hy.
Qed.

Lemma sort_sorted_id (l : list A) :
  StronglySorted (fun a b => lt b a = false) l -> sort lt l = l.
Proof.
  induction 1 as [|x l Hs IH Hx]; simpl; [reflexivity|].
  rewrite IH. now apply insert_front.
Qed.

(** Sortedness, for elements on which the comparison is a total preorder. *)
Variable R : A -> A -> Prop.
Variable P : A -> Prop.
Hypothesis lt_true : forall x y, P x -> P y -> lt y x = true -> R y x.
Hypothesis lt_false : forall x y, P x -> P y -> lt y x = false -> R x y.
Hypothesis R_trans : forall x y z, P x -> P y -> P z -> R x y -> R y z -> R x z.

Lemma insert_sorted (x : A) (l : list A) :
  P x -> Forall P l -> StronglySorted R l -> StronglySorted R (insert lt x l).
Proof.
  intros Px Pl Hs. induction Hs as [|y l Hs IH Hy]; simpl.
  - repeat constructor.
  - inversion Pl as [|? ? Py Pl']; subst.
    destruct (lt y x) eqn:E.
    + constructor; [now apply IH|].
      rewrite Forall_forall. intros z Hz.
      apply (Permutation_in _ (insert_perm x l)) in Hz.
      destruct Hz as [<-|Hz]; [now apply lt_true|].
      rewrite Forall_forall in Hy. now apply Hy.
    + constructor; [now constructor|].
      assert (Rxy : R x y) by now apply lt_false.
      constructor; [exact Rxy|].
      rewrite Forall_forall in *. intros z Hz.
      apply R_trans with y; auto.
Qed.

Lemma sort_sorted (l : list A) : Forall P l -> StronglySorted R (sort lt l).
Proof.
  induction l as [|x l IH]; simpl; intro Pl; [constructor|].
  inversion Pl as [|? ? Px Pl']; subst.
  assert (Ps : Forall P (sort lt l)).
  { rewrite Forall_forall in Pl' |- *. intros z Hz. apply Pl'.
    now apply sort_in. }
  apply insert_sorted; auto.
Qed.

End Facts.

End SortFacts.

(** ** evaluate.py: the split *)

Module SplitFacts.
Import PyFloat Forecast Evaluate.

Lemma sort_values_ds_perm (s : Series) : Permutation (sort_values_ds s) s.
Proof. apply SortFacts.sort_perm. Qed.

Lemma sort_values_ds_length (s : Series) :
  length (sort_values_ds s) = length s.
Proof. apply SortFacts.sort_length. Qed.

Lemma sort_values_ds_sorted (s : Series) :
  StronglySorted ds_le (sort_values_ds s).
Proof.
  apply SortFacts.sort_sorted with (P := fun _ => True); unfold ds_le.
  - intros x z _ _ E. apply Z.ltb_lt in E. lia.
  - intros x z _ _ E. apply Z.ltb_ge in E. lia.
  - intros x z w _ _ _. lia.
  - apply Forall_forall. trivial.
Qed.

(** A series whose dates are already in order is not changed. *)
Lemma sort_values_ds_id (s : Series) :
  StronglySorted ds_le s -> sort_values_ds s = s.
Proof.
  intro Hs. apply SortFacts.sort_sorted_id.
  induction Hs as [|x l Hs IH Hx]; constructor; auto.
  eapply Forall_impl; [|exact Hx].
  intros z Hz. apply Z.ltb_ge. exact Hz.
Qed.

Lemma slice_index_mid (k : Z) (len : nat) :
  (0 <= k <= Z.of_nat len)%Z -> slice_index k len = Z.to_nat k.
Proof.
  intros [H0 H1]. unfold slice_index.
  destruct (k <? 0)%Z eqn:E; [apply Z.ltb_lt in E; lia|].
  f_equal. lia.
Qed.

Lemma slice_index_over (k : Z) (len : nat) :
  (Z.of_nat len <= k)%Z -> slice_index k len = len.
Proof.
  intros H1. unfold slice_index.
  destruct (k <? 0)%Z eqn:E; [apply Z.ltb_lt in E; lia|].
  rewrite Z.min_r by lia. apply Nat2Z.id.
Qed.

(** C6.  With [L] the length of the series and [sorted] the series in date
    order: when [L <= val_days] the training part is the whole of [sorted]
    and the validation part is empty; otherwise the two parts partition
    [sorted] and the validation part is its last [val_days] points (none for
    a window that is not positive).  In particular a series of
    [val_days + 5] points gives [val_days] validation points and 5 training
    points.  [sorted] is a rearrangement of the series in nondecreasing date
    order. *)
Theorem split_train_val_spec (series : Series) (val_days : Z) :
  let L := Z.of_nat (length series) in
  let sorted := sort_values_ds series in
  let train := fst (split_train_val series val_days) in
  let val := snd (split_train_val series val_days) in
  (Permutation sorted series /\ StronglySorted ds_le sorted)
  /\ ((L <= val_days)%Z -> train = sorted /\ val = [])
  /\ ((val_days < L)%Z ->
      train ++ val = sorted
      /\ val = last_points (Z.to_nat val_days) sorted
      /\ Z.of_nat (length val) = Z.max 0 val_days)
  /\ ((0 <= val_days)%Z -> L = (val_days + 5)%Z ->
      Z.of_nat (length val) = val_days /\ length train = 5%nat).
Proof.
  cbv zeta. unfold split_train_val.
  pose proof (sort_values_ds_length series) as Hlen.
  set (sorted := sort_values_ds series) in *.
  assert (Hgt : (val_days < Z.of_nat (length series))%Z ->
    let k := slice_index (Z.of_nat (length sorted) - val_days) (length sorted) in
    k = (length sorted - Z.to_nat val_days)%nat).
  { intros Hlt k. subst k. rewrite Hlen.
    destruct (Z.le_gt_cases 0 val_days) as [Hnn|Hneg].
    - rewrite slice_index_mid by lia. lia.
    - rewrite slice_index_over by lia.
      replace (Z.to_nat val_days) with 0%nat by lia. lia. }
  split; [split; [apply sort_values_ds_perm|apply sort_values_ds_sorted]|].
  split; [|split].
  - intro Hle. rewrite Hlen.
    destruct (Z.of_nat (length series) <=? val_days)%Z eqn:E;
      [now split|apply Z.leb_gt in E; lia].
  - intro Hlt. specialize (Hgt Hlt). cbv zeta in Hgt. rewrite Hlen in *.
    destruct (Z.of_nat (length series) <=? val_days)%Z eqn:E;
      [apply Z.leb_le in E; lia|]. simpl.
    unfold iloc_to, iloc_from, last_points. rewrite Hlen, Hgt.
    split; [apply firstn_skipn|]. split; [reflexivity|].
    rewrite length_skipn, Hlen. lia.
  - intros Hnn HL. assert (Hlt : (val_days < Z.of_nat (length series))%Z) by lia.
    specialize (Hgt Hlt). cbv zeta in Hgt. rewrite Hlen in *.
    destruct (Z.of_nat (length series) <=? val_days)%Z eqn:E;
      [apply Z.leb_le in E; lia|]. simpl.
    unfold iloc_to, iloc_from. rewrite Hlen, Hgt.
    rewrite length_skipn, length_firstn, Hlen. lia.
Qed.

(** Seven points with a window of two days, and with the default window. *)
Lemma split_train_val_spec_witness :
  let series : Series :=
    [(3%Z, 5%Q); (1%Z, 4%Q); (2%Z, 6%Q); (7%Z, 1%Q); (4%Z, 2%Q);
     (6%Z, 8%Q); (5%Z, 9%Q)] in
  (Z.of_nat (length (snd (split_train_val series 2))) = 2%Z
   /\ length (fst (split_train_val series 2)) = 5%nat)
  /\ (fst (split_train_val series 30) = sort_values_ds series
      /\ snd (split_train_val series 30) = [])
  /\ snd (split_train_val series 2)
     = last_points 2 (sort_values_ds series).
Proof.
  intro series.
  destruct (split_train_val_spec series 2) as (_ & _ & Hgt & Hfive).
  destruct (split_train_val_spec series 30) as (_ & Hle & _).
  split; [apply Hfive; [lia|reflexivity]|].
  split; [apply Hle; vm_compute; discriminate|].
  apply Hgt. reflexivity.
Defined.

End SplitFacts.

(** ** Arithmetic of the float model *)

Module FloatFacts.
Import PyFloat.
Local Open Scope Q_scope.

Lemma Qltb_lt (x z : Q) : Qltb x z = true <-> x < z.
Proof.
  unfold Qltb. rewrite negb_true_iff. split.
  - intro E. apply Qnot_le_lt. intro Hle. apply Qle_bool_iff in Hle. congruence.
  - intro Hlt. destruct (Qle_bool z x) eqn:E; [|reflexivity].
    apply Qle_bool_iff in E. apply Qle_not_lt in E. contradiction.
Qed.

Lemma Qltb_ge (x z : Q) : Qltb x z = false <-> z <= x.
Proof.
  unfold Qltb. rewrite negb_false_iff. apply Qle_bool_iff.
Qed.

Lemma Qeq_bool_false (x z : Q) : Qeq_bool x z = false <-> ~ x == z.
Proof.
  split; [apply Qeq_bool_neq|].
  intro Hne. destruct (Qeq_bool x z) eqn:E; [|reflexivity].
  apply Qeq_bool_eq in E. contradiction.
Qed.

Lemma length_nonzero (n : nat) :
  n <> 0%nat -> Qeq_bool (inject_Z (Z.of_nat n)) 0 = false.
Proof.
  intro Hn. apply Qeq_bool_false. unfold Qeq. simpl. lia.
Qed.

Lemma length_pos (n : nat) : n <> 0%nat -> 0 < inject_Z (Z.of_nat n).
Proof. intro Hn. unfold Qlt. simpl. lia. Qed.

Lemma Qsquare_nonneg (d : Q) : 0 <= d * d.
Proof.
  destruct (Qlt_le_dec d 0) as [Hneg|Hpos].
  - setoid_replace (d * d) with ((- d) * (- d)) by ring.
    apply Qmult_le_0_compat; lra.
  - apply Qmult_le_0_compat; lra.
Qed.

Lemma fold_Qplus_shift (l : list Q) (acc : Q) :
  fold_left Qplus l acc == acc + Qsum l.
Proof.
  unfold Qsum. revert acc.
  induction l as [|x l IH]; intro acc; simpl; [ring|].
  rewrite (IH (acc + x)), (IH (0 + x)). ring.
Qed.

Lemma Qsum_cons (x : Q) (l : list Q) : Qsum (x :: l) == x + Qsum l.
Proof. unfold Qsum at 1. simpl. rewrite fold_Qplus_shift. ring. Qed.

Lemma Qsum_nonneg (l : list Q) : Forall (fun x => 0 <= x) l -> 0 <= Qsum l.
Proof.
  induction 1 as [|x l Hx _ IH]; [unfold Qsum; simpl; lra|].
  rewrite Qsum_cons. lra.
Qed.

Lemma Qsum_zero (l : list Q) : Forall (fun x => x == 0) l -> Qsum l == 0.
Proof.
  induction 1 as [|x l Hx _ IH]; [reflexivity|].
  rewrite Qsum_cons, Hx, IH. ring.
Qed.

Lemma fold_fadd_Fin (l : list Q) (acc : Q) :
  fold_left fadd (map Fin l) (Fin acc) = Fin (fold_left Qplus l acc).
Proof.
  revert acc. induction l as [|x l IH]; intro acc; simpl; [reflexivity|].
  apply IH.
Qed.

(** The mean of a nonempty column is a number. *)
Lemma col_mean_Fin (l : list Q) :
  l <> [] -> col_mean l = Fin (Qsum l / inject_Z (Z.of_nat (length l))).
Proof.
  intro Hl. unfold col_mean, fdiv.
  rewrite length_nonzero; [reflexivity|].
  destruct l; [congruence|discriminate].
Qed.

Lemma col_mean_nil : col_mean [] = NaN.
Proof. reflexivity. Qed.

End FloatFacts.

(** ** evaluate.py: the metrics *)

Module MetricsFacts.
Import PyFloat Forecast Evaluate FloatFacts.
Local Open Scope Q_scope.

Lemma select_actual (a p : list float) :
  select (map2 (fun x z => negb (isnan x || isnan z)) a p) a = map Fin (map fst (valid_pairs a p)).
Proof.
  unfold valid_pairs. revert p.
  induction a as [|x a IH]; intros [|z p]; simpl; try reflexivity.
  destruct x, z; simpl; rewrite IH; reflexivity.
Qed.

Lemma select_predicted (a p : list float) :
  select (map2 (fun x z => negb (isnan x || isnan z)) a p) p = map Fin (map snd (valid_pairs a p)).
Proof.
  unfold valid_pairs. revert p.
  induction a as [|x a IH]; intros [|z p]; simpl; try reflexivity.
  destruct x, z; simpl; rewrite IH; reflexivity.
Qed.

(** Cutting both sequences to the shorter length does not change the pairs. *)
Lemma valid_pairs_truncate (a p : list float) :
  let min_len := Nat.min (length a) (length p) in
  valid_pairs (firstn min_len a) (firstn min_len p) = valid_pairs a p.
Proof.
  cbv zeta. unfold valid_pairs.
  rewrite <- combine_firstn, firstn_all2; [reflexivity|].
  rewrite length_combine. lia.
Qed.

Lemma map2_sub_pairs (pairs : list (Q * Q)) :
  map2 fsub (map Fin (map fst pairs)) (map Fin (map snd pairs))
  = map Fin (map (fun ap => fst ap - snd ap) pairs).
Proof.
  induction pairs as [|[x z] pairs IH]; simpl; [reflexivity|].
  now rewrite IH.
Qed.

Section WithSqrt.
Context `{Sqrt}.

Lemma np_mean_Fin (l : list Q) :
  l <> [] -> np_mean (map Fin l) = Fin (Qmean l).
Proof.
  intro Hl. unfold np_mean, Qmean, fdiv.
  rewrite fold_fadd_Fin, length_map, length_nonzero; [reflexivity|].
  destruct l; [congruence|discriminate].
Qed.

(** The function in terms of the valid pairs. *)
Lemma evaluate_predictions_pairs (actual predicted : list float) :
  evaluate_predictions actual predicted =
  match valid_pairs actual predicted with
  | [] => nan_metrics
  | pairs =>
      {| mae := Fin (spec_mae pairs);
         rmse := np_sqrt (Fin (spec_mse pairs));
         error := None |}
  end.
Proof.
  unfold evaluate_predictions.
  set (ap := if negb (length actual =? length predicted)%nat then _ else _).
  assert (Hap : valid_pairs (fst ap) (snd ap) = valid_pairs actual predicted).
  { subst ap. destruct (negb _); [apply valid_pairs_truncate|reflexivity]. }
  destruct ap as [a p]. simpl in Hap.
  rewrite select_actual, select_predicted, Hap.
  destruct (valid_pairs actual predicted) as [|ap0 pairs] eqn:E;
    [reflexivity|].
  set (ps := ap0 :: pairs).
  replace (length (map Fin (map fst ps)) =? 0)%nat with false by reflexivity.
  rewrite map2_sub_pairs. unfold spec_mae, spec_mse.
  rewrite !map_map.
  rewrite <- (map_map (fun ap => Qabs (fst ap - snd ap)) Fin).
  rewrite <- (map_map (fun ap => (fst ap - snd ap) * (fst ap - snd ap)) Fin).
  rewrite !np_mean_Fin by discriminate. reflexivity.
Qed.

Lemma spec_mse_nonneg (pairs : list (Q * Q)) : 0 <= spec_mse pairs.
Proof.
  unfold spec_mse, Qmean.
  destruct pairs as [|ap pairs]; [vm_compute; discriminate|].
  apply Qle_shift_div_l; [apply length_pos; discriminate|].
  rewrite Qmult_0_l. apply Qsum_nonneg.
  apply Forall_forall. intros x Hx. apply in_map_iff in Hx.
  destruct Hx as [ap' [<- _]]. apply Qsquare_nonneg.
Qed.

Lemma Qmean_zero (l : list Q) : Forall (fun x => x == 0) l -> Qmean l == 0.
Proof.
  intro Hl. unfold Qmean. rewrite (Qsum_zero Hl).
  unfold Qdiv. ring.
Qed.

(** C7.  With [pairs] the pairs of the two sequences, up to the shorter
    length, in which neither value is NaN (cutting both sequences to the
    shorter length first leaves them unchanged): when no pair remains both
    metrics are NaN; otherwise [mae] is the mean of the absolute differences
    and [rmse] the square root of the mean of the squared differences; and
    on two equal sequences with a pair remaining both metrics are 0. *)
Theorem evaluate_predictions_spec (actual predicted : list float) :
  let min_len := Nat.min (length actual) (length predicted) in
  let pairs := valid_pairs actual predicted in
  let m := evaluate_predictions actual predicted in
  pairs = valid_pairs (firstn min_len actual) (firstn min_len predicted)
  /\ (pairs = [] -> mae m = NaN /\ rmse m = NaN)
  /\ (pairs <> [] ->
      mae m = Fin (spec_mae pairs) /\ rmse m = Fin (sqrtQ (spec_mse pairs)))
  /\ (SqrtLaws -> predicted = actual -> pairs <> [] ->
      feq (mae m) (Fin 0) /\ feq (rmse m) (Fin 0)).
Proof.
  cbv zeta. rewrite evaluate_predictions_pairs.
  split; [symmetry; apply valid_pairs_truncate|].
  assert (Hne : valid_pairs actual predicted <> [] ->
    mae match valid_pairs actual predicted with
        | [] => nan_metrics
        | pairs => {| mae := Fin (spec_mae pairs);
                      rmse := np_sqrt (Fin (spec_mse pairs)); error := None |}
        end = Fin (spec_mae (valid_pairs actual predicted))
    /\ rmse match valid_pairs actual predicted with
        | [] => nan_metrics
        | pairs => {| mae := Fin (spec_mae pairs);
                      rmse := np_sqrt (Fin (spec_mse pairs)); error := None |}
        end = Fin (sqrtQ (spec_mse (valid_pairs actual predicted)))).
  { destruct (valid_pairs actual predicted) as [|ap pairs] eqn:E;
      [congruence|]. intros _. simpl. split; [reflexivity|].
    replace (Qltb (spec_mse (ap :: pairs)) 0) with false; [reflexivity|].
    symmetry. apply Qltb_ge, spec_mse_nonneg. }
  split; [|split].
  - intros ->. now split.
  - exact Hne.
  - intros Laws -> Hpairs. destruct (Hne Hpairs) as [-> ->]. simpl.
    assert (Hdiag : Forall (fun ap => fst ap == snd ap) (valid_pairs actual actual)).
    { unfold valid_pairs. apply Forall_forall. intros [x z] Hin.
      apply in_flat_map in Hin. destruct Hin as [[u v] [Hc Hin]].
      assert (u = v).
      { clear -Hc. induction actual as [|w l IH]; simpl in Hc; [contradiction|].
        destruct Hc as [Hc|Hc]; [congruence|auto]. }
      subst v. destruct u; simpl in Hin; [contradiction|].
      destruct Hin as [Hin|[]]. inversion Hin. simpl. reflexivity. }
    split.
    + unfold spec_mae. apply Qmean_zero. apply Forall_forall.
      intros x Hx. apply in_map_iff in Hx. destruct Hx as [ap [<- Hap]].
      rewrite Forall_forall in Hdiag. rewrite (Hdiag ap Hap).
      setoid_replace (snd ap - snd ap) with 0 by ring. reflexivity.
    + assert (Hz : spec_mse (valid_pairs actual actual) == 0).
      { unfold spec_mse. apply Qmean_zero. apply Forall_forall.
        intros x Hx. apply in_map_iff in Hx. destruct Hx as [ap [<- Hap]].
        rewrite Forall_forall in Hdiag. rewrite (Hdiag ap Hap). ring. }
      rewrite (sqrtQ_proper Hz). apply sqrtQ_0.
Qed.

End WithSqrt.

Lemma Sqrt_trunc_laws : @SqrtLaws Sqrt_trunc.
Proof.
  split.
  - reflexivity.
  - intros x z E. simpl. unfold sqrt_trunc. now rewrite E.
Qed.

(** The sequences [10, 20] and [10, 20]; a sequence with a NaN against a
    shorter one; two empty sequences. *)
Lemma evaluate_predictions_spec_witness :
  (let m := @evaluate_predictions Sqrt_trunc [Fin 10; Fin 20] [Fin 10; Fin 20] in
   feq (mae m) (Fin 0) /\ feq (rmse m) (Fin 0))
  /\ (let m := @evaluate_predictions Sqrt_trunc
                 [Fin 10; NaN; Fin 3] [Fin 12; Fin 20] in
      mae m = Fin (spec_mae [(10, 12)])
      /\ rmse m = Fin (sqrt_trunc (spec_mse [(10, 12)])))
  /\ (let m := @evaluate_predictions Sqrt_trunc [] [] in
      mae m = NaN /\ rmse m = NaN).
Proof.
  split; [|split].
  - apply (@evaluate_predictions_spec Sqrt_trunc [Fin 10; Fin 20] [Fin 10; Fin 20]);
      [exact Sqrt_trunc_laws|reflexivity|discriminate].
  - apply (@evaluate_predictions_spec Sqrt_trunc [Fin 10; NaN; Fin 3] [Fin 12; Fin 20]).
    discriminate.
  - apply (@evaluate_predictions_spec Sqrt_trunc [] []). reflexivity.
Defined.

End MetricsFacts.

(** ** recommend.py and inference.py: the growth rate *)

Module GrowthFacts.
Import PyFloat Forecast FloatFacts.
Local Open Scope Q_scope.

Lemma growth_rate_of_nonpos (b : Q) (future_avg : float) :
  b <= 0 -> Inference.growth_rate_of (Fin b) future_avg = Fin 0.
Proof.
  intro Hb. unfold Inference.growth_rate_of. simpl.
  apply Qle_bool_iff in Hb. now rewrite Hb.
Qed.

Lemma growth_rate_of_pos (b f : Q) :
  0 < b ->
  Inference.growth_rate_of (Fin b) (Fin f) = Fin ((f - b) / b * 100).
Proof.
  intro Hb. unfold Inference.growth_rate_of. simpl.
  destruct (Qle_bool b 0) eqn:E; [apply Qle_bool_iff in E; lra|].
  replace (Qeq_bool b 0) with false; [reflexivity|].
  symmetry. apply Qeq_bool_false. lra.
Qed.

Lemma growth_rate_of_nan (future_avg : float) :
  Inference.growth_rate_of NaN future_avg = NaN.
Proof. destruct future_avg; reflexivity. Qed.

(** C9.  With [b] the baseline average (the mean of the past series in
    [compute_growth_rate], the stored [past_avg] in the inference loop) and
    [f] the mean of the future series: the growth rate is 0 whenever
    [b <= 0], whatever the future series, so in particular for [b = 0]; and
    for [b > 0] it is [(f - b) / b * 100], a division by a nonzero number.
    [compute_growth_rate] is the inference formula at the two means; on an
    empty past series the baseline is NaN, which is not [<= 0], and the
    formula gives NaN. *)
Theorem growth_rate_spec (past_sales future_sales : list Q) (b : Q) :
  Recommend.compute_growth_rate past_sales future_sales
  = Inference.growth_rate_of (col_mean past_sales) (col_mean future_sales)
  /\ (col_mean past_sales = Fin b -> b <= 0 ->
      Recommend.compute_growth_rate past_sales future_sales = Fin 0)
  /\ (col_mean past_sales = Fin b -> b == 0 ->
      Recommend.compute_growth_rate past_sales future_sales = Fin 0)
  /\ (forall f, col_mean past_sales = Fin b -> col_mean future_sales = Fin f ->
      0 < b ->
      ~ b == 0 /\
      Recommend.compute_growth_rate past_sales future_sales
      = Fin ((f - b) / b * 100))
  /\ (forall future_avg, b <= 0 ->
      Inference.growth_rate_of (Fin b) future_avg = Fin 0)
  /\ (forall f, 0 < b ->
      Inference.growth_rate_of (Fin b) (Fin f) = Fin ((f - b) / b * 100))
  /\ (col_mean past_sales = NaN ->
      Recommend.compute_growth_rate past_sales future_sales = NaN).
Proof.
  assert (Heq : Recommend.compute_growth_rate past_sales future_sales
    = Inference.growth_rate_of (col_mean past_sales) (col_mean future_sales))
    by reflexivity.
  split; [exact Heq|]. rewrite Heq.
  split; [intros -> Hb; now apply growth_rate_of_nonpos|].
  split; [intros -> Hb; apply growth_rate_of_nonpos; lra|].
  split; [intros f -> -> Hb; split; [lra|now apply growth_rate_of_pos]|].
  split; [intros fa Hb; now apply growth_rate_of_nonpos|].
  split; [intros f Hb; now apply growth_rate_of_pos|].
  intros ->. apply growth_rate_of_nan.
Qed.

(** A baseline of mean 0 against any forecast, and a baseline of mean 100
    against a forecast of mean 110. *)
Lemma growth_rate_spec_witness :
  Recommend.compute_growth_rate [5; -5] [7; 9] = Fin 0
  /\ Recommend.compute_growth_rate [-3; 1] [7; 9] = Fin 0
  /\ Recommend.compute_growth_rate [90; 110] [100; 120]
     = Fin ((((100 + 120) / 2) - ((90 + 110) / 2)) / ((90 + 110) / 2) * 100)
  /\ Inference.growth_rate_of (Fin 0) NaN = Fin 0
  /\ Inference.growth_rate_of (Fin 100) (Fin 110)
     = Fin ((110 - 100) / 100 * 100)
  /\ Recommend.compute_growth_rate [] [] = NaN.
Proof.
  destruct (growth_rate_spec [5; -5] [7; 9] ((5 + -5) / 2))
    as (_ & _ & Hzero & _).
  destruct (growth_rate_spec [-3; 1] [7; 9] ((-3 + 1) / 2))
    as (_ & Hneg & _).
  destruct (growth_rate_spec [90; 110] [100; 120] ((90 + 110) / 2))
    as (_ & _ & _ & Hpos & _).
  destruct (growth_rate_spec [] [] 0) as (_ & _ & _ & _ & Hinf0 & _).
  destruct (growth_rate_spec [] [] 100) as (_ & _ & _ & _ & _ & Hinf & Hnan).
  split; [apply Hzero; reflexivity|].
  split; [apply Hneg; [reflexivity|unfold Qle; simpl; lia]|].
  split; [apply Hpos; [reflexivity|reflexivity|reflexivity]|].
  split; [apply Hinf0; unfold Qle; simpl; lia|].
  split; [apply Hinf; reflexivity|].
  apply Hnan. reflexivity.
Defined.

End GrowthFacts.

(** ** recommend.py and inference.py: range and order of the scores *)

Module ScoreFacts.
Import PyFloat Forecast FloatFacts Recommend.
Local Open Scope Q_scope.

Lemma round_half_even_cases (x : Q) :
  round_half_even x = Qfloor x \/ round_half_even x = (Qfloor x + 1)%Z.
Proof.
  unfold round_half_even.
  destruct (Qltb _ _); [now left|].
  destruct (Qltb _ _); [now right|].
  destruct (Z.even _); [now left|now right].
Qed.

Lemma round_half_even_bounds (x : Q) (k : Z) :
  0 <= x -> x <= inject_Z k -> (0 <= round_half_even x <= k)%Z.
Proof.
  intros H0 Hk.
  assert (Hf0 : (0 <= Qfloor x)%Z).
  { change 0%Z with (Qfloor 0). now apply Qfloor_resp_le. }
  assert (Hfk : (Qfloor x <= k)%Z).
  { rewrite <- (Qfloor_Z k). now apply Qfloor_resp_le. }
  destruct (Z.eq_dec (Qfloor x) k) as [Heq|Hne].
  - pose proof (Qfloor_le x) as Hle. rewrite Heq in Hle.
    unfold round_half_even. rewrite Heq.
    replace (Qltb (x - inject_Z k) (1 # 2)) with true; [lia|].
    symmetry. apply Qltb_lt. lra.
  - destruct (round_half_even_cases x) as [-> | ->]; lia.
Qed.

Lemma pow10_pos (n : nat) : (0 < pow10 n)%Z.
Proof. unfold pow10. apply Z.pow_pos_nonneg; lia. Qed.

(** Rounding keeps a value of the unit interval inside it. *)
Lemma py_round_in_unit (q : Q) (n : nat) :
  0 <= q <= 1 -> in_unit (py_round (Fin q) n).
Proof.
  intros [H0 H1]. unfold py_round. eexists. split; [reflexivity|].
  pose proof (pow10_pos n) as Hp.
  assert (HpQ : 0 < inject_Z (pow10 n)).
  { unfold Qlt. simpl. lia. }
  destruct (@round_half_even_bounds (q * inject_Z (pow10 n)) (pow10 n)) as [Hr0 Hr1].
  - apply Qmult_le_0_compat; lra.
  - setoid_replace (inject_Z (pow10 n)) with (1 * inject_Z (pow10 n)) at 2 by ring.
    apply Qmult_le_r; assumption.
  - split.
    + apply Qle_shift_div_l; [exact HpQ|]. rewrite Qmult_0_l.
      unfold Qle. simpl. lia.
    + apply Qle_shift_div_r; [exact HpQ|]. rewrite Qmult_1_l.
      unfold Qle. simpl. lia.
Qed.

(** [min(1.0, max(0.0, x))] lies in the unit interval, for NaN too. *)
Lemma clamp_in_unit (x : float) : in_unit (min2 (Fin 1) (max2 (Fin 0) x)).
Proof.
  destruct x as [|q]; [exists 0; split; [reflexivity|lra]|].
  unfold max2, min2, fgt, flt.
  destruct (Qltb 0 q) eqn:E0.
  - apply Qltb_lt in E0. destruct (Qltb q 1) eqn:E1.
    + apply Qltb_lt in E1. exists q. split; [reflexivity|lra].
    + exists 1. split; [reflexivity|lra].
  - replace (Qltb 0 1) with true by reflexivity.
    exists 0. split; [reflexivity|lra].
Qed.

Lemma score_row_in_unit (pred_max growth_min growth_max : float) (r : Row) :
  in_unit (score_row pred_max growth_min growth_max r).
Proof. unfold score_row. apply clamp_in_unit. Qed.

Lemma inference_score_row_in_unit
    (pred_max growth_min growth_max : float) (r : Inference.Row) :
  in_unit (Inference.score_row pred_max growth_min growth_max r).
Proof.
  unfold Inference.score_row.
  destruct (clamp_in_unit
    (blend (sales_norm pred_max (Inference.predicted_sales r))
           (growth_norm growth_min growth_max (Inference.growth_rate r))))
    as [q [-> Hq]].
  now apply py_round_in_unit.
Qed.

Lemma StronglySorted_map {A B} (f : A -> B) (R : B -> B -> Prop) (l : list A) :
  StronglySorted (fun a b => R (f a) (f b)) l -> StronglySorted R (map f l).
Proof.
  induction 1 as [|x l Hs IH Hx]; simpl; constructor; [exact IH|].
  rewrite Forall_forall in *. intros z Hz.
  apply in_map_iff in Hz. destruct Hz as [w [<- Hw]]. auto.
Qed.

(** Sorting scored rows whose scores all lie in the unit interval. *)
Lemma sort_scored {A} (to_rec : A * float -> Recommendation)
    (rows : list (A * float)) :
  (forall rs, recommendation_score (to_rec rs) = snd rs) ->
  Forall (fun rs => in_unit (snd rs)) rows ->
  let out := map to_rec (PySort.sort (fun a b => fgt (snd a) (snd b)) rows) in
  Forall (fun r => in_unit (recommendation_score r)) out
  /\ StronglySorted score_ge out.
Proof.
  intros Hrec Hall out. subst out. split.
  - rewrite Forall_forall in *. intros r Hr.
    apply in_map_iff in Hr. destruct Hr as [rs [<- Hrs]].
    rewrite Hrec. apply Hall. now apply SortFacts.sort_in in Hrs.
  - apply StronglySorted_map. unfold score_ge.
    apply SortFacts.sort_sorted with (P := fun rs => in_unit (snd rs));
      [| | |exact Hall].
    + intros x z [qx [Ex _]] [qz [Ez _]]. rewrite !Hrec, Ex, Ez.
      unfold fgt. simpl. intro E. apply Qltb_lt in E.
      apply Qle_bool_iff. lra.
    + intros x z [qx [Ex _]] [qz [Ez _]]. rewrite !Hrec, Ex, Ez.
      unfold fgt. simpl. intro E. apply Qltb_ge in E.
      apply Qle_bool_iff. exact E.
    + intros x z w [qx [Ex _]] [qz [Ez _]] [qw [Ew _]].
      rewrite !Hrec, Ex, Ez, Ew. simpl. rewrite !Qle_bool_iff. lra.
Qed.

(** C2.  For every input of [build_recommendations] and of
    [get_recommendations_from_models] (every table of models and metadata,
    whatever the models predict and wherever they raise), every
    [recommendation_score] of the returned list is a number of [[0, 1]] and
    the list is in non-increasing order of [recommendation_score]. *)
Theorem scores_in_unit_and_sorted
    {Model : Type} `{Prophet Model}
    (forecast_results : PyDict.dict Data) (horizon : Z)
    (models_dict : PyDict.dict Model) (meta_dict : FS.Meta) (horizon_days : Z) :
  (let out := build_recommendations forecast_results horizon in
   Forall (fun r => in_unit (recommendation_score r)) out
   /\ StronglySorted score_ge out)
  /\ (let out :=
        Inference.get_recommendations_from_models models_dict meta_dict
          horizon_days in
      Forall (fun r => in_unit (recommendation_score r)) out
      /\ StronglySorted score_ge out).
Proof.
  split.
  - unfold build_recommendations.
    destruct (collect forecast_results horizon) as [[rows ps] gs].
    destruct rows as [|r rows]; [split; constructor|].
    apply sort_scored; [reflexivity|].
    apply Forall_forall. intros rs Hrs. apply in_map_iff in Hrs.
    destruct Hrs as [r' [<- _]]. apply score_row_in_unit.
  - unfold Inference.get_recommendations_from_models.
    destruct models_dict as [|mo models_dict]; [split; constructor|].
    destruct meta_dict as [|me meta_dict]; [split; constructor|].
    destruct (fold_left _ _ _) as [[rows ps] gs].
    destruct rows as [|r rows]; [split; constructor|].
    apply sort_scored; [reflexivity|].
    apply Forall_forall. intros rs Hrs. apply in_map_iff in Hrs.
    destruct Hrs as [r' [<- _]]. apply inference_score_row_in_unit.
Qed.

(** Three products with predicted totals 500, 300 and 150 and growth rates
    15.5, 10.2 and 5.0, given in another order: the ranking is A, B, C with
    scores 1.0, 0.5476 and 0.15. *)
Example three_products_ranked :
  let entry (name : string) (past future : Q) : string * Data :=
    (name, {| d_series := Some [(1%Z, past)];
              d_forecasts := [(30%Z, [(2%Z, future); (3%Z, future)])] |}) in
  let out :=
    build_recommendations
      [entry "C" (75000 # 1050) 75; entry "A" (250000 # 1155) 250;
       entry "B" (150000 # 1102) 150]%string 30 in
  map rec_product out = ["A"; "B"; "C"]%string
  /\ Forall2 feq (map rec_predicted_sales out) [Fin 500; Fin 300; Fin 150]
  /\ Forall2 feq (map rec_growth_rate out)
                 [Fin (155 # 10); Fin (102 # 10); Fin 5]
  /\ Forall2 feq (map recommendation_score out)
                 [Fin 1; Fin (5476 # 10000); Fin (15 # 100)].
Proof.
  intros entry out.
  split; [reflexivity|].
  split; [|split]; vm_compute; repeat constructor.
Qed.

End ScoreFacts.

(** ** recommend.py and inference.py: the two normalised signals *)

Module NormFacts.
Import PyFloat Forecast FloatFacts Recommend.
Local Open Scope Q_scope.

Lemma fold_max2_Fin (l : list Q) (a : Q) :
  exists m, fold_left max2 (map Fin l) (Fin a) = Fin m
            /\ In m (a :: l) /\ forall t, In t (a :: l) -> t <= m.
Proof.
  revert a. induction l as [|x l IH]; intro a; simpl.
  - exists a. split; [reflexivity|]. split; [now left|].
    intros t [<-|[]]. lra.
  - unfold max2 at 2, fgt, flt.
    destruct (Qltb a x) eqn:E;
      [apply Qltb_lt in E; destruct (IH x) as (m & Hm & Hin & Hle)
      |apply Qltb_ge in E; destruct (IH a) as (m & Hm & Hin & Hle)];
      exists m; (split; [exact Hm|]).
    + split; [simpl in Hin; tauto|].
      intros t [<-|Ht]; [|now apply Hle].
      specialize (Hle x (or_introl eq_refl)). lra.
    + split; [simpl in Hin; tauto|].
      intros t [<-|[<-|Ht]].
      * apply Hle. now left.
      * specialize (Hle a (or_introl eq_refl)). lra.
      * apply Hle. now right.
Qed.

Lemma fold_min2_Fin (l : list Q) (a : Q) :
  exists m, fold_left min2 (map Fin l) (Fin a) = Fin m
            /\ In m (a :: l) /\ forall t, In t (a :: l) -> m <= t.
Proof.
  revert a. induction l as [|x l IH]; intro a; simpl.
  - exists a. split; [reflexivity|]. split; [now left|].
    intros t [<-|[]]. lra.
  - unfold min2 at 2, flt.
    destruct (Qltb x a) eqn:E;
      [apply Qltb_lt in E; destruct (IH x) as (m & Hm & Hin & Hle)
      |apply Qltb_ge in E; destruct (IH a) as (m & Hm & Hin & Hle)];
      exists m; (split; [exact Hm|]).
    + split; [simpl in Hin; tauto|].
      intros t [<-|Ht]; [|now apply Hle].
      specialize (Hle x (or_introl eq_refl)). lra.
    + split; [simpl in Hin; tauto|].
      intros t [<-|[<-|Ht]].
      * apply Hle. now left.
      * specialize (Hle a (or_introl eq_refl)). lra.
      * apply Hle. now right.
Qed.

Lemma py_max_Fin (l : list Q) :
  l <> [] ->
  exists m, py_max (map Fin l) = Fin m /\ In m l /\ forall t, In t l -> t <= m.
Proof.
  destruct l as [|a l]; [congruence|]. intros _. apply fold_max2_Fin.
Qed.

Lemma py_min_Fin (l : list Q) :
  l <> [] ->
  exists m, py_min (map Fin l) = Fin m /\ In m l /\ forall t, In t l -> m <= t.
Proof.
  destruct l as [|a l]; [congruence|]. intros _. apply fold_min2_Fin.
Qed.

Lemma divisor_nonzero (m : Q) : Qeq_bool (divisor m) 0 = false.
Proof.
  unfold divisor. destruct (Qeq_bool m 0) eqn:E; [reflexivity|exact E].
Qed.

Lemma divisor_pos (m : Q) : 0 < m -> divisor m = m.
Proof.
  intro Hm. unfold divisor.
  replace (Qeq_bool m 0) with false; [reflexivity|].
  symmetry. apply Qeq_bool_false. lra.
Qed.

Lemma pred_max_of_Fin (ps : list float) (m : Q) :
  py_max ps = Fin m -> pred_max_of ps = Fin (divisor m).
Proof.
  intro Hm. unfold pred_max_of, py_or, divisor. rewrite Hm. simpl.
  destruct (Qeq_bool m 0); reflexivity.
Qed.

Lemma sales_norm_Fin (m s : Q) :
  sales_norm (Fin (divisor m)) (Fin s) = Fin (s / divisor m).
Proof.
  unfold sales_norm, truthy, fdiv. now rewrite divisor_nonzero.
Qed.

Lemma sales_norm_law_intro (totals : list Q) :
  totals <> [] ->
  sales_norm_law (map (fun t => Fin (Qround t 2)) totals) (map Fin totals).
Proof.
  intro Hne. destruct (py_max_Fin Hne) as (m & Hm & Hin & Hle).
  exists totals, m. repeat (split; [first [reflexivity|assumption]|]).
  split; [now apply pred_max_of_Fin|]. split.
  - intros t _ Hr. rewrite (pred_max_of_Fin _ Hm), sales_norm_Fin. simpl.
    now rewrite Hr.
  - intros Hpos t Ht Hr. rewrite (divisor_pos Hpos). specialize (Hle t Ht).
    split; [apply Qle_shift_div_r; [exact Hpos|]; lra|].
    split; intro E.
    + setoid_replace t with (t / m * m) by (field; lra). rewrite E. ring.
    + rewrite E. field. lra.
Qed.

Lemma growth_norm_law_intro (growths : list Q) :
  growths <> [] ->
  growth_norm_law (map (fun g => Fin (Qround g 2)) growths) (map Fin growths).
Proof.
  intro Hne.
  destruct (py_min_Fin Hne) as (lo & Hlo & Hinlo & Hlole).
  destruct (py_max_Fin Hne) as (hi & Hhi & Hinhi & Hhile).
  exists growths, lo, hi.
  repeat (split; [first [reflexivity|assumption]|]).
  split; [intros g Hg; split; auto|].
  split; [destruct growths; [congruence|exact Hlo]|].
  split; [destruct growths; [congruence|exact Hhi]|].
  split.
  - intros E g. unfold growth_norm, fgt, flt.
    replace (Qltb lo hi) with false; [reflexivity|].
    symmetry. apply Qltb_ge. lra.
  - intros Hlt g Hg. unfold growth_norm, fgt, flt.
    replace (Qltb lo hi) with true by (symmetry; apply Qltb_lt; exact Hlt).
    simpl. replace (Qeq_bool (hi - lo) 0) with false
      by (symmetry; apply Qeq_bool_false; lra).
    split; [reflexivity|].
    intro Hr. rewrite Hr.
    pose proof (Hlole g Hg). pose proof (Hhile g Hg).
    split.
    + apply Qle_shift_div_l; lra.
    + apply Qle_shift_div_r; lra.
Qed.

End NormFacts.

(** ** The first loop of the two ranking functions *)

Module LoopFacts.
Import PyFloat Exn Forecast FloatFacts Recommend.
Local Open Scope Q_scope.

Lemma fold_left_invariant {A B} (f : A -> B -> A) (Inv : A -> Prop) (l : list B) :
  (forall acc x, Inv acc -> Inv (f acc x)) ->
  forall init, Inv init -> Inv (fold_left f l init).
Proof.
  intro Hstep. induction l as [|x l IH]; simpl; auto.
Qed.

Lemma rounded_from_nil : rounded_from [] [].
Proof. exists []. now split. Qed.

Lemma rounded_from_snoc (fields values : list float) (q : Q) :
  rounded_from fields values ->
  rounded_from (fields ++ [py_round (Fin q) 2]) (values ++ [Fin q]).
Proof.
  intros (qs & -> & ->). exists (qs ++ [q]).
  rewrite !map_app. now split.
Qed.

Lemma rounded_from_nonempty (fields values : list float) :
  rounded_from fields values -> fields <> [] ->
  exists qs, qs <> [] /\ values = map Fin qs
             /\ fields = map (fun q => Fin (Qround q 2)) qs.
Proof.
  intros (qs & -> & ->) Hne. exists qs. split; [|now split].
  destruct qs; [now simpl in Hne|discriminate].
Qed.

Lemma growth_rate_of_Fin (b f : Q) :
  exists g, Inference.growth_rate_of (Fin b) (Fin f) = Fin g.
Proof.
  destruct (Qlt_le_dec 0 b) as [Hpos|Hle].
  - eexists. now apply GrowthFacts.growth_rate_of_pos.
  - exists 0. now apply GrowthFacts.growth_rate_of_nonpos.
Qed.

Lemma compute_growth_rate_Fin (past future : list Q) :
  past <> [] -> future <> [] ->
  exists g, compute_growth_rate past future = Fin g.
Proof.
  intros Hp Hf.
  change (compute_growth_rate past future)
    with (Inference.growth_rate_of (col_mean past) (col_mean future)).
  rewrite (col_mean_Fin Hp), (col_mean_Fin Hf). apply growth_rate_of_Fin.
Qed.

Lemma collect_step_inv (horizon : Z) (acc : Acc) (item : string * Data) :
  collect_inv acc -> collect_inv (collect_step horizon acc item).
Proof.
  destruct acc as [[rows ps] gs], item as [product data].
  intros [Hs Hg]. unfold collect_step.
  destruct (d_series data) as [series|]; [|now split].
  destruct (get_forecast (d_forecasts data) horizon) as [fc|]; [|now split].
  destruct series as [|p0 series]; [now split|].
  destruct fc as [|f0 fc]; [now split|].
  cbn [length Nat.eqb orb].
  destruct (@compute_growth_rate_Fin (map y (p0 :: series)) (yhat (f0 :: fc)))
    as [g Hgr]; [discriminate|discriminate|].
  rewrite Hgr. unfold collect_inv. rewrite !map_app. cbn [map].
  cbn [predicted_sales growth_rate].
  split; [unfold col_sum|]; now apply rounded_from_snoc.
Qed.

Lemma collect_shape (forecast_results : PyDict.dict Data) (horizon : Z) :
  collect_inv (collect forecast_results horizon).
Proof.
  unfold collect. apply fold_left_invariant.
  - intros acc x. apply collect_step_inv.
  - split; apply rounded_from_nil.
Qed.

Section WithProphet.
Context {Model : Type} `{Prophet Model}.

Lemma rank_step_inv (meta_dict : FS.Meta) (horizon_days : Z)
    (acc : Inference.Acc) (item : string * Model) :
  Inference.rank_inv (Inference.finite_meta meta_dict) acc ->
  Inference.rank_inv (Inference.finite_meta meta_dict)
           (Inference.rank_step meta_dict horizon_days acc item).
Proof.
  destruct acc as [[rows ps] gs], item as [product model].
  intros [Hs Hg]. unfold Inference.rank_step.
  destruct (PyDict.get meta_dict product) as [info|] eqn:Eget; [|now split].
  destruct (negb (Inference.info_truthy info)); [now split|].
  destruct (Exn.bind _ _) as [pred|e]; [|now split].
  destruct (Inference.tail horizon_days pred) as [|f0 tl] eqn:Etail;
    [now split|].
  cbn [length Nat.eqb]. unfold Inference.rank_inv. rewrite !map_app. cbn [map].
  cbn [Inference.predicted_sales Inference.growth_rate].
  split; [unfold col_sum; now apply rounded_from_snoc|].
  intro Hfin. specialize (Hg Hfin).
  assert (Hb : exists b, match FS.past_avg info with
                         | Some v => v
                         | None => Fin 0
                         end = Fin b).
  { specialize (Hfin product info Eget).
    destruct (FS.past_avg info) as [[|b]|]; [congruence|now exists b|now exists 0]. }
  destruct Hb as [b ->].
  rewrite (@col_mean_Fin (yhat (f0 :: tl))) by discriminate.
  destruct (growth_rate_of_Fin b
    (Qsum (yhat (f0 :: tl)) / inject_Z (Z.of_nat (length (yhat (f0 :: tl))))))
    as [g ->].
  now apply rounded_from_snoc.
Qed.

Lemma rank_shape (models_dict : PyDict.dict Model) (meta_dict : FS.Meta)
    (horizon_days : Z) :
  Inference.rank_inv (Inference.finite_meta meta_dict)
    (fold_left (Inference.rank_step meta_dict horizon_days) models_dict
               ([], [], [])).
Proof.
  apply fold_left_invariant.
  - intros acc x. apply rank_step_inv.
  - split; [|intros _]; apply rounded_from_nil.
Qed.

End WithProphet.

End LoopFacts.

(** ** sales_norm *)

Module SalesNormFacts.
Import PyFloat Exn Forecast FloatFacts Recommend NormFacts LoopFacts.
Local Open Scope Q_scope.
Local Open Scope string_scope.

(** C3, as the code has it.  In both ranking functions, when some product is
    ranked: [pred_sales_list] holds numbers with a largest one [m], and the
    divisor [pred_max] is [m], or 1 when [m] is 0.  A product whose predicted
    total is not changed by the rounding to two decimals has the total over
    [pred_max] as its [sales_norm]; when [m] is positive this is at most 1,
    and equal to 1 exactly when the total is [m] (so for every product that
    attains the maximum). *)
Theorem sales_norm_spec {Model : Type} `{Prophet Model} :
  (forall forecast_results horizon rows pred_sales_list growth_list,
      collect forecast_results horizon = (rows, pred_sales_list, growth_list) ->
      rows <> [] ->
      sales_norm_law (map predicted_sales rows) pred_sales_list)
  /\ (forall (models_dict : PyDict.dict Model) meta_dict horizon_days
             rows pred_sales_list growth_list,
      fold_left (Inference.rank_step meta_dict horizon_days) models_dict
                ([], [], [])
      = (rows, pred_sales_list, growth_list) ->
      rows <> [] ->
      sales_norm_law (map Inference.predicted_sales rows) pred_sales_list).
Proof.
  split.
  - intros fr h rows ps gs E Hne.
    pose proof (collect_shape fr h) as Hinv. rewrite E in Hinv.
    destruct Hinv as [Hs _].
    destruct (rounded_from_nonempty Hs) as (qs & Hqs & -> & ->).
    + destruct rows; [congruence|discriminate].
    + now apply sales_norm_law_intro.
  - intros models meta hd rows ps gs E Hne.
    pose proof (rank_shape models meta hd) as Hinv. rewrite E in Hinv.
    destruct Hinv as [Hs _].
    destruct (rounded_from_nonempty Hs) as (qs & Hqs & -> & ->).
    + destruct rows; [congruence|discriminate].
    + now apply sales_norm_law_intro.
Qed.

(** Two products with predicted totals 500 and 300, through
    [build_recommendations] and through the inference loop. *)
Lemma sales_norm_spec_witness :
  (let fr : PyDict.dict Data :=
     [("A", {| d_series := Some [(1%Z, 100)];
               d_forecasts := [(30%Z, [(2%Z, 250); (3%Z, 250)])] |});
      ("B", {| d_series := Some [(1%Z, 100)];
               d_forecasts := [(30%Z, [(2%Z, 150); (3%Z, 150)])] |})] in
   sales_norm_law (map predicted_sales (fst (fst (collect fr 30))))
                  (snd (fst (collect fr 30))))
  /\ (let models : PyDict.dict Toy.Model :=
        [("A", [(1%Z, 250); (2%Z, 250)]); ("B", [(1%Z, 150); (2%Z, 150)])] in
      let meta : FS.Meta :=
        [("A", FS.mkInfo (Some (Fin 100)) None);
         ("B", FS.mkInfo (Some (Fin 100)) None)] in
      let acc := fold_left (@Inference.rank_step _ Toy.ToyProphet meta 2)
                           models ([], [], []) in
      sales_norm_law (map Inference.predicted_sales (fst (fst acc)))
                     (snd (fst acc))).
Proof.
  split.
  - intro fr.
    apply (proj1 (@sales_norm_spec _ Toy.ToyProphet) fr 30%Z
             (fst (fst (collect fr 30))) (snd (fst (collect fr 30)))
             (snd (collect fr 30))); [reflexivity|discriminate].
  - intros models meta acc.
    apply (proj2 (@sales_norm_spec _ Toy.ToyProphet) models meta 2%Z
             (fst (fst acc)) (snd (fst acc)) (snd acc));
      [reflexivity|discriminate].
Defined.

(** The claim as worded fails.  With predicted totals 1/2 and 1/4 the
    maximum is 1/2, so the worded divisor [max(1/2, 1)] is 1 and the worded
    [sales_norm] values are 1/2 and 1/4; the code divides by 1/2 and gives 1
    and 1/2.  With totals -5 and -10 the product that does not have the
    maximum has a [sales_norm] of 2.  And with totals 100.004 and 50 the
    product with the maximum total has a [sales_norm] of 100/100.004, not 1:
    the row carries the total rounded to two decimals, which the second loop
    divides by the unrounded maximum. *)
Lemma sales_norm_counterexample :
  let entry (name : string) (total : Q) : string * Data :=
    (name, {| d_series := Some [(1%Z, 100)];
              d_forecasts := [(30%Z, [(2%Z, total)])] |}) in
  let norms (fr : PyDict.dict Data) : list float :=
    let '(rows, pred_sales_list, _) := collect fr 30 in
    map (fun r => sales_norm (pred_max_of pred_sales_list) (predicted_sales r))
        rows in
  (Forall2 feq (norms [entry "A" (1 # 2); entry "B" (1 # 4)])
               [Fin 1; Fin (1 # 2)]
   /\ ~ (1 == (1 # 2) / Qmax (1 # 2) 1))
  /\ (Forall2 feq (norms [entry "A" (-5); entry "B" (-10)]) [Fin 1; Fin 2]
      /\ ~ (2 < 1))
  /\ (Forall2 feq (norms [entry "A" (100004 # 1000); entry "B" 50])
                  [Fin (100000 # 100004); Fin (50000 # 100004)]
      /\ ~ ((100000 # 100004) == 1)).
Proof.
  intros entry norms.
  split; [split|split; split].
  1, 3, 5: vm_compute; repeat constructor.
  all: vm_compute; discriminate.
Qed.

End SalesNormFacts.

(** ** growth_norm *)

Module GrowthNormFacts.
Import PyFloat Exn Forecast FloatFacts Recommend NormFacts LoopFacts.
Local Open Scope Q_scope.
Local Open Scope string_scope.

Lemma growth_norm_degenerate (lo hi : Q) (g : float) :
  hi == lo -> growth_norm (Fin lo) (Fin hi) g = Fin (1 # 2).
Proof.
  intro E. unfold growth_norm, fgt, flt.
  replace (Qltb lo hi) with false; [reflexivity|].
  symmetry. apply Qltb_ge. lra.
Qed.

(** What the code guarantees of [growth_norm].  In both ranking functions,
    when some product is ranked (and, for the inference path, no stored
    baseline is NaN):
    [growth_list] holds numbers with a smallest one [lo] and a largest one
    [hi], which are [growth_min] and [growth_max].  When [hi] equals [lo]
    (one product, or all rates equal) every [growth_norm] is 1/2 and a row's
    score is a function of its [sales_norm] alone.  Otherwise a row's
    [growth_norm] is its rate rounded to two decimals, less [lo], over
    [hi - lo]; for a rate that the rounding leaves unchanged this is the
    min-max scaling of the rate, a number of the unit interval. *)
Lemma growth_norm_spec {Model : Type} `{Prophet Model} :
  (forall forecast_results horizon rows pred_sales_list growth_list,
      collect forecast_results horizon = (rows, pred_sales_list, growth_list) ->
      rows <> [] ->
      growth_norm_law (map growth_rate rows) growth_list)
  /\ (forall (models_dict : PyDict.dict Model) meta_dict horizon_days
             rows pred_sales_list growth_list,
      Inference.finite_meta meta_dict ->
      fold_left (Inference.rank_step meta_dict horizon_days) models_dict
                ([], [], [])
      = (rows, pred_sales_list, growth_list) ->
      rows <> [] ->
      growth_norm_law (map Inference.growth_rate rows) growth_list)
  /\ (forall pred_max lo hi, hi == lo ->
      (forall r, score_row pred_max (Fin lo) (Fin hi) r
                 = score_of_sales (sales_norm pred_max (predicted_sales r)))
      /\ (forall r, Inference.score_row pred_max (Fin lo) (Fin hi) r
                    = Inference.score_of_sales
                        (sales_norm pred_max (Inference.predicted_sales r)))).
Proof.
  split; [|split].
  - intros fr h rows ps gs E Hne.
    pose proof (collect_shape fr h) as Hinv. rewrite E in Hinv.
    destruct Hinv as [_ Hg].
    destruct (rounded_from_nonempty Hg) as (qs & Hqs & -> & ->).
    + destruct rows; [congruence|discriminate].
    + now apply growth_norm_law_intro.
  - intros models meta hd rows ps gs Hfin E Hne.
    pose proof (rank_shape models meta hd) as Hinv. rewrite E in Hinv.
    destruct Hinv as [_ Hg]. specialize (Hg Hfin).
    destruct (rounded_from_nonempty Hg) as (qs & Hqs & -> & ->).
    + destruct rows; [congruence|discriminate].
    + now apply growth_norm_law_intro.
  - intros pm lo hi E. split; intro r.
    + unfold score_row, score_of_sales.
      now rewrite (growth_norm_degenerate _ E).
    + unfold Inference.score_row, Inference.score_of_sales.
      now rewrite (growth_norm_degenerate _ E).
Qed.

(** Two products with growth rates 150 and 50 per cent, through
    [build_recommendations] and through the inference loop, and the
    degenerate case at one rate. *)
Lemma growth_norm_spec_example :
  (let fr : PyDict.dict Data :=
     [("A", {| d_series := Some [(1%Z, 100)];
               d_forecasts := [(30%Z, [(2%Z, 250); (3%Z, 250)])] |});
      ("B", {| d_series := Some [(1%Z, 100)];
               d_forecasts := [(30%Z, [(2%Z, 150); (3%Z, 150)])] |})] in
   growth_norm_law (map growth_rate (fst (fst (collect fr 30))))
                   (snd (collect fr 30)))
  /\ (let models : PyDict.dict Toy.Model :=
        [("A", [(1%Z, 250); (2%Z, 250)]); ("B", [(1%Z, 150); (2%Z, 150)])] in
      let meta : FS.Meta :=
        [("A", FS.mkInfo (Some (Fin 100)) None);
         ("B", FS.mkInfo (Some (Fin 100)) None)] in
      let acc := fold_left (@Inference.rank_step _ Toy.ToyProphet meta 2)
                           models ([], [], []) in
      growth_norm_law (map Inference.growth_rate (fst (fst acc))) (snd acc))
  /\ (forall r, score_row (Fin 500) (Fin (3 # 1)) (Fin (6 # 2)) r
                = score_of_sales (sales_norm (Fin 500) (predicted_sales r))).
Proof.
  destruct (@growth_norm_spec _ Toy.ToyProphet) as (Hbuild & Hinfer & Hdegen).
  split; [|split].
  - intro fr.
    apply (Hbuild fr 30%Z (fst (fst (collect fr 30))) (snd (fst (collect fr 30)))
                  (snd (collect fr 30))); [reflexivity|discriminate].
  - intros models meta acc.
    apply (Hinfer models meta 2%Z (fst (fst acc)) (snd (fst acc)) (snd acc));
      [|reflexivity|discriminate].
    intros product info. subst meta. cbn [PyDict.get].
    destruct (String.eqb "A" product);
      [intro E; inversion E; discriminate|].
    destruct (String.eqb "B" product);
      [intro E; inversion E; discriminate|discriminate].
  - apply (Hdegen (Fin 500) (3 # 1) (6 # 2)). reflexivity.
Defined.

(** C8, at two close growth rates.  Two products with baseline 100 and
    forecast means 101.004 and 101.0049 have growth rates 1.004 and 1.0049,
    so the observed minimum and maximum differ and the min-max scaling of
    the two rates is 0 and 1, inside the range 0 to 1 that the comment of
    the source announces.  Both rows carry the rate rounded to 1.0, which
    the second loop scales against the unrounded extremes: the code gives
    both products a [growth_norm] of (1 - 1.004) / 0.0009 = -40/9, in
    [build_recommendations] and, with models that predict 101.004 and
    101.0049 against stored baselines of 100, in
    [get_recommendations_from_models]. *)
Theorem growth_norm_close_rates :
  let entry (name : string) (future : Q) : string * Data :=
    (name, {| d_series := Some [(1%Z, 100)];
              d_forecasts := [(30%Z, [(2%Z, future)])] |}) in
  let fr := [entry "A" (101004 # 1000); entry "B" (1010049 # 10000)] in
  let rows := fst (fst (collect fr 30)) in
  let growth_list := snd (collect fr 30) in
  let models : PyDict.dict Toy.Model :=
    [("A", [(1%Z, 101004 # 1000)]); ("B", [(1%Z, 1010049 # 10000)])] in
  let meta : FS.Meta :=
    [("A", FS.mkInfo (Some (Fin 100)) None);
     ("B", FS.mkInfo (Some (Fin 100)) None)] in
  let acc := fold_left (@Inference.rank_step _ Toy.ToyProphet meta 30)
                       models ([], [], []) in
  let lo := 1004 # 1000 in
  let hi := 10049 # 10000 in
  Forall2 feq growth_list [Fin lo; Fin hi]
  /\ feq (growth_min_of growth_list) (Fin lo)
  /\ feq (growth_max_of growth_list) (Fin hi)
  /\ Forall2 feq
       (map (fun r => growth_norm (growth_min_of growth_list)
                                  (growth_max_of growth_list) (growth_rate r))
            rows)
       [Fin (-40 # 9); Fin (-40 # 9)]
  /\ Forall2 feq (snd acc) [Fin lo; Fin hi]
  /\ Forall2 feq
       (map (fun r => growth_norm (growth_min_of (snd acc))
                                  (growth_max_of (snd acc))
                                  (Inference.growth_rate r))
            (fst (fst acc)))
       [Fin (-40 # 9); Fin (-40 # 9)]
  /\ (lo - lo) / (hi - lo) == 0
  /\ (hi - lo) / (hi - lo) == 1
  /\ ~ (0 <= -40 # 9).
Proof.
  intros entry fr rows growth_list models meta acc lo hi.
  split; [vm_compute; repeat constructor|].
  split; [vm_compute; reflexivity|].
  split; [vm_compute; reflexivity|].
  split; [vm_compute; repeat constructor|].
  split; [vm_compute; repeat constructor|].
  split; [vm_compute; repeat constructor|].
  split; [vm_compute; reflexivity|].
  split; [vm_compute; reflexivity|].
  vm_compute. intro Hle. now apply Hle.
Qed.

End GrowthNormFacts.

(** ** Dictionaries *)

Module DictFacts.
Import PyDict.

Lemma get_set_same {V} (d : dict V) (k : string) (v : V) :
  get (set d k v) k = Some v.
Proof.
  induction d as [|[k' v'] d IH]; simpl.
  - now rewrite String.eqb_refl.
  - destruct (String.eqb k' k) eqn:E; simpl.
    + now rewrite String.eqb_refl.
    + now rewrite E.
Qed.

Lemma get_set_other {V} (d : dict V) (k k' : string) (v : V) :
  k <> k' -> get (set d k v) k' = get d k'.
Proof.
  intro Hne. induction d as [|[k0 v0] d IH]; simpl.
  - apply String.eqb_neq in Hne. now rewrite Hne.
  - destruct (String.eqb k0 k) eqn:E; simpl.
    + apply String.eqb_eq in E. subst k0.
      apply String.eqb_neq in Hne. now rewrite Hne.
    + destruct (String.eqb k0 k'); [reflexivity|exact IH].
Qed.

Lemma contains_set {V} (d : dict V) (k : string) (v : V) :
  contains (set d k v) k = true.
Proof. unfold contains. now rewrite get_set_same. Qed.

Lemma get_in {V} (d : dict V) (k : string) (v : V) :
  get d k = Some v -> In (k, v) d.
Proof.
  induction d as [|[k' v'] d IH]; simpl; [discriminate|].
  destruct (String.eqb k' k) eqn:E.
  - apply String.eqb_eq in E. subst k'. intro H. inversion H. now left.
  - intro H. right. now apply IH.
Qed.

End DictFacts.

(** ** inference.py: loading *)

Module LoadFacts.
Import PyFloat Exn Forecast FS Inference DictFacts.
Local Open Scope string_scope.

Section WithProphet.
Context {Model : Type} `{Prophet Model}.

Lemma load_step_models (files : list (string * File Model))
    (models : PyDict.dict Model) (meta : Meta) :
  fst (fold_left load_step files (models, meta))
  = fold_left load_model_step files models.
Proof.
  revert models meta. induction files as [|[name file] files IH];
    intros models meta; simpl; [reflexivity|].
  unfold load_model_step at 2. simpl.
  destruct (pickle_load file); apply IH.
Qed.

Lemma load_step_meta (models : PyDict.dict Model) (meta : Meta)
    (name : string) (file : File Model) :
  snd (load_step (models, meta) (name, file))
  = if negb (PyDict.contains meta (product_name_of name))
    then PyDict.set meta (product_name_of name) placeholder
    else meta.
Proof. unfold load_step. destruct (pickle_load file); reflexivity. Qed.

Lemma load_step_placeholder (st : PyDict.dict Model * Meta)
    (entry : string * File Model) :
  all_placeholder (snd st) ->
  all_placeholder (snd (load_step st entry))
  /\ PyDict.get (snd (load_step st entry)) (product_name_of (fst entry))
     = Some placeholder
  /\ (forall k, PyDict.contains (snd st) k = true ->
      PyDict.contains (snd (load_step st entry)) k = true).
Proof.
  destruct st as [models meta], entry as [name file].
  rewrite load_step_meta. cbn [fst snd]. intro Hall.
  set (k0 := product_name_of name).
  unfold PyDict.contains in *.
  destruct (PyDict.get meta k0) as [info|] eqn:Eget; simpl.
  - split; [exact Hall|]. split; [|auto].
    rewrite Eget. f_equal. exact (Hall _ _ Eget).
  - split; [|split].
    + intros k info. destruct (string_dec k0 k) as [<-|Hne].
      * rewrite get_set_same. congruence.
      * rewrite get_set_other by exact Hne. apply Hall.
    + apply get_set_same.
    + intros k. destruct (string_dec k0 k) as [<-|Hne].
      * now rewrite get_set_same.
      * now rewrite get_set_other by exact Hne.
Qed.

Lemma load_fold_placeholder (files : list (string * File Model))
    (st : PyDict.dict Model * Meta) :
  all_placeholder (snd st) ->
  all_placeholder (snd (fold_left load_step files st))
  /\ (forall entry, In entry files ->
      PyDict.get (snd (fold_left load_step files st))
                 (product_name_of (fst entry)) = Some placeholder)
  /\ (forall k, PyDict.contains (snd st) k = true ->
      PyDict.contains (snd (fold_left load_step files st)) k = true).
Proof.
  revert st. induction files as [|entry files IH]; intros st Hall; simpl.
  - split; [exact Hall|]. split; [intros e []|auto].
  - destruct (@load_step_placeholder st entry Hall) as (Hall' & Hget & Hmono).
    destruct (IH (load_step st entry) Hall') as (Hall'' & Hget' & Hmono').
    split; [exact Hall''|]. split; [|auto].
    intros e [<-|Hin]; [|now apply Hget'].
    assert (Hc : PyDict.contains (snd (fold_left load_step files (load_step st entry)))
                   (product_name_of (fst entry)) = true).
    { apply Hmono'. unfold PyDict.contains. now rewrite Hget. }
    unfold PyDict.contains in Hc.
    destruct (PyDict.get
                (snd (fold_left load_step files (load_step st entry)))
                (product_name_of (fst entry))) as [info|] eqn:E;
      [|discriminate].
    f_equal. exact (Hall'' _ _ E).
Qed.

(** C4.  A directory that does not exist gives an empty model map and empty
    metadata.  When the artifacts of a directory are one file that cannot be
    unpickled and one valid file, in either order, the model map holds the
    valid product and nothing else.  When the directory has no metadata file,
    every artifact found (loadable or not) has a metadata record, and every
    record of the metadata is the placeholder with [past_avg = 100].  And
    [get_recommendations_from_models] returns the empty list when the model
    map is empty, so in particular on what is loaded from a directory that
    does not exist. *)
Theorem load_models_spec :
  @load_models Model None = ([], [])
  /\ (forall (dir : Dir Model) corrupt_name corrupt valid_name model e,
      pickle_load corrupt = Raise e ->
      (filter (fun f => is_pkl (fst f)) dir
       = [(corrupt_name, corrupt); (valid_name, Pickle model)]
       \/ filter (fun f => is_pkl (fst f)) dir
          = [(valid_name, Pickle model); (corrupt_name, corrupt)]) ->
      fst (load_models (Some dir)) = [(product_name_of valid_name, model)])
  /\ (forall (dir : Dir Model),
      PyDict.get dir "meta.json" = None ->
      let meta := snd (load_models (Some dir)) in
      (forall name file, In (name, file) dir -> is_pkl name = true ->
         PyDict.get meta (product_name_of name) = Some placeholder)
      /\ (forall k info, PyDict.get meta k = Some info -> info = placeholder)
      /\ past_avg placeholder = Some (Fin 100))
  /\ (forall meta_dict horizon_days,
      @get_recommendations_from_models Model _ [] meta_dict horizon_days = [])
  /\ (forall horizon_days,
      @get_recommendations_from_models Model _ (fst (@load_models Model None))
        (snd (@load_models Model None)) horizon_days = []).
Proof.
  split; [reflexivity|]. split; [|split; [|split]].
  - intros dir cn corrupt vn model e Hbad Hfiles.
    unfold load_models. rewrite load_step_models.
    destruct Hfiles as [-> | ->]; simpl; unfold load_model_step; simpl;
      rewrite Hbad; reflexivity.
  - intros dir Hnone meta. subst meta. unfold load_models. rewrite Hnone.
    destruct (@load_fold_placeholder (filter (fun e => is_pkl (fst e)) dir) ([], []))
      as (Hall & Hget & _).
    { intros k info. discriminate. }
    split; [|split; [exact Hall|reflexivity]].
    intros name file Hin Hpkl.
    apply (Hget (name, file)). apply filter_In. now split.
  - reflexivity.
  - reflexivity.
Qed.

End WithProphet.

(** A directory with a damaged artifact and a valid one and no metadata
    file. *)
Lemma load_models_spec_witness :
  let model : Toy.Model := [(1%Z, 5%Q); (2%Z, 7%Q)] in
  let dir : Dir Toy.Model :=
    [("notes.txt", Garbage); ("bad.pkl", Garbage);
     ("Office_Chair.pkl", Pickle model)] in
  fst (@load_models Toy.Model (Some dir)) = [("Office Chair", model)]
  /\ PyDict.get (snd (@load_models Toy.Model (Some dir))) "bad"
     = Some placeholder
  /\ PyDict.get (snd (@load_models Toy.Model (Some dir))) "Office Chair"
     = Some placeholder.
Proof.
  intros model dir.
  destruct (@load_models_spec Toy.Model Toy.ToyProphet)
    as (_ & Hone & Hmeta & _).
  split; [|split].
  - apply (Hone dir "bad.pkl" Garbage "Office_Chair.pkl" model
             (OtherError "could not unpickle")); [reflexivity|].
    left. reflexivity.
  - apply (proj1 (Hmeta dir eq_refl) "bad.pkl" Garbage); [|reflexivity].
    right. now left.
  - apply (proj1 (Hmeta dir eq_refl) "Office_Chair.pkl" (Pickle model));
      [|reflexivity].
    right. right. now left.
Defined.

End LoadFacts.

(** ** Artifact names *)

Module NameFacts.
Import Forecast Inference Train.
Local Open Scope string_scope.

Lemma length_app_string (s t : string) :
  String.length (s ++ t) = (String.length s + String.length t)%nat.
Proof. induction s as [|c s IH]; simpl; [reflexivity|now rewrite IH]. Qed.

Lemma substring_0_all (m : nat) (s : string) :
  (String.length s <= m)%nat -> substring 0 m s = s.
Proof.
  revert m. induction s as [|c s IH]; intros [|m] Hle; simpl in *;
    try reflexivity; [lia|].
  rewrite IH; [reflexivity|lia].
Qed.

Lemma length_substring_0 (m : nat) (s : string) :
  String.length (substring 0 m s) = Nat.min m (String.length s).
Proof.
  revert m. induction s as [|c s IH]; intros [|m]; simpl; try reflexivity.
  now rewrite IH.
Qed.

Lemma substring_0_app (s t : string) :
  substring 0 (String.length s) (s ++ t) = s.
Proof. induction s as [|c s IH]; simpl; [now destruct t|now rewrite IH]. Qed.

Lemma substring_skip_app (s t : string) (m : nat) :
  substring (String.length s) m (s ++ t) = substring 0 m t.
Proof. induction s as [|c s IH]; simpl; [reflexivity|exact IH]. Qed.

Lemma rfind_dot_pkl (s : string) :
  PyPath.rfind_dot (s ++ ".pkl") = Some (String.length s).
Proof.
  induction s as [|c s IH]; [reflexivity|].
  cbn [append PyPath.rfind_dot String.length]. now rewrite IH.
Qed.

Lemma suffix_start_pkl (s : string) :
  s <> "" -> PyPath.suffix_start (s ++ ".pkl") = Some (String.length s).
Proof.
  intro Hne. unfold PyPath.suffix_start.
  rewrite rfind_dot_pkl, length_app_string.
  destruct s as [|c s]; [congruence|]. simpl String.length.
  replace (0 <? S (String.length s))%nat with true by reflexivity.
  replace (S (String.length s) <? S (String.length s) + 4 - 1)%nat with true;
    [reflexivity|].
  symmetry. apply Nat.ltb_lt. lia.
Qed.

Lemma stem_pkl (s : string) : s <> "" -> PyPath.stem (s ++ ".pkl") = s.
Proof.
  intro Hne. unfold PyPath.stem. rewrite (suffix_start_pkl Hne).
  apply substring_0_app.
Qed.

Lemma suffix_pkl (s : string) : s <> "" -> PyPath.suffix (s ++ ".pkl") = ".pkl".
Proof.
  intro Hne. unfold PyPath.suffix. rewrite (suffix_start_pkl Hne).
  rewrite substring_skip_app, length_app_string.
  replace (String.length s + String.length ".pkl" - String.length s)%nat
    with 4%nat by (simpl; lia).
  reflexivity.
Qed.

Lemma length_re_sub_unsafe (s : string) :
  String.length (re_sub_unsafe s) = String.length s.
Proof. induction s as [|c s IH]; simpl; [reflexivity|now rewrite IH]. Qed.

Lemma length_replace_underscores (s : string) :
  String.length (replace_underscores s) = String.length s.
Proof. induction s as [|c s IH]; simpl; [reflexivity|now rewrite IH]. Qed.

Lemma safe_fname_nonempty (product : string) :
  product <> "" -> Train._safe_fname product <> "".
Proof.
  destruct product as [|c s]; [congruence|]. intros _.
  unfold Train._safe_fname. simpl. discriminate.
Qed.

Lemma unsafe_chars_spelled :
  unsafe_chars
  = (list_ascii_of_string "<>:" ++ ["034"%char]
     ++ list_ascii_of_string "/\|?*")%list.
Proof. reflexivity. Qed.

(** The three copies of the sanitising function agree. *)
Lemma safe_fname_same (name : string) :
  Train._safe_fname name = Inference._safe_fname name
  /\ Train._safe_fname name = Forecast._safe_filename name.
Proof. now split. Qed.

(** The file written for a product, and its key after loading. *)
Lemma saved_name_nonempty (product : string) :
  product <> "" -> saved_name product = Train._safe_fname product ++ ".pkl".
Proof.
  intro Hne. unfold saved_name, pickle_path, artifact_path.
  rewrite (suffix_pkl (safe_fname_nonempty Hne)). reflexivity.
Qed.

Lemma loaded_key_nonempty (product : string) :
  product <> "" ->
  loaded_key product = replace_underscores (Train._safe_fname product).
Proof.
  intro Hne. unfold loaded_key, product_name_of.
  rewrite (saved_name_nonempty Hne), (stem_pkl (safe_fname_nonempty Hne)).
  reflexivity.
Qed.

Lemma is_pkl_app (s : string) : is_pkl (s ++ ".pkl") = true.
Proof.
  unfold is_pkl. rewrite length_app_string. simpl String.length.
  replace (4 <=? String.length s + 4)%nat with true
    by (symmetry; apply Nat.leb_le; lia).
  replace (String.length s + 4 - 4)%nat with (String.length s) by lia.
  rewrite substring_skip_app. reflexivity.
Qed.

Lemma saved_name_is_pkl (product : string) : is_pkl (saved_name product) = true.
Proof.
  destruct (string_dec product "") as [->|Hne]; [reflexivity|].
  rewrite (saved_name_nonempty Hne). apply is_pkl_app.
Qed.

Lemma replace_underscores_clean (s : string) :
  no_underscore (replace_underscores s) = true.
Proof.
  induction s as [|c s IH]; [reflexivity|].
  unfold no_underscore in *. simpl. rewrite IH, andb_true_r.
  destruct (Ascii.eqb c "_") eqn:E; [reflexivity|now rewrite E].
Qed.

Lemma replace_underscores_id (s : string) :
  no_underscore s = true -> replace_underscores s = s.
Proof.
  unfold no_underscore. induction s as [|c s IH]; [reflexivity|].
  simpl. intro Hc. apply andb_true_iff in Hc. destruct Hc as [Hc Hs].
  apply negb_true_iff in Hc. rewrite Hc, IH; auto.
Qed.

Lemma re_sub_unsafe_id (s : string) :
  no_unsafe_char s = true -> re_sub_unsafe s = s.
Proof.
  unfold no_unsafe_char. induction s as [|c s IH]; [reflexivity|].
  simpl. intro Hc. apply andb_true_iff in Hc. destruct Hc as [Hc Hs].
  apply negb_true_iff in Hc. rewrite Hc, IH; auto.
Qed.

(** Sanitising and then replacing underscores gives the name back only if
    the name had no unsafe character. *)
Lemma replace_re_sub_fixed (s : string) :
  replace_underscores (re_sub_unsafe s) = s -> no_unsafe_char s = true.
Proof.
  unfold no_unsafe_char. induction s as [|c s IH]; [reflexivity|].
  simpl. intro E. injection E as Hc Hs.
  rewrite (IH Hs), andb_true_r.
  destruct (is_unsafe c) eqn:Eu; [|reflexivity].
  simpl in Hc. rewrite <- Hc in Eu. discriminate.
Qed.

(** The key recovers the name exactly under the three conditions. *)
Lemma loaded_key_recovers (product : string) :
  product <> "" ->
  (loaded_key product = product
   <-> (String.length product <= 200)%nat
       /\ no_unsafe_char product = true
       /\ no_underscore product = true).
Proof.
  intro Hne. rewrite (loaded_key_nonempty Hne). unfold Train._safe_fname.
  split.
  - intro E.
    assert (Hlen : (String.length product <= 200)%nat).
    { apply (f_equal String.length) in E.
      rewrite length_replace_underscores, length_substring_0,
        length_re_sub_unsafe in E. lia. }
    rewrite substring_0_all in E by (rewrite length_re_sub_unsafe; exact Hlen).
    split; [exact Hlen|]. split; [now apply replace_re_sub_fixed|].
    rewrite <- E. apply replace_underscores_clean.
  - intros (Hlen & Hu & Hs).
    rewrite (re_sub_unsafe_id _ Hu), (substring_0_all _ Hlen).
    now apply replace_underscores_id.
Qed.

End NameFacts.

(** ** The round trip of a product name through the models directory *)

Module RoundTripFacts.
Import PyFloat Exn Forecast FS Inference Train DictFacts NameFacts.
Local Open Scope string_scope.

Section WithProphet.
Context {Model : Type} `{Prophet Model}.

(** Loading never overwrites a metadata record; it adds the placeholder
    under the keys that have none. *)
Lemma load_step_get (st : PyDict.dict Model * Meta)
    (entry : string * File Model) (k : string) :
  PyDict.get (snd (load_step st entry)) k
  = match PyDict.get (snd st) k with
    | Some info => Some info
    | None =>
        if String.eqb (product_name_of (fst entry)) k
        then Some placeholder else None
    end.
Proof.
  destruct st as [models meta], entry as [name file].
  rewrite LoadFacts.load_step_meta. cbn [fst snd].
  unfold PyDict.contains.
  destruct (String.eqb (product_name_of name) k) eqn:E.
  - apply String.eqb_eq in E. subst k.
    destruct (PyDict.get meta (product_name_of name)) eqn:Eg; simpl.
    + exact Eg.
    + apply get_set_same.
  - apply String.eqb_neq in E.
    destruct (PyDict.get meta (product_name_of name)) eqn:Eg; simpl.
    + now destruct (PyDict.get meta k).
    + rewrite get_set_other by exact E. now destruct (PyDict.get meta k).
Qed.

Lemma load_fold_get (files : list (string * File Model))
    (st : PyDict.dict Model * Meta) (k : string) :
  PyDict.get (snd (fold_left load_step files st)) k
  = match PyDict.get (snd st) k with
    | Some info => Some info
    | None =>
        if existsb (fun e => String.eqb (product_name_of (fst e)) k) files
        then Some placeholder else None
    end.
Proof.
  revert st. induction files as [|entry files IH]; intro st; simpl.
  - now destruct (PyDict.get (snd st) k).
  - rewrite IH, load_step_get.
    destruct (PyDict.get (snd st) k); [reflexivity|].
    destruct (String.eqb (product_name_of (fst entry)) k); reflexivity.
Qed.

(** The record consulted for an artifact found in the directory. *)
Lemma loaded_record (dir : Dir Model) (meta : Meta) (name : string)
    (file : File Model) :
  PyDict.get dir "meta.json" = Some (Json meta) ->
  In (name, file) dir -> is_pkl name = true ->
  PyDict.get (snd (load_models (Some dir))) (product_name_of name)
  = match PyDict.get meta (product_name_of name) with
    | Some info => Some info
    | None => Some placeholder
    end.
Proof.
  intros Hmeta Hin Hpkl. unfold load_models. rewrite Hmeta. simpl json_load.
  rewrite load_fold_get. cbn [snd].
  destruct (PyDict.get meta (product_name_of name)); [reflexivity|].
  replace (existsb _ _) with true; [reflexivity|].
  symmetry. apply existsb_exists. exists (name, file).
  split; [apply filter_In; now split|apply String.eqb_refl].
Qed.

(** C10, as the code has it.  For a nonempty product name, the key under
    which the saved artifact is loaded is the sanitised name cut to 200
    characters with underscores replaced by spaces.  It is the original name
    exactly when the name has at most 200 characters, none of the nine
    unsafe characters and no underscore; so a name with an underscore or an
    unsafe character is loaded under a different key.  The metadata record
    found under the loaded key is the one the metadata file holds under that
    key, when it holds one, and the placeholder with [past_avg = 100]
    otherwise. *)
Theorem artifact_round_trip :
  (forall product, product <> "" ->
     loaded_key product = replace_underscores (Train._safe_fname product)
     /\ (loaded_key product = product
         <-> (String.length product <= 200)%nat
             /\ no_unsafe_char product = true
             /\ no_underscore product = true))
  /\ (forall product, product <> "" ->
      no_underscore product = false \/ no_unsafe_char product = false ->
      loaded_key product <> product)
  /\ (forall (dir : Dir Model) meta product model,
      PyDict.get dir "meta.json" = Some (Json meta) ->
      In (saved_name product, Pickle model) dir ->
      let meta' := snd (load_models (Some dir)) in
      (PyDict.get meta (loaded_key product) = None ->
       PyDict.get meta' (loaded_key product) = Some placeholder)
      /\ (forall info, PyDict.get meta (loaded_key product) = Some info ->
          PyDict.get meta' (loaded_key product) = Some info)
      /\ past_avg placeholder = Some (Fin 100)).
Proof.
  split; [|split].
  - intros product Hne.
    split; [now apply loaded_key_nonempty|now apply loaded_key_recovers].
  - intros product Hne Hbad E.
    apply (loaded_key_recovers Hne) in E. destruct E as (_ & Hu & Hs).
    destruct Hbad as [Hbad|Hbad]; congruence.
  - intros dir meta product model Hmeta Hin meta'. subst meta'.
    unfold loaded_key.
    rewrite (@loaded_record dir meta _ _ Hmeta Hin (saved_name_is_pkl product)).
    split; [now intros ->|]. split; [now intros info ->|reflexivity].
Qed.

End WithProphet.

(** Training on a table with the one product [Office_Chair] and loading the
    directory it wrote: the key is [Office Chair], under which the metadata
    file holds nothing, so the placeholder is used.  And a name that the
    round trip recovers. *)
Lemma artifact_round_trip_witness :
  let df : Table :=
    [Forecast.mkRow 1 "Office_Chair" "Furniture" 5;
     Forecast.mkRow 2 "Office_Chair" "Furniture" 7] in
  let dir := snd (@run_training_only _ Toy.ToyProphet df None None) in
  let meta' := snd (@load_models Toy.Model (Some dir)) in
  loaded_key "Office_Chair" <> "Office_Chair"
  /\ PyDict.get meta' (loaded_key "Office_Chair") = Some placeholder
  /\ PyDict.get meta' "Office_Chair" = Some (info_of [(1%Z, 5%Q); (2%Z, 7%Q)])
  /\ loaded_key "Desk Lamp" = "Desk Lamp".
Proof.
  intros df dir meta'.
  destruct (@RoundTripFacts.artifact_round_trip Toy.Model)
    as (Hkey & Hdiff & Hmeta).
  split; [apply Hdiff; [discriminate|left; reflexivity]|].
  split.
  - apply (proj1 (Hmeta dir
                    [("Office_Chair", info_of [(1%Z, 5%Q); (2%Z, 7%Q)])]
                    "Office_Chair" [(1%Z, 5%Q); (2%Z, 7%Q)]
                    eq_refl (or_introl eq_refl))).
    reflexivity.
  - split; [reflexivity|].
    apply (Hkey "Desk Lamp"); [discriminate|].
    split; [simpl; lia|split; reflexivity].
Defined.

(** The claim as worded fails.  Training on a table with the two products
    [a_b] and [a b] writes two artifacts and a metadata file with both
    names.  The name [a_b] has an underscore and its artifact is loaded
    under the key [a b]; the record found there is the one training stored
    for the other product (baseline 7), not the placeholder.  And the empty
    name, which meets the three conditions of the claim, is loaded under the
    key [.pkl]. *)
Lemma artifact_round_trip_counterexample :
  let df : Table :=
    [Forecast.mkRow 1 "a_b" "x" 5; Forecast.mkRow 2 "a_b" "x" 7;
     Forecast.mkRow 1 "a b" "x" 6; Forecast.mkRow 2 "a b" "x" 8] in
  let dir := snd (@run_training_only _ Toy.ToyProphet df None None) in
  let models := fst (@load_models Toy.Model (Some dir)) in
  let meta' := snd (@load_models Toy.Model (Some dir)) in
  (no_underscore "a_b" = false
   /\ loaded_key "a_b" = "a b"
   /\ PyDict.keys models = ["a b"]
   /\ PyDict.get meta' (loaded_key "a_b")
      = Some (info_of [(1%Z, 6%Q); (2%Z, 8%Q)])
   /\ info_of [(1%Z, 6%Q); (2%Z, 8%Q)] <> placeholder
   /\ past_avg (info_of [(1%Z, 6%Q); (2%Z, 8%Q)]) = Some (Fin (14 # 2)))
  /\ ((String.length "" <= 200)%nat
      /\ no_unsafe_char "" = true /\ no_underscore "" = true
      /\ loaded_key "" = ".pkl" /\ loaded_key "" <> "").
Proof.
  intros df dir models meta'.
  split; repeat split; try reflexivity; try discriminate.
  simpl. lia.
Qed.

End RoundTripFacts.

(** ** train.py: the two entry points *)

Module TrainFacts.
Import PyFloat Exn Forecast FS Evaluate Recommend Train DictFacts.
Local Open Scope string_scope.

(** A nonempty table has a product, so the test for an empty product list
    can only succeed on an empty table, where the test for an empty table
    has already answered. *)
Lemma get_products_nonempty (df : Table) :
  df <> [] -> Preprocess.get_products df <> [].
Proof.
  destruct df as [|r df]; [congruence|]. intros _ E.
  unfold Preprocess.get_products in E.
  apply (f_equal (@length string)) in E.
  rewrite SortFacts.sort_length in E. simpl in E. discriminate.
Qed.

Lemma limit_products_nonempty (max_products : option Z) (products : list string) :
  products <> [] -> limit_products max_products products <> [].
Proof.
  intro Hne. unfold limit_products.
  destruct max_products as [n|]; [|exact Hne].
  destruct (0 <? n)%Z eqn:E; [|exact Hne]. apply Z.ltb_lt in E.
  destruct products as [|p products]; [congruence|].
  unfold iloc_to, slice_index.
  replace (n <? 0)%Z with false by (symmetry; apply Z.ltb_ge; lia).
  destruct (Z.to_nat (Z.min n (Z.of_nat (length (p :: products))))) eqn:En;
    [simpl length in En; lia|discriminate].
Qed.

Section WithProphet.
Context {Model : Type} `{Prophet Model} `{Sqrt}.

(** C5.  On an empty table [run_pipeline] returns the result with empty
    recommendations, empty metrics and the message [No data after
    preprocessing.], and [run_training_only] raises a [ValueError] with
    that message.  On an empty product list [run_pipeline] returns the
    result with empty recommendations, empty metrics and [No products
    found.], and [run_training_only] raises a [ValueError] with that
    message.  Neither writes to the models directory in these cases. *)
Theorem no_data_no_products
    (models_dir : option (Dir Model)) (val_days : Z) (max_products : option Z)
    (df : Table) (fs : Dir Model) :
  run_pipeline [] models_dir val_days max_products
  = (Return {| recommendations := []; metrics := [];
               message := Some "No data after preprocessing.";
               products_trained := None |}, mkdir models_dir)
  /\ run_training_only [] models_dir max_products
     = (Raise (ValueError "No data after preprocessing."), mkdir models_dir)
  /\ run_pipeline_products df [] val_days fs
     = (Return {| recommendations := []; metrics := [];
                  message := Some "No products found.";
                  products_trained := None |}, fs)
  /\ run_training_products df [] fs
     = (Raise (ValueError "No products found."), fs).
Proof. repeat split. Qed.

Lemma fs_blind_ret {A} (a : A) : fs_blind (@FS.ret Model A a).
Proof. intros fs fs'. reflexivity. Qed.

Lemma fs_blind_raise {A} (e : exn) : fs_blind (@FS.raise Model A e).
Proof. intros fs fs'. reflexivity. Qed.

Lemma fs_blind_lift {A} (r : result A) : fs_blind (@FS.lift Model A r).
Proof. intros fs fs'. reflexivity. Qed.

Lemma fs_blind_bind {A B} (c : M Model A) (k : A -> M Model B) :
  fs_blind c -> (forall a, fs_blind (k a)) -> fs_blind (FS.bind c k).
Proof.
  intros Hc Hk fs fs'. unfold FS.bind.
  specialize (Hc fs fs').
  destruct (c fs) as [[a|e] fs1], (c fs') as [[a'|e'] fs1']; simpl in Hc;
    try discriminate.
  - injection Hc as ->. apply Hk.
  - injection Hc as ->. reflexivity.
Qed.

Lemma fs_blind_train (series : Series) (product : string)
    (save_path : option string) :
  fs_blind (train_prophet_for_product series product save_path).
Proof.
  unfold train_prophet_for_product.
  destruct (negb prophet_installed); [apply fs_blind_raise|].
  destruct (length series <? 2)%nat; [apply fs_blind_raise|].
  apply fs_blind_bind; [apply fs_blind_lift|]. intro model.
  destruct save_path as [path|]; [|apply fs_blind_ret].
  apply fs_blind_bind; [intros fs fs'; reflexivity|].
  intros _. apply fs_blind_ret.
Qed.

Lemma fs_blind_one_product (df : Table) (product : string) (val_days : Z) :
  fs_blind (_train_and_evaluate_one_product df product val_days).
Proof.
  unfold _train_and_evaluate_one_product.
  destruct (length (_prepare_prophet_series df product) <? 10)%nat;
    [apply fs_blind_ret|].
  destruct (split_train_val _ _) as [train_series val_series].
  destruct (length train_series <? 2)%nat; [apply fs_blind_ret|].
  apply fs_blind_bind; [apply fs_blind_train|]. intro model_val.
  apply fs_blind_bind; [apply fs_blind_lift|]. intro m.
  apply fs_blind_bind; [apply fs_blind_train|]. intro model_full.
  apply fs_blind_bind; [apply fs_blind_lift|]. intro fc_30.
  apply fs_blind_bind; [apply fs_blind_lift|]. intro fc_90.
  apply fs_blind_ret.
Qed.

Lemma pipeline_step_metrics (df : Table) (val_days : Z) (st : @Loop Model)
    (product p : string) :
  PyDict.get (metrics_of (pipeline_step df val_days st product)) p
  = if String.eqb product p then
      match recorded (outcome df val_days product) with
      | Some m => Some m
      | None => PyDict.get (metrics_of st) p
      end
    else PyDict.get (metrics_of st) p.
Proof.
  destruct st as [[fr ms] fs]. unfold pipeline_step, outcome, metrics_of.
  pose proof (fs_blind_one_product df product val_days fs []) as Hb.
  destruct (_train_and_evaluate_one_product df product val_days fs)
    as [r fs1].
  simpl in Hb. rewrite <- Hb. clear Hb.
  destruct (String.eqb product p) eqn:E.
  - apply String.eqb_eq in E. subst p.
    destruct r as [[[[model|] m] data]|e]; simpl.
    + destruct (data_truthy data); simpl; [apply get_set_same|reflexivity].
    + reflexivity.
    + apply get_set_same.
  - apply String.eqb_neq in E.
    destruct r as [[[[model|] m] data]|e]; simpl.
    + destruct (data_truthy data); simpl;
        [now apply get_set_other|reflexivity].
    + reflexivity.
    + now apply get_set_other.
Qed.

(** After the loop, the record of each product of the list is the one its
    own outcome leaves: the metrics of a trained product, a NaN record with
    the error description for a product whose training raised, and none for
    a product skipped for insufficient data.  No product's outcome changes
    another product's record. *)
Lemma pipeline_loop_metrics (df : Table) (val_days : Z)
    (products : list string) (st : @Loop Model) (p : string) :
  PyDict.get (metrics_of (fold_left (pipeline_step df val_days) products st)) p
  = if existsb (String.eqb p) products then
      match recorded (outcome df val_days p) with
      | Some m => Some m
      | None => PyDict.get (metrics_of st) p
      end
    else PyDict.get (metrics_of st) p.
Proof.
  revert st. induction products as [|q products IH]; intro st; simpl;
    [reflexivity|].
  rewrite IH, pipeline_step_metrics. rewrite (String.eqb_sym p q).
  destruct (String.eqb q p) eqn:E; simpl.
  - apply String.eqb_eq in E. subst q.
    destruct (existsb (String.eqb p) products);
      destruct (recorded (outcome df val_days p)); reflexivity.
  - reflexivity.
Qed.

Lemma outcome_skipped (df : Table) (val_days : Z) (product : string) :
  (length (_prepare_prophet_series df product) < 10)%nat ->
  outcome df val_days product = Return (None, nan_metrics, empty_data).
Proof.
  intro Hlt. unfold outcome, _train_and_evaluate_one_product.
  apply Nat.ltb_lt in Hlt. now rewrite Hlt.
Qed.

(** A product that comes back with a model comes back with its data. *)
Lemma outcome_trained (df : Table) (val_days : Z) (product : string)
    (model : Model) (m : Metrics) (data : Data) :
  outcome df val_days product = Return (Some model, m, data) ->
  data_truthy data = true.
Proof.
  unfold outcome, _train_and_evaluate_one_product.
  destruct (length (_prepare_prophet_series df product) <? 10)%nat;
    [discriminate|].
  destruct (split_train_val _ _) as [train_series val_series].
  destruct (length train_series <? 2)%nat; [discriminate|].
  unfold FS.bind, FS.lift, FS.ret.
  repeat match goal with
         | |- context [match ?c with _ => _ end] =>
             destruct c; simpl; try discriminate
         end.
  intro E. injection E as _ _ <-. reflexivity.
Qed.

(** C1, as the code has it.  On a nonempty table [run_pipeline] returns a
    result, and for every product [p] the returned metrics map holds: when
    [p] is in the product list and its training or evaluation raised, the
    NaN record with the error description; when [p] is in the list and was
    trained, its metrics record; and no record when [p] was skipped for
    insufficient data or is not in the list.  The record of a product
    depends on the outcome of that product alone. *)
Theorem run_pipeline_metrics
    (df : Table) (models_dir : option (Dir Model)) (val_days : Z)
    (max_products : option Z) :
  df <> [] ->
  let products := limit_products max_products (Preprocess.get_products df) in
  exists res fs,
    run_pipeline df models_dir val_days max_products = (Return res, fs)
    /\ (forall p,
         PyDict.get (metrics res) p
         = if existsb (String.eqb p) products
           then recorded (outcome df val_days p) else None)
    /\ (forall p e, In p products -> outcome df val_days p = Raise e ->
         PyDict.get (metrics res) p
         = Some {| mae := NaN; rmse := NaN; error := Some (Exn.str e) |})
    /\ (forall p model m data, In p products ->
         outcome df val_days p = Return (Some model, m, data) ->
         PyDict.get (metrics res) p = Some m)
    /\ (forall p, In p products ->
         (length (_prepare_prophet_series df p) < 10)%nat ->
         PyDict.get (metrics res) p = None).
Proof.
  intros Hdf products.
  assert (Hne : products <> []).
  { apply limit_products_nonempty. now apply get_products_nonempty. }
  unfold run_pipeline. destruct df as [|r df]; [congruence|].
  fold products. unfold run_pipeline_products.
  destruct products as [|p0 products'] eqn:Ep; [congruence|].
  rewrite <- Ep in *.
  pose proof (fun p => @pipeline_loop_metrics (r :: df) val_days products
                         ([], [], mkdir models_dir) p) as Hloop.
  destruct (fold_left (pipeline_step (r :: df) val_days) products
                      ([], [], mkdir models_dir))
    as [[forecast_results ms] fs1].
  unfold metrics_of in Hloop. cbn [fst snd PyDict.get] in Hloop.
  destruct (FS.write_file "meta.json" _ fs1) as [u fs2].
  eexists. eexists. split; [reflexivity|]. cbn [metrics].
  assert (Hin : forall p, In p products -> existsb (String.eqb p) products = true).
  { intros p Hp. apply existsb_exists. exists p.
    split; [exact Hp|apply String.eqb_refl]. }
  split; [|split; [|split]].
  - intro p. rewrite Hloop.
    destruct (existsb (String.eqb p) products); [|reflexivity].
    now destruct (recorded (outcome (r :: df) val_days p)).
  - intros p e Hp He. rewrite Hloop, (Hin p Hp), He. reflexivity.
  - intros p model m data Hp Ho. rewrite Hloop, (Hin p Hp), Ho. simpl.
    now rewrite (outcome_trained _ _ _ Ho).
  - intros p Hp Hlt. rewrite Hloop, (Hin p Hp), (outcome_skipped _ _ _ Hlt).
    reflexivity.
Qed.

End WithProphet.

(** A table with three products: [A] with twelve observations, [C] with one,
    and [D] with twelve negative observations, on which the model of the
    examples refuses to fit. *)
Lemma run_pipeline_metrics_witness :
  let obs (name : string) (base : Q) : Table :=
    map (fun i => Forecast.mkRow (Z.of_nat i) name "x"
                    (base + inject_Z (Z.of_nat i))%Q)
        (seq 1 12) in
  let df : Table :=
    (obs "A" 10%Q ++ [Forecast.mkRow 1 "C" "x" 5] ++ obs "D" (-100)%Q)%list in
  exists res fs,
    @run_pipeline _ Toy.ToyProphet Sqrt_trunc df None 3 None = (Return res, fs)
    /\ PyDict.get (metrics res) "D"
       = Some {| mae := NaN; rmse := NaN; error := Some "fit failed" |}
    /\ PyDict.get (metrics res) "C" = None
    /\ PyDict.get (metrics res) "A"
       = recorded (@outcome _ Toy.ToyProphet Sqrt_trunc df 3 "A").
Proof.
  intros obs df.
  destruct (@run_pipeline_metrics _ Toy.ToyProphet Sqrt_trunc df None 3 None)
    as (res & fs & Hrun & Hall & Hraise & Hok & Hskip); [discriminate|].
  exists res, fs. split; [exact Hrun|].
  split; [|split].
  - apply (Hraise "D" (OtherError "fit failed"));
      [vm_compute; tauto|reflexivity].
  - apply Hskip; [vm_compute; tauto|vm_compute; lia].
  - apply (Hall "A").
Defined.

(** The claim as worded fails.  On the same table the product [C] is in the
    product list and [_train_and_evaluate_one_product] returns NaN metrics
    for it, but the metrics map that [run_pipeline] returns has records for
    [A] and [D] only. *)
Lemma skipped_product_counterexample :
  let obs (name : string) (base : Q) : Table :=
    map (fun i => Forecast.mkRow (Z.of_nat i) name "x"
                    (base + inject_Z (Z.of_nat i))%Q)
        (seq 1 12) in
  let df : Table :=
    (obs "A" 10%Q ++ [Forecast.mkRow 1 "C" "x" 5] ++ obs "D" (-100)%Q)%list in
  Preprocess.get_products df = ["A"; "C"; "D"]
  /\ @outcome _ Toy.ToyProphet Sqrt_trunc df 3 "C"
     = Return (None, nan_metrics, empty_data)
  /\ exists res fs,
       @run_pipeline _ Toy.ToyProphet Sqrt_trunc df None 3 None
       = (Return res, fs)
       /\ PyDict.keys (metrics res) = ["A"; "D"]
       /\ PyDict.get (metrics res) "C" = None.
Proof.
  intros obs df.
  split; [reflexivity|]. split; [reflexivity|].
  eexists. eexists. split; [vm_compute; reflexivity|].
  split; reflexivity.
Qed.

End TrainFacts.

(** * Further properties of the code *)

(** ** forecast.py: the series of a product *)

Module SeriesFacts.
Import PyFloat Forecast Evaluate Orders.

Lemma in_drop_duplicates (seen : list Z) (s : Series) (q : Point) :
  In q (drop_duplicates_ds seen s) ->
  In q s /\ ~ In (ds q) seen.
Proof.
  revert seen. induction s as [|p s IH]; intros seen Hin; [contradiction|].
  simpl in Hin. destruct (existsb (Z.eqb (ds p)) seen) eqn:E.
  - destruct (IH _ Hin) as [Hs Hseen]. split; [now right|exact Hseen].
  - destruct Hin as [<-|Hin].
    + split; [now left|]. intro Hc.
      assert (existsb (Z.eqb (ds p)) seen = true); [|congruence].
      apply existsb_exists. exists (ds p). split; [exact Hc|apply Z.eqb_refl].
    + destruct (IH _ Hin) as [Hs Hseen]. split; [now right|].
      intro Hc. apply Hseen. now right.
Qed.

Lemma drop_duplicates_dates (seen : list Z) (s : Series) (d : Z) :
  In d (map ds (drop_duplicates_ds seen s))
  <-> In d (map ds s) /\ ~ In d seen.
Proof.
  revert seen. induction s as [|p s IH]; intro seen; simpl; [tauto|].
  destruct (existsb (Z.eqb (ds p)) seen) eqn:E.
  - apply existsb_exists in E. destruct E as [z [Hz Ez]].
    apply Z.eqb_eq in Ez. subst z. rewrite IH. split.
    + intros [Hd Hn]. split; [now right|exact Hn].
    + intros [[Hd|Hd] Hn]; [subst d; contradiction|now split].
  - assert (Hp : ~ In (ds p) seen).
    { intro Hc. assert (existsb (Z.eqb (ds p)) seen = true); [|congruence].
      apply existsb_exists. exists (ds p). split; [exact Hc|apply Z.eqb_refl]. }
    simpl. rewrite IH. simpl. split.
    + intros [Hd|[Hd Hn]]; [subst d; split; [now left|exact Hp]|].
      split; [now right|]. intro Hc. apply Hn. now right.
    + intros [[Hd|Hd] Hn]; [now left|].
      destruct (Z.eq_dec (ds p) d) as [Heq|Hne]; [now left|].
      right. split; [exact Hd|]. intros [Hc|Hc]; [contradiction|contradiction].
Qed.

Lemma drop_duplicates_sorted (seen : list Z) (s : Series) :
  StronglySorted ds_le s -> StronglySorted ds_lt (drop_duplicates_ds seen s).
Proof.
  intro Hs. revert seen. induction Hs as [|p s Hs IH Hp]; intro seen; simpl;
    [constructor|].
  destruct (existsb (Z.eqb (ds p)) seen); [apply IH|].
  constructor; [apply IH|].
  apply Forall_forall. intros q Hq.
  destruct (in_drop_duplicates _ _ _ Hq) as [Hin Hseen].
  rewrite Forall_forall in Hp. specialize (Hp q Hin).
  unfold ds_le in Hp. unfold ds_lt.
  assert (ds q <> ds p) by (intro Heq; apply Hseen; now left). lia.
Qed.

Lemma ds_lt_le (s : Series) : StronglySorted ds_lt s -> StronglySorted ds_le s.
Proof.
  induction 1 as [|p s Hs IH Hp]; constructor; [exact IH|].
  eapply Forall_impl; [|exact Hp]. unfold ds_lt, ds_le. intros q Hq. lia.
Qed.

Lemma prepare_series_sorted (df : Table) (product : string) :
  StronglySorted ds_lt (_prepare_prophet_series df product).
Proof.
  unfold _prepare_prophet_series.
  apply drop_duplicates_sorted, SplitFacts.sort_values_ds_sorted.
Qed.

(** X1.  The series of a product has strictly increasing dates (so no date
    twice), each of its points is the date and the sales of a row of the
    table for that product, its dates are exactly the dates of the rows of
    that product, and it is empty exactly when the table has no row for the
    product. *)
Theorem prepare_series_spec (df : Table) (product : string) :
  let s := _prepare_prophet_series df product in
  StronglySorted ds_lt s
  /\ Forall (from_row df product) s
  /\ (forall d, In d (map ds s)
                <-> exists r, In r df /\ product_name r = product /\ date r = d)
  /\ (s = [] <-> Forall (fun r => product_name r <> product) df).
Proof.
  cbv zeta. unfold _prepare_prophet_series.
  set (rows := filter (fun r => String.eqb (product_name r) product) df).
  set (sub := map (fun r => (date r, sales r)) rows).
  assert (Hrows : forall r, In r rows <-> In r df /\ product_name r = product).
  { intro r. unfold rows. rewrite filter_In, String.eqb_eq. tauto. }
  assert (Hdates : forall d, In d (map ds (drop_duplicates_ds [] (sort_values_ds sub)))
            <-> exists r, In r df /\ product_name r = product /\ date r = d).
  { intro d. rewrite drop_duplicates_dates. split.
    - intros [Hd _]. apply in_map_iff in Hd. destruct Hd as [q [<- Hq]].
      apply SortFacts.sort_in in Hq. apply in_map_iff in Hq.
      destruct Hq as [r [<- Hr]]. apply Hrows in Hr. exists r. tauto.
    - intros [r (Hr & Hp & <-)]. split; [|intros []].
      apply in_map_iff. exists (date r, sales r). split; [reflexivity|].
      apply SortFacts.sort_in. apply in_map_iff. exists r.
      split; [reflexivity|]. apply Hrows. now split. }
  split; [apply drop_duplicates_sorted, SplitFacts.sort_values_ds_sorted|].
  split; [|split; [exact Hdates|]].
  - apply Forall_forall. intros q Hq.
    apply in_drop_duplicates in Hq. destruct Hq as [Hq _].
    apply SortFacts.sort_in in Hq. apply in_map_iff in Hq.
    destruct Hq as [r [<- Hr]]. apply Hrows in Hr.
    exists r. unfold ds, y. simpl. tauto.
  - split.
    + intro E. apply Forall_forall. intros r Hr Hp.
      assert (Hd : In (date r) (map ds (drop_duplicates_ds [] (sort_values_ds sub)))).
      { apply Hdates. exists r. tauto. }
      rewrite E in Hd. contradiction.
    + intro Hall. rewrite Forall_forall in Hall.
      destruct (drop_duplicates_ds [] (sort_values_ds sub)) as [|q s'] eqn:E;
        [reflexivity|].
      assert (Hd : In (ds q) (map ds (q :: s'))) by now left.
      apply Hdates in Hd.
      destruct Hd as [r (Hr & Hp & _)]. exfalso. exact (Hall r Hr Hp).
Qed.

Lemma StronglySorted_app_split {A} (R : A -> A -> Prop) (l1 l2 : list A) :
  StronglySorted R (l1 ++ l2) -> Forall (fun a => Forall (R a) l2) l1.
Proof.
  induction l1 as [|a l1 IH]; simpl; intro Hs; [constructor|].
  inversion Hs as [|? ? Hs' Ha]; subst. constructor; [|now apply IH].
  apply Forall_forall. intros b Hb. rewrite Forall_forall in Ha.
  apply Ha. apply in_or_app. now right.
Qed.

Lemma split_train_val_app (series : Series) (val_days : Z) :
  fst (split_train_val series val_days) ++ snd (split_train_val series val_days)
  = sort_values_ds series.
Proof.
  unfold split_train_val.
  destruct (Z.of_nat (length (sort_values_ds series)) <=? val_days)%Z; simpl.
  - apply app_nil_r.
  - apply firstn_skipn.
Qed.

(** X2.  The two parts of a split never overlap in time: together they are
    the series in date order, and no training point is later than a
    validation point.  On the series of a product, which has distinct
    dates, the two parts are the series itself cut in two and every
    training point is strictly earlier than every validation point. *)
Theorem split_no_leakage (series : Series) (df : Table) (product : string)
    (val_days : Z) :
  (let train := fst (split_train_val series val_days) in
   let val := snd (split_train_val series val_days) in
   train ++ val = sort_values_ds series
   /\ Forall (fun t => Forall (ds_le t) val) train)
  /\ (let s := _prepare_prophet_series df product in
      let train := fst (split_train_val s val_days) in
      let val := snd (split_train_val s val_days) in
      train ++ val = s
      /\ Forall (fun t => Forall (ds_lt t) val) train).
Proof.
  split.
  - cbv zeta. split; [apply split_train_val_app|].
    apply StronglySorted_app_split. rewrite split_train_val_app.
    apply SplitFacts.sort_values_ds_sorted.
  - cbv zeta.
    pose proof (prepare_series_sorted df product) as Hs.
    assert (Hid : sort_values_ds (_prepare_prophet_series df product)
                  = _prepare_prophet_series df product).
    { apply SplitFacts.sort_values_ds_id. now apply ds_lt_le. }
    pose proof (split_train_val_app (_prepare_prophet_series df product) val_days)
      as Happ.
    rewrite Hid in Happ. split; [exact Happ|].
    apply StronglySorted_app_split. now rewrite Happ.
Qed.

End SeriesFacts.

(** ** preprocess.py: the product list *)

Module ProductFacts.
Import Forecast Preprocess Orders.

Lemma ascii_compare_refl (a : ascii) : Ascii.compare a a = Eq.
Proof. unfold Ascii.compare. apply N.compare_refl. Qed.

Lemma ascii_compare_lt_trans (a b c : ascii) :
  Ascii.compare a b = Lt -> Ascii.compare b c = Lt -> Ascii.compare a c = Lt.
Proof.
  unfold Ascii.compare. rewrite !N.compare_lt_iff. apply N.lt_trans.
Qed.

Lemma string_compare_refl (s : string) : String.compare s s = Eq.
Proof.
  induction s as [|c s IH]; simpl; [reflexivity|].
  now rewrite ascii_compare_refl.
Qed.

Lemma string_compare_lt_trans (s1 s2 s3 : string) :
  String.compare s1 s2 = Lt -> String.compare s2 s3 = Lt ->
  String.compare s1 s3 = Lt.
Proof.
  revert s2 s3. induction s1 as [|c1 s1 IH]; intros [|c2 s2] [|c3 s3];
    simpl; try discriminate; try reflexivity.
  destruct (Ascii.compare c1 c2) eqn:E12; try discriminate;
    destruct (Ascii.compare c2 c3) eqn:E23; try discriminate; intros H12 H23.
  - apply Ascii.compare_eq_iff in E12, E23. subst c2 c3.
    rewrite ascii_compare_refl. now apply IH with s2.
  - apply Ascii.compare_eq_iff in E12. subst c2. now rewrite E23.
  - apply Ascii.compare_eq_iff in E23. subst c3. now rewrite E12.
  - now rewrite (ascii_compare_lt_trans _ _ _ E12 E23).
Qed.

Lemma str_le_trans (a b c : string) : str_le a b -> str_le b c -> str_le a c.
Proof.
  unfold str_le. intros Hab Hbc.
  destruct (String.compare a b) eqn:Eab; [| |congruence].
  - apply String.compare_eq_iff in Eab. now subst b.
  - destruct (String.compare b c) eqn:Ebc; [| |congruence].
    + apply String.compare_eq_iff in Ebc. subst c. rewrite Eab. discriminate.
    + rewrite (string_compare_lt_trans _ _ _ Eab Ebc). discriminate.
Qed.

Lemma sorted_strings_le (l : list string) :
  StronglySorted str_le (PySort.sort String.ltb l).
Proof.
  apply SortFacts.sort_sorted with (P := fun _ => True).
  - intros x z _ _ E. unfold String.ltb in E. unfold str_le.
    destruct (String.compare z x); congruence.
  - intros x z _ _ E. unfold String.ltb in E. unfold str_le.
    rewrite String.compare_antisym.
    destruct (String.compare z x); simpl; congruence.
  - intros x z w _ _ _. apply str_le_trans.
  - apply Forall_forall. trivial.
Qed.

Lemma unique_in (seen l : list string) (x : string) :
  In x (unique seen l) <-> In x l /\ ~ In x seen.
Proof.
  revert seen. induction l as [|z l IH]; intro seen; simpl; [tauto|].
  destruct (existsb (String.eqb z) seen) eqn:E.
  - apply existsb_exists in E. destruct E as [w [Hw Ew]].
    apply String.eqb_eq in Ew. subst w. rewrite IH. split.
    + intros [Hx Hn]. split; [now right|exact Hn].
    + intros [[Hx|Hx] Hn]; [subst x; contradiction|now split].
  - assert (Hz : ~ In z seen).
    { intro Hc. assert (existsb (String.eqb z) seen = true); [|congruence].
      apply existsb_exists. exists z. split; [exact Hc|apply String.eqb_refl]. }
    simpl. rewrite IH. simpl. split.
    + intros [Hx|[Hx Hn]]; [subst x; split; [now left|exact Hz]|].
      split; [now right|]. intro Hc. apply Hn. now right.
    + intros [[Hx|Hx] Hn]; [now left|].
      destruct (string_dec z x) as [Heq|Hne]; [now left|].
      right. split; [exact Hx|]. intros [Hc|Hc]; contradiction.
Qed.

Lemma unique_NoDup (seen l : list string) : NoDup (unique seen l).
Proof.
  revert seen. induction l as [|z l IH]; intro seen; simpl; [constructor|].
  destruct (existsb (String.eqb z) seen); [apply IH|].
  constructor; [|apply IH].
  intro Hc. apply unique_in in Hc. destruct Hc as [_ Hn]. apply Hn. now left.
Qed.

Lemma sorted_NoDup_strict (l : list string) :
  StronglySorted str_le l -> NoDup l -> StronglySorted str_lt l.
Proof.
  induction 1 as [|x l Hs IH Hx]; intro Hnd; constructor.
  - apply IH. now inversion Hnd.
  - inversion Hnd as [|? ? Hnotin _]; subst.
    apply Forall_forall. intros z Hz. rewrite Forall_forall in Hx.
    specialize (Hx z Hz). unfold str_le in Hx. unfold str_lt, String.ltb.
    destruct (String.compare x z) eqn:E; [|reflexivity|congruence].
    apply String.compare_eq_iff in E. subst z. contradiction.
Qed.

(** X3.  The product list is in strictly increasing order of the names (so
    it holds no name twice), and it holds exactly the names that occur in
    the table. *)
Theorem get_products_spec (df : Table) :
  StronglySorted str_lt (get_products df)
  /\ (forall name, In name (get_products df)
                   <-> In name (map product_name df)).
Proof.
  unfold get_products. split.
  - apply sorted_NoDup_strict; [apply sorted_strings_le|].
    eapply Permutation_NoDup;
      [apply Permutation_sym, SortFacts.sort_perm|apply unique_NoDup].
  - intro name. rewrite SortFacts.sort_in, unique_in. simpl. tauto.
Qed.

End ProductFacts.

(** ** evaluate.py: further properties of the metrics *)

Module MetricsMoreFacts.
Import PyFloat Exn Forecast Evaluate FloatFacts.
Local Open Scope Q_scope.

Lemma valid_pairs_swap (a p : list float) :
  valid_pairs p a = map (fun ap => (snd ap, fst ap)) (valid_pairs a p).
Proof.
  unfold valid_pairs. revert p.
  induction a as [|x a IH]; intros [|z p]; simpl; try reflexivity.
  rewrite IH. destruct x, z; reflexivity.
Qed.

Lemma Qsum_ext (l l' : list Q) : Forall2 Qeq l l' -> Qsum l == Qsum l'.
Proof.
  induction 1 as [|x x' l l' Hx _ IH]; [reflexivity|].
  now rewrite !Qsum_cons, Hx, IH.
Qed.

Lemma Qmean_ext (l l' : list Q) : Forall2 Qeq l l' -> Qmean l == Qmean l'.
Proof.
  intro Hl. unfold Qmean.
  rewrite (Qsum_ext Hl), (Forall2_length Hl). reflexivity.
Qed.

Lemma Forall2_map_same {A} (f g : A -> Q) (l : list A) :
  (forall x, f x == g x) -> Forall2 Qeq (map f l) (map g l).
Proof. intro Hfg. induction l; simpl; constructor; auto. Qed.

Lemma spec_mae_swap (pairs : list (Q * Q)) :
  spec_mae (map (fun ap => (snd ap, fst ap)) pairs) == spec_mae pairs.
Proof.
  unfold spec_mae. apply Qmean_ext. rewrite map_map.
  apply Forall2_map_same. intros [x z]. cbn [fst snd].
  rewrite Qabs_Qminus. reflexivity.
Qed.

Lemma spec_mse_swap (pairs : list (Q * Q)) :
  spec_mse (map (fun ap => (snd ap, fst ap)) pairs) == spec_mse pairs.
Proof.
  unfold spec_mse. apply Qmean_ext. rewrite map_map.
  apply Forall2_map_same. intros [x z]. cbn [fst snd]. ring.
Qed.

Lemma Qsum_zero_inv (l : list Q) :
  Forall (fun x => 0 <= x) l -> Qsum l == 0 -> Forall (fun x => x == 0) l.
Proof.
  induction 1 as [|x l Hx Hl IH]; intro Hs; [constructor|].
  rewrite Qsum_cons in Hs. pose proof (Qsum_nonneg Hl) as Hnn.
  constructor; [lra|]. apply IH. lra.
Qed.

Lemma Qabs_zero_iff (x : Q) : Qabs x == 0 <-> x == 0.
Proof.
  split; intro E.
  - pose proof (Qle_Qabs x) as H1. pose proof (Qle_Qabs (- x)) as H2.
    rewrite Qabs_opp in H2. lra.
  - rewrite E. reflexivity.
Qed.

Lemma spec_mae_nonneg (pairs : list (Q * Q)) : pairs <> [] -> 0 <= spec_mae pairs.
Proof.
  intro Hne. unfold spec_mae, Qmean.
  apply Qle_shift_div_l.
  - apply length_pos. rewrite length_map. destruct pairs; [congruence|discriminate].
  - rewrite Qmult_0_l. apply Qsum_nonneg. apply Forall_forall.
    intros x Hx. apply in_map_iff in Hx. destruct Hx as [ap [<- _]].
    apply Qabs_nonneg.
Qed.

Lemma spec_mae_zero_iff (pairs : list (Q * Q)) :
  pairs <> [] ->
  (spec_mae pairs == 0 <-> Forall (fun ap => fst ap == snd ap) pairs).
Proof.
  intro Hne. unfold spec_mae, Qmean.
  set (l := map (fun ap => Qabs (fst ap - snd ap)) pairs).
  assert (Hpos : 0 < inject_Z (Z.of_nat (length l))).
  { apply length_pos. unfold l. rewrite length_map.
    destruct pairs; [congruence|discriminate]. }
  assert (Hnn : Forall (fun x => 0 <= x) l).
  { apply Forall_forall. intros x Hx. apply in_map_iff in Hx.
    destruct Hx as [ap [<- _]]. apply Qabs_nonneg. }
  split.
  - intro E.
    assert (Hs : Qsum l == 0).
    { setoid_replace (Qsum l)
        with (Qsum l / inject_Z (Z.of_nat (length l)) * inject_Z (Z.of_nat (length l)))
        by (field; lra).
      rewrite E. ring. }
    pose proof (Qsum_zero_inv Hnn Hs) as Hz.
    apply Forall_forall. intros ap Hap. rewrite Forall_forall in Hz.
    assert (Hin : In (Qabs (fst ap - snd ap)) l).
    { unfold l. apply in_map_iff. now exists ap. }
    apply Hz in Hin. cbv beta in Hin.
    apply (proj1 (Qabs_zero_iff _)) in Hin. cbv beta. lra.
  - intro Hall.
    assert (Hz : Forall (fun x => x == 0) l).
    { apply Forall_forall. intros x Hx. apply in_map_iff in Hx.
      destruct Hx as [ap [<- Hap]]. rewrite Forall_forall in Hall.
      apply Qabs_zero_iff. rewrite (Hall ap Hap). ring. }
    rewrite (Qsum_zero Hz). unfold Qdiv. ring.
Qed.

Section WithSqrt.
Context `{Sqrt}.

Lemma evaluate_predictions_error_none (actual predicted : list float) :
  error (evaluate_predictions actual predicted) = None.
Proof.
  rewrite MetricsFacts.evaluate_predictions_pairs.
  now destruct (valid_pairs actual predicted).
Qed.

(** X4.  The metrics carry no error description.  The mean absolute error
    is NaN exactly when no valid pair remains; otherwise it is a
    nonnegative number, which is zero exactly when every valid pair has
    equal values.  Exchanging the two sequences does not change the mean
    absolute error, nor the root mean squared error. *)
Theorem evaluate_predictions_props (actual predicted : list float) :
  let m := evaluate_predictions actual predicted in
  let m' := evaluate_predictions predicted actual in
  let pairs := valid_pairs actual predicted in
  error m = None
  /\ match mae m with
     | NaN => pairs = []
     | Fin q =>
         pairs <> [] /\ 0 <= q
         /\ (q == 0 <-> Forall (fun ap => fst ap == snd ap) pairs)
     end
  /\ feq (mae m) (mae m')
  /\ (SqrtLaws -> feq (rmse m) (rmse m')).
Proof.
  cbv zeta. rewrite !MetricsFacts.evaluate_predictions_pairs.
  rewrite (valid_pairs_swap actual predicted).
  destruct (valid_pairs actual predicted) as [|ap pairs] eqn:E; simpl map.
  - repeat split.
  - set (ps := ap :: pairs). cbn [mae rmse error].
    change ((snd ap, fst ap) :: map (fun ap0 => (snd ap0, fst ap0)) pairs)
      with (map (fun ap0 : Q * Q => (snd ap0, fst ap0)) ps).
    split; [reflexivity|]. split; [|split].
    + split; [discriminate|].
      split; [apply spec_mae_nonneg; discriminate|].
      apply spec_mae_zero_iff. discriminate.
    + exact (Qeq_sym _ _ (spec_mae_swap ps)).
    + intro Laws. unfold np_sqrt.
      pose proof (MetricsFacts.spec_mse_nonneg ps) as H1.
      pose proof (MetricsFacts.spec_mse_nonneg
                    (map (fun ap0 : Q * Q => (snd ap0, fst ap0)) ps)) as H2.
      apply Qltb_ge in H1, H2. rewrite H1, H2. simpl.
      apply sqrtQ_proper. exact (Qeq_sym _ _ (spec_mse_swap ps)).
Qed.

End WithSqrt.

(** Three observations against three predictions, one of them NaN. *)
Lemma evaluate_predictions_props_witness :
  feq (rmse (@evaluate_predictions Sqrt_trunc [Fin 3; Fin 5; NaN] [Fin 4; Fin 9; Fin 1]))
      (rmse (@evaluate_predictions Sqrt_trunc [Fin 4; Fin 9; Fin 1] [Fin 3; Fin 5; NaN])).
Proof.
  apply (@evaluate_predictions_props Sqrt_trunc [Fin 3; Fin 5; NaN]
           [Fin 4; Fin 9; Fin 1]).
  exact MetricsFacts.Sqrt_trunc_laws.
Defined.

End MetricsMoreFacts.

(** ** evaluate.py: the forecast of one product *)

Module ProductForecastFacts.
Import PyFloat Exn Forecast Evaluate FloatFacts.

Section WithProphet.
Context {Model : Type} `{Prophet Model} `{Sqrt}.

Lemma split_lengths (series : Series) (val_days : Z) :
  let L := Z.of_nat (length series) in
  let train := fst (split_train_val series val_days) in
  let val := snd (split_train_val series val_days) in
  ((L <= val_days)%Z -> length val = 0%nat)
  /\ ((val_days <= 0)%Z -> length val = 0%nat)
  /\ ((0 < val_days < L)%Z ->
      length val = Z.to_nat val_days
      /\ length train = (length series - Z.to_nat val_days)%nat
      /\ val = last_points (Z.to_nat val_days) (sort_values_ds series)).
Proof.
  cbv zeta. unfold split_train_val.
  pose proof (SplitFacts.sort_values_ds_length series) as Hlen.
  rewrite Hlen.
  destruct (Z.of_nat (length series) <=? val_days)%Z eqn:E.
  - apply Z.leb_le in E. repeat split; try reflexivity; lia.
  - apply Z.leb_gt in E. cbn [fst snd]. unfold iloc_to, iloc_from, last_points.
    rewrite Hlen. split; [lia|]. split.
    + intro Hle. rewrite SplitFacts.slice_index_over by lia.
      rewrite length_skipn, Hlen. lia.
    + intros [Hpos Hlt]. rewrite SplitFacts.slice_index_mid by lia.
      rewrite length_skipn, length_firstn, Hlen.
      replace (Z.to_nat (Z.of_nat (length series) - val_days))
        with (length series - Z.to_nat val_days)%nat by lia.
      repeat split; lia.
Qed.

(** X5.  When the window is not positive, or the series has no more points
    than the window, or fewer than two points would be left for training,
    the metrics are NaN and the model is not consulted.  Otherwise the model
    is asked to predict at exactly the dates of the last [val_days] points of
    the series in date order; if it raises the error is passed on, and if
    not the metrics are those of the observed values of these points
    against the predictions. *)
Theorem evaluate_product_forecast_spec
    (series : Series) (model : Model) (val_days : Z) :
  let L := Z.of_nat (length series) in
  let val := last_points (Z.to_nat val_days) (sort_values_ds series) in
  ((val_days <= 0 \/ L <= val_days \/ L - val_days < 2)%Z ->
   evaluate_product_forecast series model val_days = Return nan_metrics)
  /\ ((0 < val_days /\ val_days + 2 <= L)%Z ->
      evaluate_product_forecast series model val_days
      = match predict model (map ds val) with
        | Return pred =>
            Return (evaluate_predictions (map (fun p => Fin (y p)) val)
                                         (map Fin (yhat pred)))
        | Raise e => Raise e
        end).
Proof.
  cbv zeta. unfold evaluate_product_forecast.
  destruct (split_lengths series val_days) as (Hle & Hneg & Hmid).
  cbv zeta in Hle, Hneg, Hmid.
  destruct (split_train_val series val_days) as [train val] eqn:E.
  cbn [fst snd] in *. split.
  - intros [Hc|[Hc|Hc]].
    + now rewrite (Hneg Hc).
    + now rewrite (Hle Hc).
    + destruct (Z.le_gt_cases val_days 0) as [Hn|Hp]; [now rewrite (Hneg Hn)|].
      destruct (Z.le_gt_cases (Z.of_nat (length series)) val_days) as [Hl|Hg];
        [now rewrite (Hle Hl)|].
      destruct Hmid as (Hv & Ht & _); [lia|].
      replace (length train <? 2)%nat with true
        by (symmetry; apply Nat.ltb_lt; lia).
      now rewrite orb_true_r.
  - intros [Hp Hl]. destruct Hmid as (Hv & Ht & Hval); [lia|].
    replace (length val =? 0)%nat with false
      by (symmetry; apply Nat.eqb_neq; lia).
    replace (length train <? 2)%nat with false
      by (symmetry; apply Nat.ltb_ge; lia).
    cbn [orb]. rewrite Hval. reflexivity.
Qed.

End WithProphet.

(** A series of five points with a window of two days, and the same series
    with a window of four days. *)
Lemma evaluate_product_forecast_spec_witness :
  let series : Series :=
    [(1%Z, 10%Q); (2%Z, 12%Q); (3%Z, 14%Q); (4%Z, 16%Q); (5%Z, 18%Q)] in
  @evaluate_product_forecast Sqrt_trunc _ Toy.ToyProphet series series 4
  = Return nan_metrics
  /\ @evaluate_product_forecast Sqrt_trunc _ Toy.ToyProphet series series 2
     = Return (@evaluate_predictions Sqrt_trunc [Fin 16; Fin 18]
                 [Fin 14; Fin 14]).
Proof.
  intro series.
  destruct (@evaluate_product_forecast_spec _ Toy.ToyProphet Sqrt_trunc
              series series 4) as [Hnan _].
  destruct (@evaluate_product_forecast_spec _ Toy.ToyProphet Sqrt_trunc
              series series 2) as [_ Hrun].
  split.
  - apply Hnan. right. right. vm_compute. reflexivity.
  - rewrite Hrun; [reflexivity|]. split; [lia|]. vm_compute. discriminate.
Defined.

End ProductForecastFacts.

(** ** recommend.py and inference.py: which products are ranked, and ties *)

Module RankingFacts.
Import PyFloat Exn Forecast FloatFacts Recommend Orders.

(** The sort is stable: the elements selected by a test that only equal
    elements pass keep the order they had. *)
Lemma insert_filter {A} (lt : A -> A -> bool) (p : A -> bool) (x : A)
    (l : list A) :
  (forall z w, p z = true -> p w = true -> lt w z = false) ->
  filter p (PySort.insert lt x l) = filter p (x :: l).
Proof.
  intro Heq. induction l as [|z l IH]; simpl; [reflexivity|].
  destruct (lt z x) eqn:E; simpl; [|reflexivity].
  simpl in IH. rewrite IH.
  destruct (p x) eqn:Px, (p z) eqn:Pz; try reflexivity.
  rewrite (Heq x z Px Pz) in E. discriminate.
Qed.

Lemma sort_filter {A} (lt : A -> A -> bool) (p : A -> bool) (l : list A) :
  (forall z w, p z = true -> p w = true -> lt w z = false) ->
  filter p (PySort.sort lt l) = filter p l.
Proof.
  intro Heq. induction l as [|x l IH]; simpl; [reflexivity|].
  rewrite (insert_filter _ _ _ _ Heq). simpl. now rewrite IH.
Qed.

Lemma filter_map_comm {A B} (f : A -> B) (p : B -> bool) (l : list A) :
  filter p (map f l) = map f (filter (fun a => p (f a)) l).
Proof.
  induction l as [|a l IH]; simpl; [reflexivity|].
  destruct (p (f a)); simpl; now rewrite IH.
Qed.

(** Rows scored and sorted, against the same rows scored and left in
    order. *)
Lemma sorted_against_order {A} (to_rec : A * float -> Recommendation)
    (rows : list (A * float)) (k : float) :
  (forall rs, recommendation_score (to_rec rs) = snd rs) ->
  let out := map to_rec (PySort.sort (fun a b => fgt (snd a) (snd b)) rows) in
  Permutation out (map to_rec rows)
  /\ filter (has_score k) out = filter (has_score k) (map to_rec rows).
Proof.
  intros Hrec out. subst out. split.
  - apply Permutation_map, SortFacts.sort_perm.
  - rewrite !filter_map_comm. f_equal. apply sort_filter.
    intros z w Hz Hw. unfold has_score in Hz, Hw. rewrite Hrec in Hz, Hw.
    unfold fgt, flt.
    destruct (snd z) as [|qz]; [discriminate|].
    destruct (snd w) as [|qw]; [discriminate|].
    destruct k as [|qk]; [discriminate|].
    apply Qeq_bool_eq in Hz, Hw. apply Qltb_ge. rewrite Hz, Hw. apply Qle_refl.
Qed.

Lemma collect_products_from (horizon : Z) (items : PyDict.dict Data) (acc : Acc) :
  map product (fst (fst (fold_left (collect_step horizon) items acc)))
  = map product (fst (fst acc)) ++ map fst (filter (eligible horizon) items).
Proof.
  revert acc. induction items as [|[name data] items IH]; intro acc; simpl.
  - now rewrite app_nil_r.
  - rewrite IH. destruct acc as [[rows ps] gs].
    unfold collect_step, eligible. cbn [fst snd].
    destruct (d_series data) as [series|]; [|reflexivity].
    destruct (get_forecast (d_forecasts data) horizon) as [fc|]; [|reflexivity].
    destruct ((length series =? 0)%nat || (length fc =? 0)%nat);
      cbn [negb fst snd]; [reflexivity|].
    rewrite map_app. cbn [map product]. now rewrite <- app_assoc.
Qed.

Lemma build_recommendations_sorted_form
    (forecast_results : PyDict.dict Data) (horizon : Z) :
  exists rows : list (Row * float),
    build_recommendations forecast_results horizon
    = map to_rec (PySort.sort (fun a b => fgt (snd a) (snd b)) rows)
    /\ scored_in_order forecast_results horizon = map to_rec rows
    /\ map (fun rs => product (fst rs)) rows
       = map fst (filter (eligible horizon) forecast_results).
Proof.
  unfold build_recommendations, scored_in_order.
  pose proof (collect_products_from horizon forecast_results ([], [], [])) as Hp.
  fold (collect forecast_results horizon) in Hp.
  destruct (collect forecast_results horizon) as [[rows ps] gs].
  cbn [fst snd map app] in Hp.
  exists (map (fun r => (r, score_row (pred_max_of ps) (growth_min_of gs)
                              (growth_max_of gs) r)) rows).
  rewrite !map_map. cbn [fst]. split; [|split; [reflexivity|exact Hp]].
  destruct rows; reflexivity.
Qed.

(** X6.  The products of the list that [build_recommendations] returns are
    the names of the entries with a nonempty series and a nonempty forecast
    for the horizon, each once, whatever else the dictionary holds: an entry
    without series or without forecast is left out without an error.  The
    list is a rearrangement of the rows scored in dictionary order, and rows
    of equal score stand in dictionary order. *)
Theorem build_recommendations_products
    (forecast_results : PyDict.dict Data) (horizon : Z) (k : float) :
  let out := build_recommendations forecast_results horizon in
  let in_order := scored_in_order forecast_results horizon in
  Permutation (map rec_product out)
              (map fst (filter (eligible horizon) forecast_results))
  /\ map rec_product in_order
     = map fst (filter (eligible horizon) forecast_results)
  /\ Permutation out in_order
  /\ filter (has_score k) out = filter (has_score k) in_order.
Proof.
  cbv zeta.
  destruct (build_recommendations_sorted_form forecast_results horizon)
    as (rows & -> & -> & Hp).
  destruct (@sorted_against_order Row to_rec rows k (fun rs => eq_refl))
    as [Hperm Hties].
  assert (Hprod : map rec_product (map to_rec rows)
                  = map fst (filter (eligible horizon) forecast_results)).
  { rewrite map_map. exact Hp. }
  split; [|split; [exact Hprod|split; [exact Hperm|exact Hties]]].
  rewrite <- Hprod. now apply Permutation_map.
Qed.

Section WithProphet.
Context {Model : Type} `{Prophet Model}.
Import FS Inference InferenceOrders.

Lemma rank_products_from (meta_dict : Meta) (horizon_days : Z)
    (items : PyDict.dict Model) (acc : Inference.Acc) :
  map Inference.product
      (fst (fst (fold_left (rank_step meta_dict horizon_days) items acc)))
  = map Inference.product (fst (fst acc))
    ++ map fst (filter (rankable meta_dict horizon_days) items).
Proof.
  revert acc. induction items as [|[name model] items IH]; intro acc; simpl.
  - now rewrite app_nil_r.
  - rewrite IH. destruct acc as [[rows ps] gs].
    unfold rank_step, rankable. cbn [fst snd].
    destruct (PyDict.get meta_dict name) as [info|]; [|reflexivity].
    destruct (info_truthy info); cbn [negb andb]; [|reflexivity].
    destruct (Exn.bind _ _) as [pred|e]; [|reflexivity].
    destruct (length (tail horizon_days pred) =? 0)%nat;
      cbn [negb fst snd]; [reflexivity|].
    rewrite map_app. cbn [map Inference.product]. now rewrite <- app_assoc.
Qed.

Lemma filter_rankable_no_meta (horizon_days : Z) (items : PyDict.dict Model) :
  filter (rankable [] horizon_days) items = [].
Proof. induction items as [|item items IH]; simpl; [reflexivity|exact IH]. Qed.

Lemma get_recommendations_sorted_form
    (models_dict : PyDict.dict Model) (meta_dict : Meta) (horizon_days : Z) :
  exists rows : list (Inference.Row * float),
    get_recommendations_from_models models_dict meta_dict horizon_days
    = map Inference.to_rec
          (PySort.sort (fun a b => fgt (snd a) (snd b)) rows)
    /\ (meta_dict <> [] ->
        scored_in_order models_dict meta_dict horizon_days
        = map Inference.to_rec rows)
    /\ map (fun rs => Inference.product (fst rs)) rows
       = map fst (filter (rankable meta_dict horizon_days) models_dict).
Proof.
  destruct models_dict as [|mo models_dict].
  { exists []. repeat split. }
  destruct meta_dict as [|me meta_dict].
  { exists []. split; [reflexivity|]. split; [congruence|].
    now rewrite filter_rankable_no_meta. }
  unfold get_recommendations_from_models, scored_in_order.
  pose proof (rank_products_from (me :: meta_dict) horizon_days
                (mo :: models_dict) ([], [], [])) as Hp.
  destruct (fold_left (rank_step (me :: meta_dict) horizon_days)
                      (mo :: models_dict) ([], [], [])) as [[rows ps] gs].
  cbn [fst snd map app] in Hp.
  exists (map (fun r => (r, Inference.score_row (pred_max_of ps)
                              (growth_min_of gs) (growth_max_of gs) r)) rows).
  rewrite !map_map. cbn [fst]. split; [|split; [reflexivity|exact Hp]].
  destruct rows; reflexivity.
Qed.

(** X7.  The products of the list that [get_recommendations_from_models]
    returns are the names of the models that have a nonempty metadata
    record, predict without raising and give a nonempty tail, each once: a
    model that raises or has no metadata is left out and the others are
    still ranked.  Rows of equal score stand in the order of the dictionary
    of models. *)
Theorem get_recommendations_products
    (models_dict : PyDict.dict Model) (meta_dict : Meta) (horizon_days : Z)
    (k : float) :
  let out :=
    get_recommendations_from_models models_dict meta_dict horizon_days in
  Permutation (map rec_product out)
              (map fst (filter (rankable meta_dict horizon_days) models_dict))
  /\ (meta_dict <> [] ->
      filter (has_score k) out
      = filter (has_score k)
               (scored_in_order models_dict meta_dict horizon_days)).
Proof.
  cbv zeta.
  destruct (get_recommendations_sorted_form models_dict meta_dict horizon_days)
    as (rows & -> & Hord & Hp).
  destruct (@sorted_against_order Inference.Row Inference.to_rec rows k
              (fun rs => eq_refl)) as [Hperm Hties].
  split.
  - rewrite <- Hp.
    replace (map (fun rs => Inference.product (fst rs)) rows)
      with (map rec_product (map Inference.to_rec rows))
      by (now rewrite map_map).
    now apply Permutation_map.
  - intro Hne. rewrite (Hord Hne). exact Hties.
Qed.

End WithProphet.

(** Three models of which the second raises when asked to predict: the
    first and the third are ranked. *)
Lemma get_recommendations_products_witness :
  let models : PyDict.dict Toy.Model :=
    [("A"%string, [(1%Z, 250%Q)]); ("B"%string, []);
     ("C"%string, [(1%Z, 150%Q)])] in
  let meta : FS.Meta :=
    [("A"%string, FS.mkInfo (Some (Fin 100)) None);
     ("B"%string, FS.mkInfo (Some (Fin 100)) None);
     ("C"%string, FS.mkInfo (Some (Fin 100)) None)] in
  let out :=
    @Inference.get_recommendations_from_models _ Brittle.BrittleProphet
      models meta 30 in
  map rec_product out = ["A"%string; "C"%string]
  /\ filter (has_score (Fin 1)) out
     = filter (has_score (Fin 1))
              (@InferenceOrders.scored_in_order _ Brittle.BrittleProphet
                 models meta 30).
Proof.
  intros models meta out. split; [reflexivity|].
  apply (@get_recommendations_products _ Brittle.BrittleProphet models meta
           30%Z (Fin 1)).
  discriminate.
Defined.

End RankingFacts.

(** ** Keys of dictionaries *)

Module DictKeyFacts.
Import PyDict.

Lemma contains_keys {V} (d : dict V) (k : string) :
  contains d k = true <-> In k (keys d).
Proof.
  unfold contains, keys. induction d as [|[k' v] d IH]; simpl.
  - split; [discriminate|contradiction].
  - destruct (String.eqb k' k) eqn:E.
    + apply String.eqb_eq in E. subst k'. split; [now left|reflexivity].
    + apply String.eqb_neq in E. rewrite IH. split; [now right|].
      intros [Hc|Hc]; [contradiction|exact Hc].
Qed.

Lemma keys_set {V} (d : dict V) (k k' : string) (v : V) :
  In k (keys (set d k' v)) <-> k = k' \/ In k (keys d).
Proof.
  unfold keys. induction d as [|[k0 v0] d IH]; simpl.
  - split; [intros [<-|[]]; now left|intros [->|[]]; now left].
  - destruct (String.eqb k0 k') eqn:E; simpl.
    + apply String.eqb_eq in E. subst k0. intuition congruence.
    + rewrite IH. tauto.
Qed.

Lemma keys_set_NoDup {V} (d : dict V) (k : string) (v : V) :
  NoDup (keys d) -> NoDup (keys (set d k v)).
Proof.
  unfold keys. induction d as [|[k0 v0] d IH]; simpl; intro Hnd.
  - constructor; [intros []|constructor].
  - inversion Hnd as [|? ? Hnotin Hnd']; subst.
    destruct (String.eqb k0 k) eqn:E; simpl.
    + apply String.eqb_eq in E. subst k0. now constructor.
    + apply String.eqb_neq in E. constructor; [|now apply IH].
      intro Hc. apply (keys_set d k0 k v) in Hc.
      destruct Hc as [Hc|Hc]; [congruence|contradiction].
Qed.

(** A key is looked up where it was last set. *)
Lemma get_set {V} (d : dict V) (k k' : string) (v : V) :
  get (set d k v) k' = if String.eqb k k' then Some v else get d k'.
Proof.
  destruct (String.eqb k k') eqn:E.
  - apply String.eqb_eq in E. subst k'. apply DictFacts.get_set_same.
  - apply String.eqb_neq in E. now apply DictFacts.get_set_other.
Qed.

Lemma in_set {V} (d : dict V) (k : string) (v : V) (n : string) (f : V) :
  In (n, f) (set d k v) -> (n, f) = (k, v) \/ In (n, f) d.
Proof.
  induction d as [|[k0 v0] d IH]; simpl.
  - intros [E|[]]. left. now symmetry.
  - destruct (String.eqb k0 k); simpl.
    + intros [E|Hin]; [left; now symmetry|right; now right].
    + intros [E|Hin]; [right; now left|].
      destruct (IH Hin); [now left|right; now right].
Qed.

Lemma get_In {V} (d : dict V) (k : string) (v : V) :
  get d k = Some v -> In (k, v) d.
Proof.
  induction d as [|[k0 v0] d IH]; simpl; [discriminate|].
  destruct (String.eqb k0 k) eqn:E.
  - apply String.eqb_eq in E. intro E'. injection E' as ->. subst k0.
    now left.
  - intro Hg. right. now apply IH.
Qed.

End DictKeyFacts.

(** ** inference.py: what is loaded *)

Module LoadMoreFacts.
Import PyFloat Exn Forecast FS Inference Loading DictFacts DictKeyFacts.
Local Open Scope string_scope.

Section WithModel.
Context {Model : Type}.

Lemma load_models_parts (dir : Dir Model) :
  load_models (Some dir)
  = fold_left load_step (filter (fun e => is_pkl (fst e)) dir)
              ([], stored_meta dir).
Proof. reflexivity. Qed.

Lemma load_models_fst (dir : Dir Model) :
  fst (load_models (Some dir))
  = fold_left load_model_step (filter (fun e => is_pkl (fst e)) dir) [].
Proof. rewrite load_models_parts. apply LoadFacts.load_step_models. Qed.

Lemma loaded_keys_from (files : list (string * File Model))
    (models : PyDict.dict Model) (k : string) :
  In k (PyDict.keys (fold_left load_model_step files models))
  <-> In k (PyDict.keys models)
      \/ exists name m, In (name, Pickle m) files /\ product_name_of name = k.
Proof.
  revert models. induction files as [|[name file] files IH]; intro models; simpl.
  - split; [now left|]. intros [Hk|(n & m & [] & _)]. exact Hk.
  - rewrite IH. unfold load_model_step. cbn [fst snd].
    destruct file as [m0|meta0|]; cbn [pickle_load].
    + rewrite keys_set. split.
      * intros [[->|Hk]|(n & m & Hin & Hn)].
        -- right. exists name, m0. split; [now left|reflexivity].
        -- now left.
        -- right. exists n, m. split; [now right|exact Hn].
      * intros [Hk|(n & m & [Hin|Hin] & Hn)].
        -- left. now right.
        -- injection Hin as -> ->. left. left. now symmetry.
        -- right. now exists n, m.
    + split.
      * intros [Hk|(n & m & Hin & Hn)]; [now left|].
        right. exists n, m. split; [now right|exact Hn].
      * intros [Hk|(n & m & [Hin|Hin] & Hn)]; [now left|discriminate|].
        right. now exists n, m.
    + split.
      * intros [Hk|(n & m & Hin & Hn)]; [now left|].
        right. exists n, m. split; [now right|exact Hn].
      * intros [Hk|(n & m & [Hin|Hin] & Hn)]; [now left|discriminate|].
        right. now exists n, m.
Qed.

Lemma loaded_keys_NoDup (files : list (string * File Model))
    (models : PyDict.dict Model) :
  NoDup (PyDict.keys models) ->
  NoDup (PyDict.keys (fold_left load_model_step files models)).
Proof.
  revert models. induction files as [|[name file] files IH]; intros models Hnd;
    simpl; [exact Hnd|].
  apply IH. unfold load_model_step. cbn [fst snd].
  destruct (pickle_load file); [now apply keys_set_NoDup|exact Hnd].
Qed.

Lemma loaded_keys_iff (dir : Dir Model) (k : string) :
  In k (PyDict.keys (fst (load_models (Some dir)))) <-> loadable_as dir k.
Proof.
  rewrite load_models_fst, loaded_keys_from. unfold loadable_as. split.
  - intros [[]|(n & m & Hin & Hn)]. apply filter_In in Hin.
    destruct Hin as [Hin Hp]. exists n, m. auto.
  - intros (n & m & Hin & Hp & Hn). right. exists n, m.
    split; [apply filter_In; now split|exact Hn].
Qed.

(** X8.  The keys of the model map that [load_models] returns are exactly
    the keys of the files of the directory that end in [.pkl] and can be
    unpickled; no key occurs twice (files with the same key share one entry);
    and files that do not end in [.pkl], [meta.json] among them, give no
    model. *)
Theorem load_models_keys (dir : Dir Model) :
  let models := fst (load_models (Some dir)) in
  (forall k, In k (PyDict.keys models) <-> loadable_as dir k)
  /\ NoDup (PyDict.keys models)
  /\ (models = [] <-> forall k, ~ loadable_as dir k).
Proof.
  cbv zeta. split; [apply loaded_keys_iff|]. split.
  - rewrite load_models_fst. apply loaded_keys_NoDup. constructor.
  - split.
    + intros E k Hk. apply loaded_keys_iff in Hk. rewrite E in Hk.
      contradiction.
    + intro Hnone.
      destruct (fst (load_models (Some dir))) as [|[k v] models] eqn:E;
        [reflexivity|].
      exfalso. apply (Hnone k). apply loaded_keys_iff. rewrite E. now left.
Qed.

(** X9.  Every product of the model map that [load_models] returns has a
    metadata record, so the ranking never meets a model without one.  The
    records that [meta.json] held are returned unchanged; a record is added,
    and then it is the placeholder, exactly for the keys of the [.pkl] files
    that [meta.json] did not hold, whether the file can be unpickled or
    not. *)
Theorem load_models_metadata (dir : Dir Model) :
  let models := fst (load_models (Some dir)) in
  let meta := snd (load_models (Some dir)) in
  Forall (fun k => PyDict.contains meta k = true) (PyDict.keys models)
  /\ Forall (fun k => PyDict.get meta k = PyDict.get (stored_meta dir) k)
            (PyDict.keys (stored_meta dir))
  /\ (forall k, PyDict.contains (stored_meta dir) k = false ->
        (artifact_as dir k -> PyDict.get meta k = Some placeholder)
        /\ (~ artifact_as dir k -> PyDict.get meta k = None)).
Proof.
  cbv zeta.
  assert (Hget : forall k,
    PyDict.get (snd (load_models (Some dir))) k
    = match PyDict.get (stored_meta dir) k with
      | Some info => Some info
      | None =>
          if existsb (fun e => String.eqb (product_name_of (fst e)) k)
                     (filter (fun e => is_pkl (fst e)) dir)
          then Some placeholder else None
      end).
  { intro k. rewrite load_models_parts, RoundTripFacts.load_fold_get.
    reflexivity. }
  assert (Hex : forall k,
    existsb (fun e => String.eqb (product_name_of (fst e)) k)
            (filter (fun e => is_pkl (fst e)) dir) = true
    <-> artifact_as dir k).
  { intro k. rewrite existsb_exists. unfold artifact_as. split.
    - intros ([n f] & Hin & Hn). apply filter_In in Hin.
      destruct Hin as [Hin Hp]. apply String.eqb_eq in Hn.
      exists n, f. auto.
    - intros (n & f & Hin & Hp & Hn). exists (n, f).
      split; [apply filter_In; now split|]. now apply String.eqb_eq. }
  split; [|split].
  - apply Forall_forall. intros k Hk.
    apply loaded_keys_iff in Hk.
    destruct Hk as (n & m & Hin & Hp & Hn).
    unfold PyDict.contains. rewrite Hget.
    destruct (PyDict.get (stored_meta dir) k); [reflexivity|].
    replace (existsb _ _) with true; [reflexivity|].
    symmetry. apply Hex. now exists n, (Pickle m).
  - apply Forall_forall. intros k Hk. apply contains_keys in Hk.
    unfold PyDict.contains in Hk. rewrite Hget.
    now destruct (PyDict.get (stored_meta dir) k).
  - intros k Hk. unfold PyDict.contains in Hk. rewrite Hget.
    destruct (PyDict.get (stored_meta dir) k); [discriminate|].
    split; intro Ha.
    + apply Hex in Ha. now rewrite Ha.
    + destruct (existsb _ _) eqn:E; [|reflexivity].
      apply Hex in E. contradiction.
Qed.

End WithModel.

(** A directory with a metadata file that knows one of three artifacts, one
    of which is damaged. *)
Lemma load_models_metadata_witness :
  let dir : Dir Toy.Model :=
    [("meta.json", Json [("Desk", mkInfo (Some (Fin 42)) None)]);
     ("Desk.pkl", Pickle [(1%Z, 5%Q)]); ("Lamp.pkl", Garbage);
     ("readme.txt", Garbage)] in
  let meta := snd (load_models (Some dir)) in
  PyDict.get meta "Lamp" = Some placeholder
  /\ PyDict.get meta "readme" = None
  /\ PyDict.get meta "Desk" = Some (mkInfo (Some (Fin 42)) None).
Proof.
  intros dir meta.
  destruct (load_models_metadata dir) as (_ & _ & Hnew).
  split; [|split; [|reflexivity]].
  - apply (Hnew "Lamp"); [reflexivity|].
    exists "Lamp.pkl", Garbage. split; [|split; reflexivity].
    right. right. now left.
  - apply (Hnew "readme"); [reflexivity|].
    intros (n & f & Hin & Hp & Hn).
    destruct Hin as [Hin|[Hin|[Hin|[Hin|[]]]]]; injection Hin as <- <-;
      discriminate.
Defined.

End LoadMoreFacts.

(** ** forecast.py and train.py: what training writes *)

Module TrainingFacts.
Import PyFloat Exn Forecast FS Evaluate Recommend Train Training Orders.
Import DictFacts DictKeyFacts.
Local Open Scope string_scope.

Section WithProphet.
Context {Model : Type} `{Prophet Model}.

Lemma train_prophet_for_product_spec_aux
    (series : Series) (product : string) (save_path : option string)
    (fs : Dir Model) :
  match train_prophet_for_product series product save_path fs with
  | (Return model, fs') =>
      fitted series = Some model
      /\ fit series = Return model
      /\ (2 <= length series)%nat
      /\ fs' = match save_path with
               | Some path => PyDict.set fs (pickle_path path) (Pickle model)
               | None => fs
               end
  | (Raise e, fs') => fitted series = None /\ fs' = fs
  end.
Proof.
  unfold train_prophet_for_product, fitted.
  destruct (negb prophet_installed); [now split|].
  destruct (length series <? 2)%nat eqn:E; [now split|].
  apply Nat.ltb_ge in E.
  unfold FS.bind, FS.lift. destruct (fit series) as [model|e]; [|now split].
  destruct save_path as [path|]; cbn; repeat split; assumption.
Qed.

(** X10.  [train_prophet_for_product] comes back with a model exactly when
    Prophet is installed, the series has at least two points and the fit
    does not raise; the model is the fitted one, and the models directory
    is then changed by one write, of the pickled model at the save path with
    the suffix [.pkl], or not at all when no save path is given.  When it
    raises, the directory is left as it was, and the error is a
    [RuntimeError] when Prophet is not installed, else a [ValueError] when
    the series has fewer than two points, else the error of the fit. *)
Theorem train_prophet_for_product_spec
    (series : Series) (product : string) (save_path : option string)
    (fs : Dir Model) :
  match train_prophet_for_product series product save_path fs with
  | (Return model, fs') =>
      fitted series = Some model
      /\ fit series = Return model
      /\ (2 <= length series)%nat
      /\ fs' = match save_path with
               | Some path => PyDict.set fs (pickle_path path) (Pickle model)
               | None => fs
               end
  | (Raise e, fs') =>
      fitted series = None /\ fs' = fs
      /\ (if negb prophet_installed then exists msg, e = RuntimeError msg
          else if (length series <? 2)%nat then exists msg, e = ValueError msg
               else fit series = Raise e)
  end.
Proof.
  unfold train_prophet_for_product, fitted.
  destruct (negb prophet_installed); [repeat split; now eexists|].
  destruct (length series <? 2)%nat eqn:E; [repeat split; now eexists|].
  apply Nat.ltb_ge in E.
  unfold FS.bind, FS.lift. destruct (fit series) as [model|e];
    [|now repeat split].
  destruct save_path as [path|]; cbn; repeat split; assumption.
Qed.

Lemma train_result (series : Series) (product : string)
    (save_path : option string) (fs : Dir Model) :
  train_prophet_for_product series product save_path fs
  = match fitted series with
    | Some model =>
        (Return model,
         match save_path with
         | Some path => PyDict.set fs (pickle_path path) (Pickle model)
         | None => fs
         end)
    | None => (fst (train_prophet_for_product series product save_path fs), fs)
    end.
Proof.
  pose proof (train_prophet_for_product_spec_aux series product save_path fs)
    as Hs.
  destruct (train_prophet_for_product series product save_path fs)
    as [[model|e] fs'].
  - destruct Hs as (-> & _ & _ & ->). reflexivity.
  - destruct Hs as (-> & ->). reflexivity.
Qed.

Lemma training_step_trained (df : Table) (meta : Meta) (fs : Dir Model)
    (p : string) :
  training_step df (meta, fs) p
  = match trained df p with
    | Some model =>
        (PyDict.set meta p (info_of (_prepare_prophet_series df p)),
         PyDict.set fs (saved_name p) (Pickle model))
    | None => (meta, fs)
    end.
Proof.
  unfold training_step, trained.
  destruct (length (_prepare_prophet_series df p) <? 2)%nat eqn:E.
  - unfold fitted. rewrite E. now destruct (negb prophet_installed).
  - pose proof (train_prophet_for_product_spec_aux
                  (_prepare_prophet_series df p) p (Some (artifact_path p)) fs)
      as Hs.
    destruct (train_prophet_for_product _ p (Some (artifact_path p)) fs)
      as [[model|e] fs1].
    + destruct Hs as (-> & _ & _ & ->). reflexivity.
    + destruct Hs as (-> & ->). reflexivity.
Qed.

(** The metadata after the loop of [run_training_only]. *)
Lemma training_fold_meta (df : Table) (products : list string)
    (meta : Meta) (fs : Dir Model) (p : string) :
  PyDict.get (fst (fold_left (training_step df) products (meta, fs))) p
  = if existsb (String.eqb p) products
    then match trained df p with
         | Some _ => Some (info_of (_prepare_prophet_series df p))
         | None => PyDict.get meta p
         end
    else PyDict.get meta p.
Proof.
  revert meta fs. induction products as [|q products IH]; intros meta fs;
    cbn [fold_left existsb fst]; [reflexivity|].
  rewrite training_step_trained.
  destruct (String.eqb p q) eqn:E; cbn [orb].
  - apply String.eqb_eq in E. subst q.
    destruct (trained df p) as [model|]; rewrite IH.
    + now destruct (existsb (String.eqb p) products);
        [|rewrite get_set_same].
    + now destruct (existsb (String.eqb p) products).
  - apply String.eqb_neq in E.
    destruct (trained df q) as [model|]; rewrite IH; [|reflexivity].
    rewrite get_set_other by congruence. reflexivity.
Qed.

(** The file found under a name after the loop of [run_training_only]: the
    model of a trained product of the list with that artifact name, or what
    was there before when the list has no such product. *)
Lemma training_fold_artifact (df : Table) (products : list string)
    (meta : Meta) (fs : Dir Model) (name : string) :
  let fs' := snd (fold_left (training_step df) products (meta, fs)) in
  (exists q m, In q products /\ saved_name q = name
               /\ trained df q = Some m
               /\ PyDict.get fs' name = Some (Pickle m))
  \/ (PyDict.get fs' name = PyDict.get fs name
      /\ forall q, In q products -> saved_name q = name ->
                   trained df q = None).
Proof.
  cbv zeta. revert meta fs.
  induction products as [|a products IH]; intros meta fs;
    cbn [fold_left snd].
  - right. split; [reflexivity|]. intros q [].
  - rewrite training_step_trained.
    destruct (trained df a) as [model|] eqn:Et.
    + destruct (IH (PyDict.set meta a (info_of (_prepare_prophet_series df a)))
                   (PyDict.set fs (saved_name a) (Pickle model)))
        as [(q & m & Hq & Hn & Hm & Hg)|[Hg Hnone]].
      * left. exists q, m. split; [now right|auto].
      * rewrite get_set in Hg.
        destruct (String.eqb (saved_name a) name) eqn:E.
        -- apply String.eqb_eq in E. left. exists a, model.
           split; [now left|]. split; [exact E|]. split; [exact Et|exact Hg].
        -- apply String.eqb_neq in E. right. split; [exact Hg|].
           intros q [<-|Hq] Hn; [contradiction|now apply Hnone].
    + destruct (IH meta fs) as [(q & m & Hq & Hn & Hm & Hg)|[Hg Hnone]].
      * left. exists q, m. split; [now right|auto].
      * right. split; [exact Hg|].
        intros q [<-|Hq] Hn; [exact Et|now apply Hnone].
Qed.

(** On a nonempty table [run_training_only] gets through the loop and
    writes the metadata file. *)
Lemma run_training_only_result (df : Table) (models_dir : option (Dir Model))
    (max_products : option Z) :
  df <> [] ->
  let products := limit_products max_products (Preprocess.get_products df) in
  let st := fold_left (training_step df) products ([], mkdir models_dir) in
  run_training_only df models_dir max_products
  = (Return tt, PyDict.set (snd st) "meta.json" (Json (fst st))).
Proof.
  intros Hdf products. cbv zeta.
  assert (Hne : products <> []).
  { apply TrainFacts.limit_products_nonempty.
    now apply TrainFacts.get_products_nonempty. }
  unfold run_training_only. destruct df as [|r df]; [congruence|].
  fold products. unfold run_training_products.
  destruct products as [|p0 products'] eqn:Ep; [congruence|].
  rewrite <- Ep in *.
  now destruct (fold_left (training_step (r :: df)) products
                          ([], mkdir models_dir)).
Qed.

Lemma saved_name_not_meta (p : string) : saved_name p <> "meta.json".
Proof.
  intro E. pose proof (NameFacts.saved_name_is_pkl p) as Hp.
  rewrite E in Hp. discriminate.
Qed.

(** X12.  On a nonempty table [run_training_only] returns normally whatever
    the fits do: a product whose training raises is skipped.  The metadata
    file it writes holds a record exactly for the products of the list for
    which [train_prophet_for_product] came back with a model, and the record
    of a product holds the mean and the last date of its own series.  So
    when Prophet is not installed the function still returns, and the
    metadata file it writes is empty. *)
Theorem run_training_only_meta (df : Table) (models_dir : option (Dir Model))
    (max_products : option Z) :
  df <> [] ->
  let products := limit_products max_products (Preprocess.get_products df) in
  exists meta fs',
    run_training_only df models_dir max_products = (Return tt, fs')
    /\ PyDict.get fs' "meta.json" = Some (Json meta)
    /\ (forall p info,
          PyDict.get meta p = Some info
          <-> In p products /\ trained df p <> None
              /\ info = info_of (_prepare_prophet_series df p))
    /\ (prophet_installed = false -> meta = []).
Proof.
  intros Hdf products.
  rewrite (run_training_only_result models_dir max_products Hdf).
  fold products.
  set (st := fold_left (training_step df) products ([], mkdir models_dir)).
  exists (fst st), (PyDict.set (snd st) "meta.json" (Json (fst st))).
  split; [reflexivity|]. split; [apply get_set_same|].
  assert (Hget : forall p info,
            PyDict.get (fst st) p = Some info
            <-> In p products /\ trained df p <> None
                /\ info = info_of (_prepare_prophet_series df p)).
  { intros p info. unfold st.
    rewrite training_fold_meta. cbn [PyDict.get].
    destruct (existsb (String.eqb p) products) eqn:Ex.
    - apply existsb_exists in Ex. destruct Ex as (q & Hq & Eq).
      apply String.eqb_eq in Eq. subst q.
      destruct (trained df p) as [model|].
      + split.
        * intro E. injection E as <-. repeat split; [exact Hq|discriminate].
        * intros (_ & _ & ->). reflexivity.
      + split; [discriminate|]. intros (_ & Hc & _). congruence.
    - split; [discriminate|]. intros (Hp & _).
      assert (Hc : existsb (String.eqb p) products = true).
      { apply existsb_exists. exists p. split; [exact Hp|apply String.eqb_refl]. }
      congruence. }
  split; [exact Hget|].
  intro Hoff. destruct (fst st) as [|[p info] meta'] eqn:Em; [reflexivity|].
  exfalso.
  assert (Hp : PyDict.get ((p, info) :: meta') p = Some info).
  { simpl. now rewrite String.eqb_refl. }
  apply Hget in Hp. destruct Hp as (_ & Hc & _). apply Hc.
  unfold trained, fitted. now rewrite Hoff.
Qed.

(** X13.  What [run_training_only] leaves in the models directory on a
    nonempty table.  Every product with a record in the metadata file has
    an artifact under its file name, holding the model fitted for a product
    of the list with that file name; it is the product's own model when no
    other trained product of the list shares the file name.  A file that is
    neither the metadata file nor the artifact of a trained product of the
    list is left as it was. *)
Theorem run_training_only_artifacts (df : Table)
    (models_dir : option (Dir Model)) (max_products : option Z) :
  df <> [] ->
  let products := limit_products max_products (Preprocess.get_products df) in
  let fs' := snd (run_training_only df models_dir max_products) in
  (forall p, In p products -> trained df p <> None ->
     exists q m, In q products /\ saved_name q = saved_name p
                 /\ trained df q = Some m
                 /\ PyDict.get fs' (saved_name p) = Some (Pickle m))
  /\ (forall p m, In p products -> trained df p = Some m ->
        (forall q, In q products -> saved_name q = saved_name p ->
                   trained df q <> None -> q = p) ->
        PyDict.get fs' (saved_name p) = Some (Pickle m))
  /\ (forall name, name <> "meta.json" ->
        (forall q, In q products -> trained df q <> None ->
                   saved_name q <> name) ->
        PyDict.get fs' name = PyDict.get (mkdir models_dir) name).
Proof.
  intros Hdf products fs'. subst fs'.
  rewrite (run_training_only_result models_dir max_products Hdf).
  fold products. cbn [snd].
  assert (Hwritten : forall p, In p products -> trained df p <> None ->
            exists q m, In q products /\ saved_name q = saved_name p
              /\ trained df q = Some m
              /\ PyDict.get
                   (PyDict.set
                      (snd (fold_left (training_step df) products
                                      ([], mkdir models_dir)))
                      "meta.json"
                      (Json (fst (fold_left (training_step df) products
                                            ([], mkdir models_dir)))))
                   (saved_name p) = Some (Pickle m)).
  { intros p Hp Ht.
    rewrite get_set_other by (intro E; symmetry in E;
                              now apply saved_name_not_meta in E).
    destruct (training_fold_artifact df products [] (mkdir models_dir)
                                     (saved_name p))
      as [(q & m & Hq & Hn & Hm & Hg)|[_ Hnone]].
    - exists q, m. auto.
    - exfalso. apply Ht. now apply Hnone. }
  split; [exact Hwritten|]. split.
  - intros p m Hp Ht Hown.
    destruct (Hwritten p Hp) as (q & m' & Hq & Hn & Hm & Hg); [congruence|].
    assert (q = p) by (apply Hown; [assumption..|congruence]). subst q.
    congruence.
  - intros name Hname Hfree.
    rewrite get_set_other by congruence.
    destruct (training_fold_artifact df products [] (mkdir models_dir) name)
      as [(q & m & Hq & Hn & Hm & Hg)|[Hg _]]; [|exact Hg].
    exfalso. apply (Hfree q Hq); [congruence|exact Hn].
Qed.

Lemma training_fold_files (df : Table) (products : list string)
    (meta : Meta) (fs : Dir Model) (name : string) (f : File Model) :
  In (name, f) (snd (fold_left (training_step df) products (meta, fs))) ->
  In (name, f) fs
  \/ exists q m, In q products /\ saved_name q = name
                 /\ trained df q = Some m /\ f = Pickle m.
Proof.
  revert meta fs. induction products as [|a products IH]; intros meta fs;
    cbn [fold_left snd]; [now left|].
  rewrite training_step_trained.
  destruct (trained df a) as [model|] eqn:Et; intro Hin; apply IH in Hin;
    destruct Hin as [Hin|(q & m & Hq & Hn & Hm & Hf)].
  - apply in_set in Hin. destruct Hin as [E|Hin]; [|now left].
    injection E as -> ->. right. exists a, model.
    split; [now left|]. now repeat split.
  - right. exists q, m. split; [now right|]. now repeat split.
  - now left.
  - right. exists q, m. split; [now right|]. now repeat split.
Qed.

Lemma load_step_meta_same (models : PyDict.dict Model) (meta : Meta)
    (name : string) (file : File Model) :
  PyDict.contains meta (Inference.product_name_of name) = true ->
  snd (Inference.load_step (models, meta) (name, file)) = meta.
Proof.
  intro Hc. unfold Inference.load_step. rewrite Hc. cbn [negb].
  now destruct (pickle_load file).
Qed.

Lemma load_fold_meta_same (files : list (string * File Model))
    (models : PyDict.dict Model) (meta : Meta) :
  Forall (fun e => PyDict.contains meta (Inference.product_name_of (fst e))
                   = true) files ->
  snd (fold_left Inference.load_step files (models, meta)) = meta.
Proof.
  revert models. induction files as [|[name file] files IH];
    intros models Hall; [reflexivity|].
  inversion Hall as [|? ? Hc Hrest]; subst. cbn [fold_left fst] in *.
  pose proof (@load_step_meta_same models meta name file Hc) as Hs.
  destruct (Inference.load_step (models, meta) (name, file))
    as [models1 meta1].
  cbn [snd] in Hs. subst meta1. now apply IH.
Qed.

Lemma load_model_fold_get (files : list (string * File Model))
    (models : PyDict.dict Model) (k : string) (m : Model) :
  PyDict.get (fold_left Inference.load_model_step files models) k = Some m ->
  PyDict.get models k = Some m
  \/ exists name, In (name, Pickle m) files
                  /\ Inference.product_name_of name = k.
Proof.
  revert models. induction files as [|[name file] files IH]; intros models;
    cbn [fold_left]; [now left|].
  intro Hg. apply IH in Hg. destruct Hg as [Hg|(n & Hin & Hn)].
  - unfold Inference.load_model_step in Hg. cbn [fst snd] in Hg.
    destruct file as [m0|meta0|]; cbn [pickle_load] in Hg;
      [|now left|now left].
    rewrite get_set in Hg.
    destruct (String.eqb (Inference.product_name_of name) k) eqn:E;
      [|now left].
    apply String.eqb_eq in E. injection Hg as ->.
    right. exists name. split; [now left|exact E].
  - right. exists n. split; [now right|exact Hn].
Qed.

Lemma clean_name_key (p : string) :
  clean_name p = true -> loaded_key p = p.
Proof.
  unfold clean_name. intro Hc.
  apply andb_true_iff in Hc. destruct Hc as [Hc Hs].
  apply andb_true_iff in Hc. destruct Hc as [Hc Hu].
  apply andb_true_iff in Hc. destruct Hc as [Hne Hlen].
  apply negb_true_iff, String.eqb_neq in Hne. apply Nat.leb_le in Hlen.
  apply (NameFacts.loaded_key_recovers Hne). auto.
Qed.

Lemma train_then_load_facts (df : Table) (models_dir : option (Dir Model))
    (max_products : option Z) :
  df <> [] ->
  let products := limit_products max_products (Preprocess.get_products df) in
  Forall (fun p => clean_name p = true) products ->
  Forall (fun e => Inference.is_pkl (fst e) = false) (mkdir models_dir) ->
  let dir' := snd (run_training_only df models_dir max_products) in
  let models := fst (Inference.load_models (Some dir')) in
  let meta := snd (Inference.load_models (Some dir')) in
  PyDict.get dir' "meta.json" = Some (Json meta)
  /\ (forall p m, PyDict.get models p = Some m
                  <-> In p products /\ trained df p = Some m)
  /\ (forall p info,
        PyDict.get meta p = Some info
        <-> In p products /\ trained df p <> None
            /\ info = info_of (_prepare_prophet_series df p)).
Proof.
  intros Hdf products Hclean Hnopkl dir' models meta.
  subst dir' models meta.
  rewrite (run_training_only_result models_dir max_products Hdf).
  fold products. cbn [snd].
  set (st := fold_left (training_step df) products ([], mkdir models_dir)).
  set (dir' := PyDict.set (snd st) "meta.json" (Json (fst st))).
  set (loaded := Inference.load_models _).
  assert (Hparts : loaded
            = fold_left Inference.load_step
                (filter (fun e => Inference.is_pkl (fst e)) dir')
                ([], Loading.stored_meta dir'))
    by apply LoadMoreFacts.load_models_parts.
  assert (Hfst : fst loaded
            = fold_left Inference.load_model_step
                (filter (fun e => Inference.is_pkl (fst e)) dir') [])
    by apply LoadMoreFacts.load_models_fst.
  assert (Hkeys : forall k, In k (PyDict.keys (fst loaded))
                            <-> Loading.loadable_as dir' k)
    by apply LoadMoreFacts.loaded_keys_iff.
  clearbody loaded.
  assert (Hin_products : forall p, In p products ->
            existsb (String.eqb p) products = true).
  { intros p Hp. apply existsb_exists. exists p.
    split; [exact Hp|apply String.eqb_refl]. }
  assert (Hmeta_get : forall p info,
            PyDict.get (fst st) p = Some info
            <-> In p products /\ trained df p <> None
                /\ info = info_of (_prepare_prophet_series df p)).
  { intros p info. unfold st. rewrite training_fold_meta. cbn [PyDict.get].
    destruct (existsb (String.eqb p) products) eqn:Ex.
    - apply existsb_exists in Ex. destruct Ex as (q & Hq & Eq).
      apply String.eqb_eq in Eq. subst q.
      destruct (trained df p) as [model|].
      + split.
        * intro E. injection E as <-. repeat split; [exact Hq|discriminate].
        * intros (_ & _ & ->). reflexivity.
      + split; [discriminate|]. intros (_ & Hc & _). congruence.
    - split; [discriminate|]. intros (Hp & _).
      rewrite (Hin_products p Hp) in Ex. discriminate. }
  assert (Hfiles : forall name f,
            In (name, f) dir' -> Inference.is_pkl name = true ->
            exists q m, In q products /\ saved_name q = name
                        /\ trained df q = Some m /\ f = Pickle m).
  { intros name f Hin Hp. unfold dir' in Hin. apply in_set in Hin.
    destruct Hin as [E|Hin]; [injection E as -> _; discriminate|].
    unfold st in Hin. apply training_fold_files in Hin.
    destruct Hin as [Hin|Hq]; [|exact Hq].
    rewrite Forall_forall in Hnopkl. apply Hnopkl in Hin. cbn [fst] in Hin.
    congruence. }
  assert (Hkey : forall q, In q products ->
            Inference.product_name_of (saved_name q) = q).
  { intros q Hq. rewrite Forall_forall in Hclean.
    apply clean_name_key. now apply Hclean. }
  assert (Hstored : Loading.stored_meta dir' = fst st).
  { unfold Loading.stored_meta, dir'. now rewrite get_set_same. }
  assert (Hloaded_meta : snd loaded = fst st).
  { rewrite Hparts, Hstored.
    apply load_fold_meta_same. apply Forall_forall.
    intros [name f] Hin. apply filter_In in Hin. cbn [fst] in *.
    destruct Hin as [Hin Hp].
    destruct (Hfiles name f Hin Hp) as (q & m & Hq & <- & Hm & _).
    rewrite (Hkey q Hq). unfold PyDict.contains.
    destruct (PyDict.get (fst st) q) as [info|] eqn:Eg; [reflexivity|].
    exfalso.
    assert (Hsome : PyDict.get (fst st) q
                    = Some (info_of (_prepare_prophet_series df q))).
    { apply Hmeta_get. repeat split; [exact Hq|congruence]. }
    congruence. }
  assert (Hfwd : forall p m,
            PyDict.get (fst loaded) p = Some m ->
            In p products /\ trained df p = Some m).
  { intros p m Hg. rewrite Hfst in Hg.
    apply load_model_fold_get in Hg.
    destruct Hg as [Hg|(name & Hin & Hn)]; [discriminate|].
    apply filter_In in Hin. cbn [fst] in Hin. destruct Hin as [Hin Hp].
    destruct (Hfiles name _ Hin Hp) as (q & m' & Hq & <- & Hm & Ef).
    injection Ef as ->. rewrite (Hkey q Hq) in Hn. subst q. now split. }
  rewrite Hloaded_meta.
  split; [apply get_set_same|]. split; [|exact Hmeta_get].
  intros p m. split; [apply Hfwd|].
  intros [Hp Hm].
  assert (Hk : In p (PyDict.keys (fst loaded))).
  { apply Hkeys.
    destruct (training_fold_artifact df products [] (mkdir models_dir)
                                     (saved_name p))
      as [(q & m' & Hq & Hn & Hm' & Hg)|[_ Hnone]].
    - exists (saved_name p), m'. split; [|split].
      + unfold dir'. apply get_In. rewrite get_set_other; [exact Hg|].
        intro E. symmetry in E. now apply saved_name_not_meta in E.
      + apply NameFacts.saved_name_is_pkl.
      + now apply Hkey.
    - rewrite (Hnone p Hp eq_refl) in Hm. discriminate. }
  apply contains_keys in Hk. unfold PyDict.contains in Hk.
  destruct (PyDict.get (fst loaded) p)
    as [m2|] eqn:Eg; [|discriminate].
  destruct (Hfwd p m2 Eg) as [_ Hm2]. congruence.
Qed.

(** X14.  Training and then loading gives back what was trained, for
    product names that are not empty, have at most 200 characters, none of
    the nine unsafe characters and no underscore, and a models directory
    that held no [.pkl] file.  The metadata that [load_models] returns is
    the content of the metadata file that [run_training_only] wrote, with no
    placeholder added; the model map holds, under the name of each product
    of the list that was trained, the model fitted on its series, and
    nothing else; and the metadata holds, for exactly these products, the
    mean and the last date of the series. *)
Theorem train_then_load (df : Table) (models_dir : option (Dir Model))
    (max_products : option Z) :
  df <> [] ->
  let products := limit_products max_products (Preprocess.get_products df) in
  Forall (fun p => clean_name p = true) products ->
  Forall (fun e => Inference.is_pkl (fst e) = false) (mkdir models_dir) ->
  let dir' := snd (run_training_only df models_dir max_products) in
  let models := fst (Inference.load_models (Some dir')) in
  let meta := snd (Inference.load_models (Some dir')) in
  PyDict.get dir' "meta.json" = Some (Json meta)
  /\ (forall p m, PyDict.get models p = Some m
                  <-> In p products /\ trained df p = Some m)
  /\ (forall p info,
        PyDict.get meta p = Some info
        <-> In p products /\ trained df p <> None
            /\ info = info_of (_prepare_prophet_series df p)).
Proof. apply train_then_load_facts. Qed.

Section WithSqrt.
Context `{Sqrt}.

Lemma one_product_effects (df : Table) (product : string) (val_days : Z)
    (fs : Dir Model) :
  let series := _prepare_prophet_series df product in
  match _train_and_evaluate_one_product df product val_days fs with
  | (Return (None, m, data), fs') =>
      fs' = fs /\ m = nan_metrics /\ data = empty_data
  | (Return (Some model, m, data), fs') =>
      fitted series = Some model
      /\ (10 <= length series)%nat
      /\ fs' = PyDict.set fs (saved_name product) (Pickle model)
      /\ d_series data = Some series
      /\ map fst (d_forecasts data) = [30%Z; 90%Z]
      /\ Forall (fun hf => Forall (fun row => (ds_max series < fst row)%Z)
                                  (snd hf))
                (d_forecasts data)
      /\ error m = None
  | (Raise e, fs') =>
      fs' = fs
      \/ exists model,
           fitted series = Some model
           /\ fs' = PyDict.set fs (saved_name product) (Pickle model)
  end.
Proof.
  cbv zeta. unfold _train_and_evaluate_one_product.
  set (series := _prepare_prophet_series df product).
  destruct (length series <? 10)%nat eqn:E10; [now repeat split|].
  apply Nat.ltb_ge in E10.
  destruct (split_train_val series val_days) as [train_series val_series] eqn:Es.
  destruct (length train_series <? 2)%nat; [now repeat split|].
  unfold FS.bind, FS.lift, FS.ret.
  pose proof (train_prophet_for_product_spec_aux train_series product None fs)
    as Hval.
  destruct (train_prophet_for_product train_series product None fs)
    as [[model_val|e] fs1].
  2: { destruct Hval as [_ ->]. now left. }
  destruct Hval as (_ & _ & _ & ->).
  assert (Herr : forall m,
            evaluate_product_forecast series model_val val_days = Return m ->
            error m = None).
  { intros m. unfold evaluate_product_forecast. rewrite Es.
    destruct (_ || _); [intro Em; injection Em as <-; reflexivity|].
    unfold Exn.bind. destruct (predict model_val _); [|discriminate].
    intro Em. injection Em as <-.
    apply (MetricsMoreFacts.evaluate_predictions_error_none). }
  destruct (evaluate_product_forecast series model_val val_days)
    as [m|e]; [|now left].
  pose proof (train_prophet_for_product_spec_aux series product
                (Some (artifact_path product)) fs) as Hfull.
  destruct (train_prophet_for_product series product
              (Some (artifact_path product)) fs) as [[model_full|e] fs2].
  2: { destruct Hfull as [_ ->]. now left. }
  destruct Hfull as (Hfit & _ & _ & ->).
  fold (saved_name product).
  destruct (forecast_days model_full 30) as [fc_30|e];
    [|right; now exists model_full].
  destruct (forecast_days model_full 90) as [fc_90|e];
    [|right; now exists model_full].
  cbn [d_series d_forecasts map fst].
  repeat split; try assumption; try reflexivity; [|now apply Herr].
  repeat constructor; cbn [snd]; apply Forall_forall; intros row Hrow;
    apply filter_In in Hrow; destruct Hrow as [_ Hlt];
    now apply Z.ltb_lt in Hlt.
Qed.

(** X11.  What [_train_and_evaluate_one_product] does to the models
    directory and what it returns.  A skipped product (no model) leaves the
    directory as it was and comes with NaN metrics and no data.  A trained
    product comes with the model fitted on its full series of ten points or
    more, with that series, and with the forecasts for 30 and 90 days cut to
    the dates after the last observed one; the directory is changed by one
    write, of that model under the product's artifact name; the model
    fitted for validation is not written.  When the function raises, the
    directory is as it was, or holds that one write. *)
Theorem one_product_spec (df : Table) (product : string) (val_days : Z)
    (fs : Dir Model) :
  let series := _prepare_prophet_series df product in
  match _train_and_evaluate_one_product df product val_days fs with
  | (Return (None, m, data), fs') =>
      fs' = fs /\ m = nan_metrics /\ data = empty_data
  | (Return (Some model, m, data), fs') =>
      fitted series = Some model
      /\ (10 <= length series)%nat
      /\ fs' = PyDict.set fs (saved_name product) (Pickle model)
      /\ d_series data = Some series
      /\ map fst (d_forecasts data) = [30%Z; 90%Z]
      /\ Forall (fun hf => Forall (fun row => (ds_max series < fst row)%Z)
                                  (snd hf))
                (d_forecasts data)
      /\ error m = None
  | (Raise e, fs') =>
      fs' = fs
      \/ exists model,
           fitted series = Some model
           /\ fs' = PyDict.set fs (saved_name product) (Pickle model)
  end.
Proof. apply one_product_effects. Qed.

End WithSqrt.

End WithProphet.

(** A table with three products: [A] with two observations, [B] with one,
    and [D] with two negative observations, on which the model of the
    examples refuses to fit. *)
Lemma run_training_only_meta_witness :
  let df : Table :=
    [Forecast.mkRow 1 "A" "x" 5; Forecast.mkRow 2 "A" "x" 7;
     Forecast.mkRow 1 "B" "x" 4;
     Forecast.mkRow 1 "D" "x" (-3); Forecast.mkRow 2 "D" "x" (-1)] in
  exists meta fs',
    @run_training_only _ Toy.ToyProphet df None None = (Return tt, fs')
    /\ PyDict.get fs' "meta.json" = Some (Json meta)
    /\ PyDict.get meta "A" = Some (info_of [(1%Z, 5%Q); (2%Z, 7%Q)])
    /\ PyDict.get meta "B" = None
    /\ PyDict.get meta "D" = None.
Proof.
  intro df.
  destruct (@run_training_only_meta _ Toy.ToyProphet df None None)
    as (meta & fs' & Hrun & Hfile & Hget & _); [discriminate|].
  exists meta, fs'. split; [exact Hrun|]. split; [exact Hfile|].
  split; [|split].
  - apply Hget. split; [vm_compute; tauto|].
    split; [vm_compute; discriminate|reflexivity].
  - destruct (PyDict.get meta "B") as [info|] eqn:E; [|reflexivity].
    apply Hget in E. destruct E as (_ & Hc & _).
    exfalso. apply Hc. reflexivity.
  - destruct (PyDict.get meta "D") as [info|] eqn:E; [|reflexivity].
    apply Hget in E. destruct E as (_ & Hc & _).
    exfalso. apply Hc. reflexivity.
Defined.

(** The same table, trained into a directory that holds a note. *)
Lemma run_training_only_artifacts_witness :
  let df : Table :=
    [Forecast.mkRow 1 "A" "x" 5; Forecast.mkRow 2 "A" "x" 7;
     Forecast.mkRow 1 "B" "x" 4;
     Forecast.mkRow 1 "D" "x" (-3); Forecast.mkRow 2 "D" "x" (-1)] in
  let dir : Dir Toy.Model := [("notes.txt", Garbage)] in
  let fs' := snd (@run_training_only _ Toy.ToyProphet df (Some dir) None) in
  PyDict.get fs' "A.pkl" = Some (Pickle [(1%Z, 5%Q); (2%Z, 7%Q)])
  /\ PyDict.get fs' "D.pkl" = None
  /\ PyDict.get fs' "notes.txt" = Some Garbage.
Proof.
  intros df dir fs'.
  destruct (@run_training_only_artifacts _ Toy.ToyProphet df (Some dir) None)
    as (_ & Hown & Hframe); [discriminate|].
  split; [|split].
  - apply (Hown "A"); [vm_compute; tauto|reflexivity|].
    intros q Hq Hn Ht.
    destruct Hq as [<-|[<-|[<-|[]]]];
      [reflexivity|exfalso; apply Ht; reflexivity|discriminate].
  - apply (Hframe "D.pkl"); [discriminate|].
    intros q Hq Ht.
    destruct Hq as [<-|[<-|[<-|[]]]];
      [discriminate|exfalso; apply Ht; reflexivity
      |exfalso; apply Ht; reflexivity].
  - apply (Hframe "notes.txt"); [discriminate|].
    intros q Hq Ht.
    destruct Hq as [<-|[<-|[<-|[]]]]; discriminate.
Defined.

(** Training two products into a new directory and loading it. *)
Lemma train_then_load_witness :
  let df : Table :=
    [Forecast.mkRow 1 "Desk Lamp" "x" 5; Forecast.mkRow 2 "Desk Lamp" "x" 7;
     Forecast.mkRow 1 "Chair" "x" 4] in
  let dir' := snd (@run_training_only _ Toy.ToyProphet df None None) in
  let models := fst (@Inference.load_models Toy.Model (Some dir')) in
  PyDict.get models "Desk Lamp" = Some [(1%Z, 5%Q); (2%Z, 7%Q)]
  /\ PyDict.get models "Chair" = None.
Proof.
  intros df dir' models.
  destruct (@train_then_load _ Toy.ToyProphet df None None)
    as (_ & Hmodels & _);
    [discriminate
    |apply Forall_forall; intros p [<-|[<-|[]]]; reflexivity
    |constructor|].
  split.
  - apply Hmodels. split; [vm_compute; tauto|reflexivity].
  - destruct (PyDict.get models "Chair") as [m|] eqn:E; [|reflexivity].
    apply Hmodels in E. destruct E as [_ E]. discriminate.
Defined.

End TrainingFacts.

(** ** train.py: what [run_pipeline] returns and writes *)

Module PipelineFacts.
Import PyFloat Exn Forecast FS Evaluate Recommend Train Training Orders.
Import Pipeline DictFacts DictKeyFacts.
Local Open Scope string_scope.

(** Setting a key that the dictionary does not hold appends it. *)
Lemma set_new {V} (d : PyDict.dict V) (k : string) (v : V) :
  ~ In k (PyDict.keys d) -> PyDict.set d k v = (d ++ [(k, v)])%list.
Proof.
  unfold PyDict.keys. induction d as [|[k0 v0] d IH]; simpl; intro Hn;
    [reflexivity|].
  destruct (String.eqb k0 k) eqn:E.
  - apply String.eqb_eq in E. subst k0. exfalso. apply Hn. now left.
  - rewrite IH; [reflexivity|]. intro Hc. apply Hn. now right.
Qed.

Lemma in_firstn {A} (n : nat) (l : list A) (x : A) :
  In x (firstn n l) -> In x l.
Proof.
  revert n. induction l as [|z l IH]; intros [|n]; simpl; try tauto.
  intros [E|Hin]; [now left|right; now apply (IH n)].
Qed.

Lemma NoDup_firstn {A} (n : nat) (l : list A) : NoDup l -> NoDup (firstn n l).
Proof.
  revert n. induction l as [|x l IH]; intros [|n] Hnd; simpl;
    try constructor.
  - inversion Hnd as [|? ? Hx _]; subst. intro Hc. apply Hx.
    now apply (in_firstn n).
  - apply IH. now inversion Hnd.
Qed.

Lemma limit_products_NoDup (max_products : option Z) (df : Table) :
  NoDup (limit_products max_products (Preprocess.get_products df)).
Proof.
  assert (Hnd : NoDup (Preprocess.get_products df)).
  { unfold Preprocess.get_products.
    apply (Permutation_NoDup
             (Permutation_sym (SortFacts.sort_perm String.ltb _))).
    apply ProductFacts.unique_NoDup. }
  unfold limit_products. destruct max_products as [n|]; [|exact Hnd].
  destruct (0 <? n)%Z; [|exact Hnd]. now apply NoDup_firstn.
Qed.

Section WithProphet.
Context {Model : Type} `{Prophet Model} `{Sqrt}.

Lemma pipeline_step_forecasts (df : Table) (val_days : Z) (st : @Loop Model)
    (p : string) :
  forecasts_of (pipeline_step df val_days st p)
  = match kept (outcome df val_days p) with
    | Some data => PyDict.set (forecasts_of st) p data
    | None => forecasts_of st
    end.
Proof.
  destruct st as [[fr ms] fs]. unfold pipeline_step, outcome, forecasts_of.
  pose proof (TrainFacts.fs_blind_one_product df p val_days fs []) as Hb.
  destruct (_train_and_evaluate_one_product df p val_days fs) as [r fs1].
  simpl in Hb. rewrite <- Hb. clear Hb.
  destruct r as [[[[model|] m] data]|e]; simpl; try reflexivity.
  now destruct (data_truthy data).
Qed.

Lemma keys_entries (df : Table) (val_days : Z) (products : list string) :
  PyDict.keys (entries df val_days products)
  = filter (has_model df val_days) products.
Proof.
  unfold PyDict.keys, entries, has_model.
  induction products as [|p products IH]; simpl; [reflexivity|].
  rewrite map_app, IH.
  now destruct (kept (outcome df val_days p)).
Qed.

(** After the loop over distinct products, [forecast_results] holds the
    entries of the products that came back with a model, in the order of
    the list. *)
Lemma pipeline_loop_forecasts (df : Table) (val_days : Z)
    (products : list string) (st : @Loop Model) :
  NoDup products ->
  (forall p, In p products -> ~ In p (PyDict.keys (forecasts_of st))) ->
  forecasts_of (fold_left (pipeline_step df val_days) products st)
  = (forecasts_of st ++ entries df val_days products)%list.
Proof.
  revert st. induction products as [|a products IH]; intros st Hnd Hfree;
    cbn [fold_left].
  - unfold entries. simpl. now rewrite app_nil_r.
  - inversion Hnd as [|? ? Ha Hnd']; subst.
    rewrite IH; [|exact Hnd'|].
    + rewrite pipeline_step_forecasts. unfold entries. cbn [flat_map].
      destruct (kept (outcome df val_days a)) as [data|]; [|reflexivity].
      rewrite set_new by (apply Hfree; now left).
      now rewrite <- app_assoc.
    + intros p Hp. rewrite pipeline_step_forecasts.
      destruct (kept (outcome df val_days a)) as [data|];
        [|apply Hfree; now right].
      intro Hc. apply keys_set in Hc. destruct Hc as [->|Hc];
        [contradiction|]. revert Hc. apply Hfree. now right.
Qed.

(** What an entry of [forecast_results] holds. *)
Lemma kept_entry (df : Table) (val_days : Z) (p : string) (data : Data) :
  kept (outcome df val_days p) = Some data ->
  exists model m,
    outcome df val_days p = Return (Some model, m, data)
    /\ d_series data = Some (_prepare_prophet_series df p)
    /\ (10 <= length (_prepare_prophet_series df p))%nat
    /\ trained df p = Some model
    /\ error m = None.
Proof.
  unfold kept, outcome.
  pose proof (TrainingFacts.one_product_effects df p val_days []) as Hs.
  cbv zeta in Hs.
  destruct (_train_and_evaluate_one_product df p val_days []) as [r fs1].
  cbn [fst].
  destruct r as [[[[model|] m] data']|e]; try discriminate.
  destruct (data_truthy data'); [|discriminate].
  intro E. injection E as ->.
  destruct Hs as (Hfit & Hlen & _ & Hser & _ & _ & Herr).
  exists model, m. repeat split; assumption.
Qed.

Lemma eligible_entries (df : Table) (val_days : Z) (products : list string) :
  map fst (filter (eligible 30) (entries df val_days products))
  = filter (recommendable df val_days) products.
Proof.
  unfold entries, recommendable.
  induction products as [|p products IH]; simpl; [reflexivity|].
  rewrite filter_app, map_app, IH.
  destruct (kept (outcome df val_days p)) as [data|]; simpl;
    [|reflexivity].
  now destruct (eligible 30 (p, data)).
Qed.

Lemma in_entries (df : Table) (val_days : Z) (products : list string)
    (p : string) (data : Data) :
  In (p, data) (entries df val_days products)
  <-> In p products /\ kept (outcome df val_days p) = Some data.
Proof.
  unfold entries. rewrite in_flat_map. split.
  - intros (q & Hq & Hin).
    destruct (kept (outcome df val_days q)) as [d|] eqn:E; [|contradiction].
    destruct Hin as [Hin|[]]. injection Hin as -> ->. now split.
  - intros [Hp Hk]. exists p. split; [exact Hp|]. rewrite Hk. now left.
Qed.

(** The metadata that the second loop of [run_pipeline] builds from
    entries that hold a nonempty series. *)
Lemma meta_fold_get (series_of : string -> Series) (items : PyDict.dict Data)
    (meta : Meta) (p : string) :
  (forall q d, In (q, d) items ->
     d_series d = Some (series_of q) /\ length (series_of q) <> 0%nat) ->
  PyDict.get (fold_left meta_step items meta) p
  = if existsb (fun e => String.eqb (fst e) p) items
    then Some (info_of (series_of p))
    else PyDict.get meta p.
Proof.
  revert meta. induction items as [|[q d] items IH]; intros meta Hall;
    cbn [fold_left existsb fst]; [reflexivity|].
  rewrite IH by (intros q' d' Hin; apply Hall; now right).
  destruct (Hall q d (or_introl eq_refl)) as [Hs Hl].
  unfold meta_step. rewrite Hs.
  apply Nat.eqb_neq in Hl. rewrite Hl. cbn [negb].
  rewrite get_set.
  destruct (String.eqb q p) eqn:E; cbn [orb]; [|reflexivity].
  apply String.eqb_eq in E. subst q.
  now destruct (existsb _ items).
Qed.

(** On a nonempty table [run_pipeline] gets through its loops. *)
Lemma run_pipeline_parts (df : Table) (models_dir : option (Dir Model))
    (val_days : Z) (max_products : option Z) :
  df <> [] ->
  let products := limit_products max_products (Preprocess.get_products df) in
  let st := fold_left (pipeline_step df val_days) products
                      ([], [], mkdir models_dir) in
  run_pipeline df models_dir val_days max_products
  = (Return {| recommendations := build_recommendations (forecasts_of st) 30;
               metrics := metrics_of st;
               message := None;
               products_trained := Some (length (forecasts_of st)) |},
     PyDict.set (files_of st) "meta.json"
                (Json (fold_left meta_step (forecasts_of st) []))).
Proof.
  intros Hdf products. cbv zeta.
  assert (Hne : products <> []).
  { apply TrainFacts.limit_products_nonempty.
    now apply TrainFacts.get_products_nonempty. }
  unfold run_pipeline. destruct df as [|r df]; [congruence|].
  fold products. unfold run_pipeline_products.
  destruct products as [|p0 products'] eqn:Ep; [congruence|].
  rewrite <- Ep in *.
  now destruct (fold_left (pipeline_step (r :: df) val_days) products
                          ([], [], mkdir models_dir)) as [[fr ms] fs1].
Qed.

Lemma pipeline_forecasts (df : Table) (models_dir : option (Dir Model))
    (val_days : Z) (max_products : option Z) :
  let products := limit_products max_products (Preprocess.get_products df) in
  forecasts_of (fold_left (pipeline_step df val_days) products
                          ([], [], mkdir models_dir))
  = entries df val_days products.
Proof.
  cbv zeta. rewrite pipeline_loop_forecasts.
  - reflexivity.
  - apply limit_products_NoDup.
  - intros p _ [].
Qed.

Lemma pipeline_recommended (df : Table) (val_days : Z)
    (products : list string) :
  Permutation
    (map rec_product (build_recommendations (entries df val_days products) 30))
    (filter (recommendable df val_days) products).
Proof.
  destruct (RankingFacts.build_recommendations_sorted_form
              (entries df val_days products) 30) as (rows & -> & _ & Hp).
  rewrite <- eligible_entries, <- Hp.
  replace (map (fun rs => product (fst rs)) rows)
    with (map rec_product (map to_rec rows)) by (now rewrite map_map).
  apply Permutation_map, Permutation_map, SortFacts.sort_perm.
Qed.

(** X15.  What [run_pipeline] returns on a nonempty table.  It returns
    normally, without a message.  [products_trained] is the number of
    products of the list that came back from training with a model.  The
    recommended products are the products of the list that came back with a
    model and a nonempty forecast of the 30 days after their last
    observation, each once.  Every recommended product has a series of ten
    points or more, the model fitted on it, and a metrics record without an
    error description. *)
Theorem run_pipeline_result (df : Table) (models_dir : option (Dir Model))
    (val_days : Z) (max_products : option Z) :
  df <> [] ->
  let products := limit_products max_products (Preprocess.get_products df) in
  exists res fs',
    run_pipeline df models_dir val_days max_products = (Return res, fs')
    /\ message res = None
    /\ products_trained res
       = Some (length (filter (has_model df val_days) products))
    /\ Permutation (map rec_product (recommendations res))
                   (filter (recommendable df val_days) products)
    /\ NoDup (map rec_product (recommendations res))
    /\ Forall (fun p =>
                 (10 <= length (_prepare_prophet_series df p))%nat
                 /\ trained df p <> None
                 /\ exists m, PyDict.get (metrics res) p = Some m
                              /\ error m = None)
              (map rec_product (recommendations res)).
Proof.
  intros Hdf products.
  rewrite (run_pipeline_parts models_dir val_days max_products Hdf).
  fold products.
  pose proof (pipeline_forecasts df models_dir val_days max_products) as Hfr.
  cbv zeta in Hfr. fold products in Hfr.
  pose proof (fun p => @TrainFacts.pipeline_loop_metrics _ _ _ df val_days
                         products ([], [], mkdir models_dir) p) as Hms.
  set (st := fold_left (pipeline_step df val_days) products
                       ([], [], mkdir models_dir)) in *.
  eexists. eexists. split; [reflexivity|].
  cbn [message products_trained recommendations metrics].
  rewrite Hfr.
  pose proof (pipeline_recommended df val_days products) as Hperm.
  assert (Hnd : NoDup (filter (recommendable df val_days) products)).
  { apply NoDup_filter, PipelineFacts.limit_products_NoDup. }
  split; [reflexivity|].
  split; [now rewrite <- keys_entries; unfold PyDict.keys; rewrite length_map|].
  split; [exact Hperm|].
  split; [exact (Permutation_NoDup (Permutation_sym Hperm) Hnd)|].
  apply Forall_forall. intros p Hp.
  apply (Permutation_in _ Hperm) in Hp. apply filter_In in Hp.
  destruct Hp as [Hp Hrec]. unfold recommendable in Hrec.
  destruct (kept (outcome df val_days p)) as [data|] eqn:Ek; [|discriminate].
  destruct (kept_entry _ _ _ Ek) as (model & m & Ho & _ & Hlen & Ht & Herr).
  split; [exact Hlen|]. split; [congruence|].
  exists m. split; [|exact Herr].
  rewrite Hms. cbn [metrics_of fst snd PyDict.get].
  replace (existsb (String.eqb p) products) with true.
  - rewrite Ho. unfold recorded. unfold kept in Ek. rewrite Ho in Ek.
    now destruct (data_truthy data).
  - symmetry. apply existsb_exists. exists p.
    split; [exact Hp|apply String.eqb_refl].
Qed.

(** The metadata that [run_pipeline] writes. *)
Lemma pipeline_meta_get (df : Table) (val_days : Z) (products : list string)
    (p : string) (info : Info) :
  PyDict.get (fold_left meta_step (entries df val_days products) []) p
  = Some info
  <-> In p products /\ has_model df val_days p = true
      /\ info = info_of (_prepare_prophet_series df p).
Proof.
  rewrite (@meta_fold_get (_prepare_prophet_series df)).
  2: { intros q d Hin. apply in_entries in Hin. destruct Hin as [_ Hk].
       destruct (kept_entry _ _ _ Hk) as (model & m & _ & Hs & Hlen & _).
       split; [exact Hs|lia]. }
  cbn [PyDict.get]. unfold has_model.
  destruct (existsb _ (entries df val_days products)) eqn:Ex.
  - apply existsb_exists in Ex. destruct Ex as ([q d] & Hin & E).
    apply String.eqb_eq in E. cbn [fst] in E. subst q.
    apply in_entries in Hin. destruct Hin as [Hp Hk]. rewrite Hk.
    split; [intro E; injection E as <-; now repeat split|].
    now intros (_ & _ & ->).
  - split; [discriminate|]. intros (Hp & Hk & _).
    destruct (kept (outcome df val_days p)) as [d|] eqn:Ek;
      [|discriminate].
    assert (Hc : existsb (fun e => String.eqb (fst e) p)
                         (entries df val_days products) = true).
    { apply existsb_exists. exists (p, d).
      split; [now apply in_entries|apply String.eqb_refl]. }
    congruence.
Qed.

(** What one product's training leaves in the models directory. *)
Lemma one_product_files (df : Table) (product : string) (val_days : Z)
    (fs : Dir Model) :
  snd (_train_and_evaluate_one_product df product val_days fs)
  = match saved df val_days product with
    | Some model => PyDict.set fs (saved_name product) (Pickle model)
    | None => fs
    end.
Proof.
  unfold _train_and_evaluate_one_product, saved.
  set (series := _prepare_prophet_series df product).
  destruct (length series <? 10)%nat; [reflexivity|].
  destruct (split_train_val series val_days) as [train_series val_series].
  destruct (length train_series <? 2)%nat; [reflexivity|].
  unfold FS.bind, FS.lift, FS.ret.
  pose proof (TrainingFacts.train_prophet_for_product_spec_aux
                train_series product None fs) as Hval.
  destruct (train_prophet_for_product train_series product None fs)
    as [[model_val|e] fs1].
  2: { destruct Hval as [-> ->]. reflexivity. }
  destruct Hval as (-> & _ & _ & ->).
  destruct (evaluate_product_forecast series model_val val_days)
    as [m|e]; [|reflexivity].
  pose proof (TrainingFacts.train_prophet_for_product_spec_aux
                series product (Some (artifact_path product)) fs) as Hfull.
  destruct (train_prophet_for_product series product
              (Some (artifact_path product)) fs) as [[model_full|e] fs2].
  2: { destruct Hfull as [-> ->]. reflexivity. }
  destruct Hfull as (-> & _ & _ & ->).
  fold (saved_name product).
  destruct (forecast_days model_full 30) as [fc_30|e]; [|reflexivity].
  now destruct (forecast_days model_full 90) as [fc_90|e].
Qed.

Lemma pipeline_step_files (df : Table) (val_days : Z) (st : @Loop Model)
    (p : string) :
  files_of (pipeline_step df val_days st p)
  = match saved df val_days p with
    | Some model => PyDict.set (files_of st) (saved_name p) (Pickle model)
    | None => files_of st
    end.
Proof.
  destruct st as [[fr ms] fs]. unfold files_of. cbn [snd].
  rewrite <- one_product_files. unfold pipeline_step.
  destruct (_train_and_evaluate_one_product df p val_days fs) as [r fs1].
  destruct r as [[[[model|] m] data]|e]; try reflexivity.
  now destruct (data_truthy data).
Qed.

(** The model written is the one fitted on the full series. *)
Lemma saved_trained (df : Table) (val_days : Z) (p : string) (model : Model) :
  saved df val_days p = Some model -> trained df p = Some model.
Proof.
  unfold saved, trained.
  destruct (length (_prepare_prophet_series df p) <? 10)%nat; [discriminate|].
  destruct (split_train_val _ _) as [train_series val_series].
  destruct (length train_series <? 2)%nat; [discriminate|].
  destruct (fitted train_series) as [model_val|]; [|discriminate].
  now destruct (evaluate_product_forecast _ model_val val_days).
Qed.

(** A product that is counted has had its model written. *)
Lemma kept_saved (df : Table) (val_days : Z) (p : string) (data : Data) :
  kept (outcome df val_days p) = Some data -> saved df val_days p <> None.
Proof.
  unfold kept, outcome. intros Hk Hs.
  pose proof (TrainingFacts.one_product_effects df p val_days []) as He.
  pose proof (one_product_files df p val_days []) as Hf.
  cbv zeta in He. rewrite Hs in Hf.
  destruct (_train_and_evaluate_one_product df p val_days []) as [r fs1].
  cbn [fst snd] in *. subst fs1.
  destruct r as [[[[model|] m] data']|e]; try discriminate.
  destruct He as (_ & _ & Hc & _). discriminate.
Qed.

(** The file found under a name after a loop each pass of which writes at
    most the artifact of its product. *)
Lemma fold_artifact {S} (files : S -> Dir Model) (step : S -> string -> S)
    (w : string -> option Model) :
  (forall st p,
     files (step st p)
     = match w p with
       | Some model => PyDict.set (files st) (saved_name p) (Pickle model)
       | None => files st
       end) ->
  forall (products : list string) (st : S) (name : string),
    (exists q m, In q products /\ saved_name q = name /\ w q = Some m
                 /\ PyDict.get (files (fold_left step products st)) name
                    = Some (Pickle m))
    \/ (PyDict.get (files (fold_left step products st)) name
        = PyDict.get (files st) name
        /\ forall q, In q products -> saved_name q = name -> w q = None).
Proof.
  intros Hstep products. induction products as [|a products IH];
    intros st name; cbn [fold_left].
  - right. split; [reflexivity|]. intros q [].
  - destruct (IH (step st a) name)
      as [(q & m & Hq & Hn & Hm & Hg)|[Hg Hnone]].
    + left. exists q, m. split; [now right|auto].
    + rewrite Hstep in Hg. destruct (w a) as [model|] eqn:Ew.
      * rewrite get_set in Hg.
        destruct (String.eqb (saved_name a) name) eqn:E.
        -- apply String.eqb_eq in E. left. exists a, model.
           split; [now left|]. split; [exact E|]. split; [exact Ew|exact Hg].
        -- apply String.eqb_neq in E. right. split; [exact Hg|].
           intros q [<-|Hq] Hn; [contradiction|now apply Hnone].
      * right. split; [exact Hg|].
        intros q [<-|Hq] Hn; [exact Ew|now apply Hnone].
Qed.

(** X16.  What [run_pipeline] leaves in the models directory on a nonempty
    table.  The metadata file holds a record exactly for the products of the
    list that came back with a model, with the mean and the last date of the
    product's series.  Every product with a record has an artifact under its
    file name, holding the model fitted on the full series of a product of
    the list with that file name.  A file that is neither the metadata file
    nor the artifact of a product of the list whose model was written is
    left as it was. *)
Theorem run_pipeline_files (df : Table) (models_dir : option (Dir Model))
    (val_days : Z) (max_products : option Z) :
  df <> [] ->
  let products := limit_products max_products (Preprocess.get_products df) in
  let fs' := snd (run_pipeline df models_dir val_days max_products) in
  exists meta,
    PyDict.get fs' "meta.json" = Some (Json meta)
    /\ (forall p info,
          PyDict.get meta p = Some info
          <-> In p products /\ has_model df val_days p = true
              /\ info = info_of (_prepare_prophet_series df p))
    /\ (forall p, PyDict.contains meta p = true ->
          exists q m, In q products /\ saved_name q = saved_name p
                      /\ trained df q = Some m
                      /\ PyDict.get fs' (saved_name p) = Some (Pickle m))
    /\ (forall name, name <> "meta.json" ->
          (forall q, In q products -> saved df val_days q <> None ->
                     saved_name q <> name) ->
          PyDict.get fs' name = PyDict.get (mkdir models_dir) name).
Proof.
  intros Hdf products fs'. subst fs'.
  rewrite (run_pipeline_parts models_dir val_days max_products Hdf).
  fold products. cbn [snd].
  pose proof (pipeline_forecasts df models_dir val_days max_products) as Hfr.
  cbv zeta in Hfr. fold products in Hfr.
  pose proof (fold_artifact files_of (pipeline_step df val_days)
                (saved df val_days) (pipeline_step_files df val_days)
                products ([], [], mkdir models_dir)) as Hart.
  set (st := fold_left (pipeline_step df val_days) products
                       ([], [], mkdir models_dir)) in *.
  rewrite Hfr.
  set (meta := fold_left meta_step (entries df val_days products) []).
  pose proof (pipeline_meta_get df val_days products) as Hmeta.
  fold meta in Hmeta.
  exists meta. split; [apply get_set_same|]. split; [exact Hmeta|].
  split.
  - intros p Hc. unfold PyDict.contains in Hc.
    destruct (PyDict.get meta p) as [info|] eqn:Eg; [|discriminate].
    apply Hmeta in Eg. destruct Eg as (Hp & Hk & _). unfold has_model in Hk.
    destruct (kept (outcome df val_days p)) as [d|] eqn:Ek; [|discriminate].
    rewrite get_set_other
      by (intro E; symmetry in E;
          now apply TrainingFacts.saved_name_not_meta in E).
    destruct (Hart (saved_name p))
      as [(q & m & Hq & Hn & Hm & Hg)|[_ Hnone]].
    + exists q, m. split; [exact Hq|]. split; [exact Hn|].
      split; [now apply (saved_trained _ _ _ Hm)|exact Hg].
    + exfalso. apply (kept_saved _ _ _ Ek). now apply Hnone.
  - intros name Hname Hfree. rewrite get_set_other by congruence.
    destruct (Hart name) as [(q & m & Hq & Hn & Hm & Hg)|[Hg _]];
      [|exact Hg].
    exfalso. apply (Hfree q Hq); [congruence|exact Hn].
Qed.

(** X19.  [get_recommendations] of train.py returns normally on every
    table, with no recommendation and an untouched models directory on the
    empty one: a product whose training raises is left out and the others
    are still ranked.  The recommended products are the products of the
    table that came back from training with a model and a nonempty forecast
    of the 30 days after their last observation, with the validation window
    of 30 days, each once. *)
Theorem train_get_recommendations_spec (df : Table)
    (models_dir : option (Dir Model)) :
  exists recs fs',
    TrainEntry.get_recommendations df models_dir = (Return recs, fs')
    /\ Permutation (map rec_product recs)
                   (filter (recommendable df VAL_DAYS)
                           (Preprocess.get_products df))
    /\ NoDup (map rec_product recs)
    /\ (df = [] -> recs = [] /\ fs' = mkdir models_dir).
Proof.
  unfold TrainEntry.get_recommendations.
  destruct df as [|r df].
  { eexists. eexists. split; [reflexivity|].
    split; [constructor|]. split; [constructor|]. now split. }
  rewrite (@run_pipeline_parts (r :: df) models_dir VAL_DAYS None)
    by discriminate.
  pose proof (pipeline_forecasts (r :: df) models_dir VAL_DAYS None) as Hfr.
  cbv zeta in Hfr. cbn [limit_products] in *.
  eexists. eexists. split; [reflexivity|].
  cbn [recommendations]. rewrite Hfr.
  pose proof (pipeline_recommended (r :: df) VAL_DAYS
                (Preprocess.get_products (r :: df))) as Hperm.
  split; [exact Hperm|]. split; [|discriminate].
  apply (Permutation_NoDup (Permutation_sym Hperm)).
  apply NoDup_filter. apply (limit_products_NoDup None).
Qed.

End WithProphet.

(** A table with three products: [A] with twelve observations, [C] with one,
    and [D] with twelve negative observations, on which the model of the
    examples refuses to fit. *)
Lemma run_pipeline_result_witness :
  let obs (name : string) (base : Q) : Table :=
    map (fun i => Forecast.mkRow (Z.of_nat i) name "x"
                    (base + inject_Z (Z.of_nat i))%Q)
        (seq 1 12) in
  let df : Table :=
    (obs "A" 10%Q ++ [Forecast.mkRow 1 "C" "x" 5] ++ obs "D" (-100)%Q)%list in
  exists res fs',
    @run_pipeline _ Toy.ToyProphet Sqrt_trunc df None 3 None
    = (Return res, fs')
    /\ products_trained res = Some 1%nat
    /\ Permutation (map rec_product (recommendations res)) ["A"].
Proof.
  intros obs df.
  destruct (@run_pipeline_result _ Toy.ToyProphet Sqrt_trunc df None 3 None)
    as (res & fs' & Hrun & _ & Hn & Hperm & _); [discriminate|].
  exists res, fs'. split; [exact Hrun|]. split; [exact Hn|exact Hperm].
Defined.

(** The same table, trained into a directory that holds a note. *)
Lemma run_pipeline_files_witness :
  let obs (name : string) (base : Q) : Table :=
    map (fun i => Forecast.mkRow (Z.of_nat i) name "x"
                    (base + inject_Z (Z.of_nat i))%Q)
        (seq 1 12) in
  let df : Table :=
    (obs "A" 10%Q ++ [Forecast.mkRow 1 "C" "x" 5] ++ obs "D" (-100)%Q)%list in
  let dir : Dir Toy.Model := [("notes.txt", Garbage)] in
  let fs' :=
    snd (@run_pipeline _ Toy.ToyProphet Sqrt_trunc df (Some dir) 3 None) in
  exists meta,
    PyDict.get fs' "meta.json" = Some (Json meta)
    /\ PyDict.get meta "A"
       = Some (info_of (_prepare_prophet_series df "A"))
    /\ PyDict.get fs' "notes.txt" = Some Garbage
    /\ PyDict.get fs' "D.pkl" = None.
Proof.
  intros obs df dir fs'.
  destruct (@run_pipeline_files _ Toy.ToyProphet Sqrt_trunc df (Some dir)
              3 None) as (meta & Hfile & Hmeta & _ & Hframe);
    [discriminate|].
  exists meta. split; [exact Hfile|]. split; [|split].
  - apply Hmeta. split; [vm_compute; tauto|]. split; reflexivity.
  - apply (Hframe "notes.txt"); [discriminate|].
    intros q Hq _. destruct Hq as [<-|[<-|[<-|[]]]]; discriminate.
  - apply (Hframe "D.pkl"); [discriminate|].
    intros q Hq Hs. destruct Hq as [<-|[<-|[<-|[]]]];
      [discriminate|discriminate|].
    exfalso. apply Hs. reflexivity.
Defined.

End PipelineFacts.

(** ** forecast.py: [run_forecasts_for_products] *)

Module BatchFacts.
Import PyFloat Exn Forecast FS Recommend Orders ForecastBatch.
Import DictFacts DictKeyFacts.
Local Open Scope string_scope.

Lemma get_set_forecast (out : list (Z * Frame)) (h h' : Z) (f : Frame) :
  get_forecast (set_forecast out h f) h'
  = if (h =? h')%Z then Some f else get_forecast out h'.
Proof.
  induction out as [|[h0 f0] out IH]; simpl.
  - reflexivity.
  - destruct (h0 =? h)%Z eqn:E0; simpl.
    + apply Z.eqb_eq in E0. subst h0. now destruct (h =? h')%Z.
    + rewrite IH. destruct (h =? h')%Z eqn:E; [|reflexivity].
      apply Z.eqb_eq in E. subst h'. now rewrite E0.
Qed.

(** A loop whose passes set a value under the key of the item for some of
    the items. *)
Lemma fold_set_get {V} (f : string -> option V) (items : list string)
    (d : PyDict.dict V) (k : string) :
  PyDict.get
    (fold_left (fun d q => match f q with
                           | Some v => PyDict.set d q v
                           | None => d
                           end) items d) k
  = if existsb (String.eqb k) items
    then match f k with
         | Some v => Some v
         | None => PyDict.get d k
         end
    else PyDict.get d k.
Proof.
  revert d. induction items as [|q items IH]; intro d;
    cbn [fold_left existsb]; [reflexivity|].
  rewrite IH. destruct (String.eqb k q) eqn:E; cbn [orb].
  - apply String.eqb_eq in E. subst q.
    destruct (f k) as [v|].
    + rewrite get_set_same. now destruct (existsb _ items).
    + now destruct (existsb _ items).
  - apply String.eqb_neq in E.
    destruct (f q) as [v|]; [|reflexivity].
    rewrite get_set_other by congruence. reflexivity.
Qed.

Lemma fold_set_NoDup {V} (f : string -> option V) (items : list string)
    (d : PyDict.dict V) :
  NoDup (PyDict.keys d) ->
  NoDup (PyDict.keys
           (fold_left (fun d q => match f q with
                                  | Some v => PyDict.set d q v
                                  | None => d
                                  end) items d)).
Proof.
  revert d. induction items as [|q items IH]; intros d Hnd;
    cbn [fold_left]; [exact Hnd|].
  apply IH. destruct (f q); [now apply keys_set_NoDup|exact Hnd].
Qed.

(** A loop over distinct items that sets a value under the key of some of
    the items appends the entries in the order of the items. *)
Lemma fold_set_new {V} (f : string -> option V) (items : list string)
    (d : PyDict.dict V) :
  NoDup items ->
  (forall q, In q items -> ~ In q (PyDict.keys d)) ->
  fold_left (fun d q => match f q with
                        | Some v => PyDict.set d q v
                        | None => d
                        end) items d
  = (d ++ flat_map (fun q => match f q with
                             | Some v => [(q, v)]
                             | None => []
                             end) items)%list.
Proof.
  revert d. induction items as [|a items IH]; intros d Hnd Hfree;
    cbn [fold_left flat_map].
  - now rewrite app_nil_r.
  - inversion Hnd as [|? ? Ha Hnd']; subst.
    destruct (f a) as [v|].
    + rewrite IH; [|exact Hnd'|].
      * rewrite PipelineFacts.set_new by (apply Hfree; now left).
        now rewrite <- app_assoc.
      * intros q Hq Hc. apply keys_set in Hc. destruct Hc as [->|Hc];
          [contradiction|]. revert Hc. apply Hfree. now right.
    + apply IH; [exact Hnd'|]. intros q Hq. apply Hfree. now right.
Qed.

Section WithProphet.
Context {Model : Type} `{Prophet Model}.

(** The forecasts of an entry: one frame for each horizon, the rows of the
    forecast that lie after the last observed date. *)
Lemma horizons_loop_spec (model : Model) (series : Series)
    (horizons : list Z) (out out' : list (Z * Frame)) :
  horizons_loop model series horizons out = Return out' ->
  (forall h, In h horizons ->
     exists pred, forecast_days model h = Return pred
       /\ get_forecast out' h
          = Some (filter (fun r => (ds_max series <? fst r)%Z) pred))
  /\ (forall h, ~ In h horizons -> get_forecast out' h = get_forecast out h).
Proof.
  revert out. induction horizons as [|h0 horizons IH]; intros out;
    cbn [horizons_loop].
  - intro E. injection E as <-. split; [intros h []|reflexivity].
  - unfold horizon_step, Exn.bind.
    destruct (forecast_days model h0) as [pred|e] eqn:Ef; [|discriminate].
    intro Hl. apply IH in Hl. destruct Hl as [Hin Hout]. split.
    + intros h Hh.
      destruct (in_dec Z.eq_dec h horizons) as [Hi|Hni]; [now apply Hin|].
      destruct Hh as [<-|Hh]; [|contradiction].
      exists pred. split; [exact Ef|].
      rewrite (Hout h0 Hni), get_set_forecast. now rewrite Z.eqb_refl.
    + intros h Hh. rewrite Hout by (intro Hc; apply Hh; now right).
      rewrite get_set_forecast.
      destruct (h0 =? h)%Z eqn:E; [|reflexivity].
      apply Z.eqb_eq in E. exfalso. apply Hh. now left.
Qed.

Lemma product_step_out (df : Table) (horizons : list Z)
    (results : PyDict.dict Out) (p : string) (fs : Dir Model) :
  prophet_installed = true ->
  fst (product_step df horizons results p fs)
  = match batch_out df horizons p with
    | Return (Some out) => Return (PyDict.set results p out)
    | Return None => Return results
    | Raise e => Raise e
    end.
Proof.
  intro Hon. unfold product_step, batch_out.
  destruct (length (_prepare_prophet_series df p) <? 2)%nat eqn:El;
    [reflexivity|].
  unfold train_prophet_for_product. rewrite Hon, El. cbn [negb].
  unfold FS.bind, FS.lift, FS.write_file, FS.ret, Exn.bind.
  destruct (fit (_prepare_prophet_series df p)) as [model|e];
    [|reflexivity].
  now destruct (horizons_loop model _ horizons []).
Qed.

Lemma products_loop_out (df : Table) (horizons : list Z)
    (products : list string) (results : PyDict.dict Out) (fs : Dir Model) :
  prophet_installed = true ->
  match fst (products_loop df horizons products results fs) with
  | Return results' =>
      Forall (fun q => exists o, batch_out df horizons q = Return o) products
      /\ results'
         = fold_left (fun d q => match entry_of df horizons q with
                                 | Some out => PyDict.set d q out
                                 | None => d
                                 end) products results
  | Raise e =>
      exists before p after,
        products = (before ++ p :: after)%list
        /\ Forall (fun q => exists o, batch_out df horizons q = Return o)
                  before
        /\ batch_out df horizons p = Raise e
  end.
Proof.
  intro Hon. revert results fs.
  induction products as [|a products IH]; intros results fs;
    cbn [products_loop].
  - cbn. split; [constructor|reflexivity].
  - unfold FS.bind.
    pose proof (product_step_out df horizons results a fs Hon) as Hs.
    destruct (product_step df horizons results a fs) as [r fs1].
    cbn [fst] in Hs. subst r.
    destruct (batch_out df horizons a) as [[out|]|e] eqn:Ea.
    + cbn beta iota. specialize (IH (PyDict.set results a out) fs1).
      destruct (fst (products_loop df horizons products _ fs1))
        as [results'|e'].
      * destruct IH as [Hall ->]. split; [constructor; eauto|].
        cbn [fold_left].
        assert (Hea : entry_of df horizons a = Some out)
          by (unfold entry_of; now rewrite Ea).
        now rewrite Hea.
      * destruct IH as (before & p & after & -> & Hb & Hp).
        exists (a :: before), p, after. split; [reflexivity|].
        split; [constructor; eauto|exact Hp].
    + cbn beta iota. specialize (IH results fs1).
      destruct (fst (products_loop df horizons products _ fs1))
        as [results'|e'].
      * destruct IH as [Hall ->]. split; [constructor; eauto|].
        cbn [fold_left].
        assert (Hea : entry_of df horizons a = None)
          by (unfold entry_of; now rewrite Ea).
        now rewrite Hea.
      * destruct IH as (before & p & after & -> & Hb & Hp).
        exists (a :: before), p, after. split; [reflexivity|].
        split; [constructor; eauto|exact Hp].
    + cbn [fst]. exists [], a, products. split; [reflexivity|].
      split; [constructor|exact Ea].
Qed.

Lemma batch_out_entry (df : Table) (horizons : list Z) (p : string)
    (model : Model) (data : Data) :
  batch_out df horizons p = Return (Some (model, data)) ->
  let series := _prepare_prophet_series df p in
  (2 <= length series)%nat
  /\ fit series = Return model
  /\ d_series data = Some series
  /\ (forall h, In h horizons ->
        exists pred, forecast_days model h = Return pred
          /\ get_forecast (d_forecasts data) h
             = Some (filter (fun r => (ds_max series <? fst r)%Z) pred))
  /\ (forall h, ~ In h horizons -> get_forecast (d_forecasts data) h = None).
Proof.
  cbv zeta. unfold batch_out.
  destruct (length (_prepare_prophet_series df p) <? 2)%nat eqn:El;
    [discriminate|].
  apply Nat.ltb_ge in El. unfold Exn.bind.
  destruct (fit (_prepare_prophet_series df p)) as [model'|e];
    [|discriminate].
  destruct (horizons_loop model' _ horizons []) as [forecasts|e] eqn:Eh;
    [|discriminate].
  intro E. injection E as -> <-. cbn [d_series d_forecasts].
  apply horizons_loop_spec in Eh. destruct Eh as [Hin Hout].
  split; [exact El|]. split; [reflexivity|]. split; [reflexivity|].
  split; [exact Hin|]. intros h Hh. now rewrite Hout.
Qed.

Lemma batch_results_get (df : Table) (horizons : list Z)
    (products : list string) (p : string) (out : Out) :
  PyDict.get
    (fold_left (fun d q => match entry_of df horizons q with
                           | Some out => PyDict.set d q out
                           | None => d
                           end) products []) p = Some out
  <-> In p products /\ batch_out df horizons p = Return (Some out).
Proof.
  rewrite fold_set_get. cbn [PyDict.get]. unfold entry_of.
  destruct (existsb (String.eqb p) products) eqn:Ex.
  - apply existsb_exists in Ex. destruct Ex as (q & Hq & E).
    apply String.eqb_eq in E. subst q.
    destruct (batch_out df horizons p) as [[o|]|e].
    + split; [intro E; injection E as ->; now split|].
      intros [_ E]. now injection E as ->.
    + split; [discriminate|]. intros [_ E]. discriminate.
    + split; [discriminate|]. intros [_ E]. discriminate.
  - split; [discriminate|]. intros [Hp _].
    assert (Hc : existsb (String.eqb p) products = true).
    { apply existsb_exists. exists p. split; [exact Hp|apply String.eqb_refl]. }
    congruence.
Qed.

(** X17.  [run_forecasts_for_products] has no [try]: it returns exactly
    when Prophet is installed and the pass of every listed product returns,
    and otherwise raises the error of the first product whose fit or
    forecast raises, or a [RuntimeError] without making the models
    directory when Prophet is not installed.  When it returns, the result
    holds one entry for each listed product with two points or more: the
    model fitted on the product's series, the series, and for each horizon
    the rows of the model's forecast that lie after the last observed
    date. *)
Theorem run_forecasts_for_products_spec (df : Table) (products : list string)
    (horizons : list Z) (models_dir : option (Dir Model)) :
  match run_forecasts_for_products df products horizons models_dir with
  | (Return results, dir') =>
      prophet_installed = true
      /\ dir' <> None
      /\ Forall (fun p => exists o, batch_out df horizons p = Return o)
                products
      /\ NoDup (PyDict.keys results)
      /\ (forall p out,
            PyDict.get results p = Some out
            <-> In p products /\ batch_out df horizons p = Return (Some out))
      /\ (forall p model data,
            PyDict.get results p = Some (model, data) ->
            let series := _prepare_prophet_series df p in
            (2 <= length series)%nat
            /\ fit series = Return model
            /\ d_series data = Some series
            /\ (forall h, In h horizons ->
                  exists pred, forecast_days model h = Return pred
                    /\ get_forecast (d_forecasts data) h
                       = Some (filter (fun r => (ds_max series <? fst r)%Z)
                                      pred))
            /\ (forall h, ~ In h horizons ->
                  get_forecast (d_forecasts data) h = None))
  | (Raise e, dir') =>
      if prophet_installed
      then exists before p after,
             products = (before ++ p :: after)%list
             /\ Forall (fun q => exists o, batch_out df horizons q = Return o)
                       before
             /\ batch_out df horizons p = Raise e
      else dir' = models_dir /\ exists msg, e = RuntimeError msg
  end.
Proof.
  unfold run_forecasts_for_products.
  destruct prophet_installed eqn:Hon; cbn [negb];
    [|split; [reflexivity|now eexists]].
  pose proof (products_loop_out df horizons products []
                (Train.mkdir models_dir) Hon) as Hl.
  destruct (products_loop df horizons products [] (Train.mkdir models_dir))
    as [[results|e] fs']; cbn [fst] in Hl; [|exact Hl].
  destruct Hl as [Hall ->].
  split; [reflexivity|]. split; [discriminate|]. split; [exact Hall|].
  split; [apply fold_set_NoDup; constructor|].
  split; [apply batch_results_get|].
  intros p model data Hg. apply batch_results_get in Hg.
  destruct Hg as [_ Hb]. now apply batch_out_entry.
Qed.

Lemma batch_recommended (df : Table) (products : list string) :
  map fst
      (filter (eligible 30)
         (map (fun e : string * Out => (fst e, snd (snd e)))
              (flat_map (fun q => match entry_of df [30; 90]%Z q with
                                  | Some out => [(q, out)]
                                  | None => []
                                  end) products)))
  = filter (batch_recommendable df) products.
Proof.
  unfold batch_recommendable, entry_of.
  induction products as [|p products IH]; cbn [flat_map filter];
    [reflexivity|].
  rewrite map_app, filter_app, map_app, IH.
  destruct (batch_out df [30; 90]%Z p) as [[[model data]|]|e];
    cbn [map filter fst snd app]; try reflexivity.
  now destruct (eligible 30 (p, data)).
Qed.

(** X18.  [get_recommendations] of recommend.py.  On an empty table it
    returns the empty list and leaves the models directory alone, whether
    Prophet is installed or not.  On a nonempty table it returns exactly
    when Prophet is installed and the pass of every product of the list
    returns; one product whose fit or forecast raises makes the whole call
    raise that error, and no recommendation is returned for any product.
    When it returns, the recommended products are the products of the list
    with two points or more and a nonempty forecast of the 30 days after
    their last observation, each once. *)
Theorem recommend_get_recommendations_spec (df : Table)
    (max_products : option Z) (models_dir : option (Dir Model)) :
  RecommendEntry.get_recommendations [] max_products models_dir
  = (Return [], models_dir)
  /\ (df <> [] ->
      let products :=
        Train.limit_products max_products (Preprocess.get_products df) in
      match RecommendEntry.get_recommendations df max_products models_dir with
      | (Return recs, dir') =>
          prophet_installed = true
          /\ Forall (fun p => exists o,
                       batch_out df [30; 90]%Z p = Return o) products
          /\ Permutation (map rec_product recs)
                         (filter (batch_recommendable df) products)
          /\ NoDup (map rec_product recs)
      | (Raise e, dir') =>
          if prophet_installed
          then exists p, In p products
                         /\ batch_out df [30; 90]%Z p = Raise e
          else dir' = models_dir /\ exists msg, e = RuntimeError msg
      end).
Proof.
  split; [reflexivity|]. intros Hdf products.
  assert (Hne : products <> []).
  { apply TrainFacts.limit_products_nonempty.
    now apply TrainFacts.get_products_nonempty. }
  assert (Hnd : NoDup products) by apply PipelineFacts.limit_products_NoDup.
  unfold RecommendEntry.get_recommendations.
  destruct df as [|r df]; [congruence|]. fold products.
  destruct products as [|p0 products'] eqn:Ep; [congruence|].
  rewrite <- Ep in *. clear Ep p0 products'.
  unfold run_forecasts_for_products.
  destruct prophet_installed eqn:Hon; cbn [negb];
    [|split; [reflexivity|now eexists]].
  pose proof (products_loop_out (r :: df) [30; 90]%Z products []
                (Train.mkdir models_dir) Hon) as Hl.
  destruct (products_loop (r :: df) [30; 90]%Z products []
                          (Train.mkdir models_dir))
    as [[results|e] fs']; cbn [fst] in Hl.
  - destruct Hl as [Hall ->].
    split; [reflexivity|]. split; [exact Hall|].
    rewrite fold_set_new by (try exact Hnd; intros q _ []).
    cbn [app].
    assert (Hperm : Permutation
              (map rec_product
                 (build_recommendations
                    (map (fun e : string * Out => (fst e, snd (snd e)))
                         (flat_map
                            (fun q => match entry_of (r :: df) [30; 90]%Z q
                                      with
                                      | Some out => [(q, out)]
                                      | None => []
                                      end) products)) 30))
              (filter (batch_recommendable (r :: df)) products)).
    { destruct (RankingFacts.build_recommendations_sorted_form
                  (map (fun e : string * Out => (fst e, snd (snd e)))
                       (flat_map
                          (fun q => match entry_of (r :: df) [30; 90]%Z q with
                                    | Some out => [(q, out)]
                                    | None => []
                                    end) products)) 30)
        as (rows & -> & _ & Hp).
      rewrite <- batch_recommended, <- Hp.
      replace (map (fun rs => product (fst rs)) rows)
        with (map rec_product (map to_rec rows)) by (now rewrite map_map).
      apply Permutation_map, Permutation_map, SortFacts.sort_perm. }
    split; [exact Hperm|].
    apply (Permutation_NoDup (Permutation_sym Hperm)).
    now apply NoDup_filter.
  - destruct Hl as (before & p & after & Eq & _ & Hp).
    exists p. split; [|exact Hp]. rewrite Eq. apply in_or_app.
    right. now left.
Qed.

End WithProphet.

(** Two products, of which the second cannot be fitted: the call raises the
    error of the fit, and the first product is not recommended either. *)
Lemma recommend_get_recommendations_spec_witness :
  let df : Table :=
    [Forecast.mkRow 1 "A" "x" 5; Forecast.mkRow 2 "A" "x" 7;
     Forecast.mkRow 1 "D" "x" (-3); Forecast.mkRow 2 "D" "x" (-1)] in
  fst (@RecommendEntry.get_recommendations _ Toy.ToyProphet df None None)
  = Raise (OtherError "fit failed")
  /\ exists p, In p ["A"; "D"]
               /\ @batch_out _ Toy.ToyProphet df [30; 90]%Z p
                  = Raise (OtherError "fit failed").
Proof.
  intro df. split; [reflexivity|].
  exact (proj2 (@recommend_get_recommendations_spec _ Toy.ToyProphet df
                  None None)
               ltac:(discriminate)).
Defined.

End BatchFacts.

(** ** api.py: the endpoints after startup *)

Module ApiFacts.
Import PyFloat Exn Forecast FS Inference Loading Api.
Import DictFacts DictKeyFacts.
Local Open Scope string_scope.

Lemma enumerate_from_nth {A} (l : list A) (i0 i : nat) (a : A) :
  nth_error l i = Some a ->
  nth_error (enumerate_from i0 l) i = Some ((i0 + i)%nat, a).
Proof.
  revert i0 i. induction l as [|z l IH]; intros i0 [|i]; simpl;
    try discriminate.
  - intro E. injection E as ->. now rewrite Nat.add_0_r.
  - intro E. rewrite (IH (S i0) i E). f_equal. f_equal. lia.
Qed.

Lemma enumerate_from_snd {A} (l : list A) (i0 : nat) :
  map snd (enumerate_from i0 l) = l.
Proof.
  revert i0. induction l as [|z l IH]; intro i0; simpl; [reflexivity|].
  now rewrite IH.
Qed.

Section WithProphet.
Context {Model : Type} `{Prophet Model}.

Lemma lifespan_parts (models_dir : option (Dir Model)) :
  lifespan models_dir
  = {| _models := fst (load_models models_dir);
       _meta := snd (load_models models_dir);
       _models_loaded := (0 <? length (fst (load_models models_dir)))%nat |}.
Proof. unfold lifespan. now destruct (load_models models_dir). Qed.

Lemma lifespan_keys (models_dir : option (Dir Model)) (k : string) :
  In k (PyDict.keys (_models (lifespan models_dir)))
  <-> loadable_in models_dir k.
Proof.
  rewrite lifespan_parts. cbn [_models]. destruct models_dir as [dir|].
  - apply LoadMoreFacts.loaded_keys_iff.
  - simpl. tauto.
Qed.

Lemma lifespan_loaded (models_dir : option (Dir Model)) :
  _models_loaded (lifespan models_dir) = true
  <-> exists k, loadable_in models_dir k.
Proof.
  pose proof (lifespan_keys models_dir) as Hk.
  rewrite lifespan_parts in *. cbn [_models _models_loaded] in *.
  destruct (fst (load_models models_dir)) as [|[k m] models].
  - split; [discriminate|]. intros [k Hl]. apply Hk in Hl. contradiction.
  - split; [|reflexivity]. intros _. exists k. apply Hk. now left.
Qed.

Lemma get_products_keys (models_dir : option (Dir Model)) :
  get_products (lifespan models_dir)
  = PyDict.keys (_models (lifespan models_dir)).
Proof.
  unfold get_products. rewrite lifespan_parts.
  cbn [_models _models_loaded].
  now destruct (fst (load_models models_dir)).
Qed.

Lemma predict_fold (models : PyDict.dict Model) (l : list string)
    (acc : list Prediction) :
  fold_left
    (fun results p =>
       if PyDict.contains models p
       then (results ++ [{| product := p; prediction := 150;
                            confidence := 95 # 100 |}])%list
       else (results ++ [{| product := p; prediction := 100;
                            confidence := 8 # 10 |}])%list) l acc
  = (acc ++ map (fun p => if PyDict.contains models p
                          then {| product := p; prediction := 150;
                                  confidence := 95 # 100 |}
                          else {| product := p; prediction := 100;
                                  confidence := 8 # 10 |}) l)%list.
Proof.
  revert acc. induction l as [|a l IH]; intro acc; cbn [fold_left map].
  - now rewrite app_nil_r.
  - rewrite IH. destruct (PyDict.contains models a);
      now rewrite <- app_assoc.
Qed.

(** X20.  The endpoints after startup.  The service is in mock mode exactly
    when the models directory is missing or holds no [.pkl] file that can be
    unpickled.  [/products] lists the keys of the loadable artifacts, each
    once.  [/predict] answers every request with one prediction for each
    requested product, in the order of the request, known or not: in mock
    mode the prediction at position [i] is [100 + 10 i], otherwise it is 150
    for a product with a loaded model and 100 for any other.  In mock mode
    [/recommend] returns the three mock products. *)
Theorem api_endpoints (models_dir : option (Dir Model))
    (req : PredictRequest) :
  let st := lifespan models_dir in
  let resp := predict_endpoint st req in
  (snd (health st) = true <-> exists k, loadable_in models_dir k)
  /\ (forall k, In k (get_products st) <-> loadable_in models_dir k)
  /\ NoDup (get_products st)
  /\ map product (predictions resp) = products req
  /\ (status resp = "mock" <-> forall k, ~ loadable_in models_dir k)
  /\ ((exists k, loadable_in models_dir k) ->
      status resp = "success"
      /\ Forall (fun pr =>
                   (loadable_in models_dir (product pr)
                    /\ prediction pr = 150%Z /\ confidence pr = 95 # 100)
                   \/ (~ loadable_in models_dir (product pr)
                       /\ prediction pr = 100%Z /\ confidence pr = 8 # 10))
                (predictions resp))
  /\ ((forall k, ~ loadable_in models_dir k) ->
      recommend st = mock_recommendations
      /\ forall i p, nth_error (products req) i = Some p ->
           nth_error (predictions resp) i
           = Some {| product := p;
                     prediction := 100 + Z.of_nat i * 10;
                     confidence := 9 # 10 |}).
Proof.
  intros st resp.
  pose proof (lifespan_loaded models_dir) as Hloaded.
  pose proof (lifespan_keys models_dir) as Hkeys.
  pose proof (get_products_keys models_dir) as Hprod.
  fold st in Hloaded, Hkeys, Hprod.
  assert (Hnone : _models_loaded st = false
                  <-> forall k, ~ loadable_in models_dir k).
  { split.
    - intros E k Hk.
      assert (Hc : _models_loaded st = true) by (apply Hloaded; now exists k).
      congruence.
    - intro Hn. destruct (_models_loaded st) eqn:E; [|reflexivity].
      destruct (proj1 Hloaded eq_refl) as [k Hk]. now apply Hn in Hk. }
  split; [exact Hloaded|]. split; [intro k; rewrite Hprod; apply Hkeys|].
  split.
  { rewrite Hprod. unfold st. rewrite lifespan_parts. cbn [_models].
    destruct models_dir as [dir|]; [|constructor].
    rewrite LoadMoreFacts.load_models_fst.
    apply LoadMoreFacts.loaded_keys_NoDup. constructor. }
  unfold resp, predict_endpoint, recommend.
  destruct (_models_loaded st) eqn:El; cbn [negb status predictions].
  - rewrite predict_fold. cbn [app].
    split.
    { rewrite map_map. rewrite <- (map_id (products req)) at 2.
      apply map_ext. intro p. now destruct (PyDict.contains (_models st) p). }
    split.
    { split; [discriminate|]. intro Hn. apply Hnone in Hn. discriminate. }
    split.
    { intros _. split; [reflexivity|]. apply Forall_forall. intros pr Hin.
      apply in_map_iff in Hin. destruct Hin as (p & <- & _).
      destruct (PyDict.contains (_models st) p) eqn:Ec; cbn.
      - left. split; [|now split]. apply Hkeys. now apply contains_keys.
      - right. split; [|now split]. intro Hl. apply Hkeys in Hl.
        apply contains_keys in Hl. congruence. }
    intro Hn. apply Hnone in Hn. discriminate.
  - split.
    { rewrite map_map. cbn [product]. apply enumerate_from_snd. }
    split.
    { split; [intros _; now apply Hnone|reflexivity]. }
    split.
    { intros Hex. apply Hloaded in Hex. discriminate. }
    intros _. split; [reflexivity|].
    intros i p Hi. rewrite nth_error_map.
    unfold enumerate. rewrite (enumerate_from_nth _ 0 _ Hi). reflexivity.
Qed.

(** X21.  Training and then starting the service, for product names that
    the file name keeps and a models directory that held no [.pkl] file.
    The service has models exactly when some product of the list was
    trained; [/products] lists exactly the trained products; and for each
    of them the service holds the model fitted on the product's series and
    the metadata record that training wrote, not the placeholder. *)
Theorem train_then_serve (df : Table) (models_dir : option (Dir Model))
    (max_products : option Z) :
  df <> [] ->
  let trained_products :=
    Train.limit_products max_products (Preprocess.get_products df) in
  Forall (fun p => Training.clean_name p = true) trained_products ->
  Forall (fun e => is_pkl (fst e) = false) (Train.mkdir models_dir) ->
  let st :=
    lifespan (Some (snd (Train.run_training_only df models_dir
                                                 max_products))) in
  (_models_loaded st = true
   <-> exists p, In p trained_products /\ Training.trained df p <> None)
  /\ (forall p, In p (get_products st)
                <-> In p trained_products /\ Training.trained df p <> None)
  /\ Forall (fun p =>
               PyDict.get (_meta st) p
               = Some (Train.info_of (_prepare_prophet_series df p))
               /\ exists m, PyDict.get (_models st) p = Some m
                            /\ Training.trained df p = Some m)
            (get_products st).
Proof.
  intros Hdf trained_products Hclean Hnopkl st.
  destruct (TrainingFacts.train_then_load_facts models_dir max_products
              Hdf Hclean Hnopkl) as (_ & Hmodels & Hmeta).
  pose proof (get_products_keys
                (Some (snd (Train.run_training_only df models_dir
                                                    max_products))))
    as Hprod.
  fold st in Hprod. fold trained_products in Hmodels, Hmeta.
  assert (Hst : st = lifespan (Some (snd (Train.run_training_only
                                            df models_dir max_products))))
    by reflexivity.
  rewrite lifespan_parts in Hst.
  set (loaded := load_models _) in *.
  assert (Em : _models st = fst loaded) by (now rewrite Hst).
  assert (Ee : _meta st = snd loaded) by (now rewrite Hst).
  assert (El : _models_loaded st = (0 <? length (fst loaded))%nat)
    by (now rewrite Hst).
  clearbody st loaded. clear Hst.
  assert (Hkeys : forall p, In p (PyDict.keys (fst loaded))
                            <-> In p trained_products
                                /\ Training.trained df p <> None).
  { intro p. rewrite <- contains_keys. unfold PyDict.contains. split.
    - destruct (PyDict.get (fst loaded) p) as [m|] eqn:Eg; [|discriminate].
      intros _. apply Hmodels in Eg. destruct Eg as [Hp Ht].
      split; [exact Hp|congruence].
    - intros [Hp Ht].
      destruct (Training.trained df p) as [m|] eqn:Et; [|congruence].
      assert (Hg : PyDict.get (fst loaded) p = Some m)
        by (apply Hmodels; now split).
      now rewrite Hg. }
  split; [|split].
  - rewrite El. split.
    + destruct (fst loaded) as [|[k m] models] eqn:Ef; [discriminate|].
      intros _. exists k. apply Hkeys. now left.
    + intros [p Hp]. apply Hkeys in Hp.
      destruct (fst loaded); [contradiction|reflexivity].
  - intro p. rewrite Hprod, Em. apply Hkeys.
  - rewrite Hprod, Em, Ee. apply Forall_forall. intros p Hp.
    apply Hkeys in Hp. destruct Hp as [Hp Ht]. split.
    + apply Hmeta. now repeat split.
    + destruct (Training.trained df p) as [m|] eqn:Et; [|congruence].
      exists m. split; [|reflexivity]. apply Hmodels. now split.
Qed.

End WithProphet.

(** A directory with one artifact that can be loaded and one that cannot,
    and a request for a known and an unknown product. *)
Lemma api_endpoints_witness :
  let dir : Dir Toy.Model :=
    [("Desk.pkl", Pickle [(1%Z, 5%Q)]); ("Lamp.pkl", Garbage)] in
  let st := @lifespan Toy.Model (Some dir) in
  let resp := predict_endpoint st (mkRequest ["Lamp"; "Desk"] 30) in
  status resp = "success"
  /\ map prediction (predictions resp) = [100%Z; 150%Z].
Proof.
  intros dir st resp.
  destruct (@api_endpoints Toy.Model Toy.ToyProphet (Some dir)
              (mkRequest ["Lamp"; "Desk"] 30))
    as (_ & _ & _ & _ & _ & Hsuccess & _).
  split; [|reflexivity].
  apply Hsuccess. exists "Desk". exists "Desk.pkl", [(1%Z, 5%Q)].
  split; [now left|]. split; reflexivity.
Defined.

(** Training two products into a new directory and starting the service. *)
Lemma train_then_serve_witness :
  let df : Table :=
    [Forecast.mkRow 1 "Desk Lamp" "x" 5; Forecast.mkRow 2 "Desk Lamp" "x" 7;
     Forecast.mkRow 1 "Chair" "x" 4] in
  let st :=
    @lifespan Toy.Model
      (Some (snd (@Train.run_training_only _ Toy.ToyProphet df None None))) in
  _models_loaded st = true
  /\ (In "Desk Lamp" (get_products st) /\ ~ In "Chair" (get_products st)).
Proof.
  intros df st.
  destruct (@train_then_serve _ Toy.ToyProphet df None None)
    as (Hloaded & Hprod & _);
    [discriminate
    |apply Forall_forall; intros p [<-|[<-|[]]]; reflexivity
    |constructor|].
  split; [|split].
  - apply Hloaded. exists "Desk Lamp".
    split; [vm_compute; tauto|discriminate].
  - apply Hprod. split; [vm_compute; tauto|discriminate].
  - intro Hc. apply Hprod in Hc. destruct Hc as [_ Hc]. now apply Hc.
Defined.

End ApiFacts.

(** ** recommend.py and inference.py: the two rankings *)

Module AgreementFacts.
Import PyFloat Exn Forecast FS FloatFacts Agreement.
Local Open Scope string_scope.

Lemma round_half_even_floor (x : Q) : (Qfloor x <= round_half_even x)%Z.
Proof. destruct (ScoreFacts.round_half_even_cases x) as [-> | ->]; lia. Qed.

Lemma round_half_even_nonpos (x : Q) : (x <= 0)%Q -> (round_half_even x <= 0)%Z.
Proof.
  intro Hx.
  assert (Hf : (Qfloor x <= 0)%Z).
  { change 0%Z with (Qfloor 0). now apply Qfloor_resp_le. }
  destruct (Z.eq_dec (Qfloor x) 0) as [E0|Hneg].
  - pose proof (Qfloor_le x) as Hle. rewrite E0 in Hle.
    unfold round_half_even. rewrite E0.
    replace (Qltb (x - inject_Z 0) (1 # 2)) with true; [lia|].
    symmetry. apply Qltb_lt. change (inject_Z 0) with 0%Q in *. lra.
  - destruct (ScoreFacts.round_half_even_cases x) as [-> | ->]; lia.
Qed.

Lemma pow10_Q_pos (n : nat) : (0 < inject_Z (pow10 n))%Q.
Proof.
  pose proof (ScoreFacts.pow10_pos n). unfold Qlt. simpl. lia.
Qed.

Lemma Qround_nonpos (x : Q) (n : nat) : (x <= 0)%Q -> (Qround x n <= 0)%Q.
Proof.
  intro Hx. unfold Qround. pose proof (pow10_Q_pos n) as Hp.
  assert (Hr : (round_half_even (x * inject_Z (pow10 n)) <= 0)%Z).
  { apply round_half_even_nonpos.
    setoid_replace 0%Q with (0 * inject_Z (pow10 n))%Q by ring.
    apply Qmult_le_compat_r; lra. }
  apply Qle_shift_div_r; [exact Hp|].
  setoid_replace (0 * inject_Z (pow10 n))%Q with 0%Q by ring.
  change 0%Q with (inject_Z 0). now rewrite <- Zle_Qle.
Qed.

Lemma Qround_ge_1 (x : Q) (n : nat) : (1 <= x)%Q -> (1 <= Qround x n)%Q.
Proof.
  intro Hx. unfold Qround. pose proof (pow10_Q_pos n) as Hp.
  assert (Hr : (pow10 n <= round_half_even (x * inject_Z (pow10 n)))%Z).
  { etransitivity; [|apply round_half_even_floor].
    rewrite <- (Qfloor_Z (pow10 n)) at 1. apply Qfloor_resp_le.
    setoid_replace (inject_Z (pow10 n)) with (1 * inject_Z (pow10 n))%Q at 1
      by ring.
    apply Qmult_le_compat_r; lra. }
  apply Qle_shift_div_l; [exact Hp|].
  setoid_replace (1 * inject_Z (pow10 n))%Q with (inject_Z (pow10 n)) by ring.
  now rewrite <- Zle_Qle.
Qed.

Lemma Qround_unit (x : Q) (n : nat) :
  (0 <= x <= 1)%Q -> (0 <= Qround x n <= 1)%Q.
Proof.
  intro Hx. destruct (ScoreFacts.py_round_in_unit n Hx) as (q & E & Hq).
  injection E as <-. exact Hq.
Qed.

(** Rounding and clamping to the unit interval can be done in either
    order. *)
Lemma round_clamp_comm (x : float) (n : nat) :
  feq (py_round (min2 (Fin 1) (max2 (Fin 0) x)) n)
      (min2 (Fin 1) (max2 (Fin 0) (py_round x n))).
Proof.
  assert (H0 : (Qround 0 n == 0)%Q).
  { pose proof (Qround_nonpos n (Qle_refl 0)) as Ha.
    assert (Hu : (0 <= 0 <= 1)%Q) by lra.
    pose proof (Qround_unit n Hu) as Hb. lra. }
  assert (H1 : (Qround 1 n == 1)%Q).
  { pose proof (Qround_ge_1 n (Qle_refl 1)) as Ha.
    assert (Hu : (0 <= 1 <= 1)%Q) by lra.
    pose proof (Qround_unit n Hu) as Hb. lra. }
  destruct x as [|q]; cbn [py_round]; unfold max2, min2, fgt, flt.
  - replace (Qltb 0 1) with true by reflexivity. cbn. exact H0.
  - destruct (Qltb 0 q) eqn:Eq0.
    + apply Qltb_lt in Eq0. destruct (Qltb q 1) eqn:Eq1.
      * apply Qltb_lt in Eq1. cbn [py_round].
        assert (Hu : (0 <= q <= 1)%Q) by lra.
        pose proof (Qround_unit n Hu) as Hr.
        destruct (Qltb 0 (Qround q n)) eqn:Er0.
        -- destruct (Qltb (Qround q n) 1) eqn:Er1; cbn; [reflexivity|].
           apply Qltb_ge in Er1. lra.
        -- apply Qltb_ge in Er0.
           replace (Qltb 0 1) with true by reflexivity. cbn. lra.
      * apply Qltb_ge in Eq1. cbn [py_round].
        pose proof (Qround_ge_1 n Eq1) as Hr.
        replace (Qltb 0 (Qround q n)) with true
          by (symmetry; apply Qltb_lt; lra).
        replace (Qltb (Qround q n) 1) with false
          by (symmetry; apply Qltb_ge; lra).
        cbn. exact H1.
    + apply Qltb_ge in Eq0.
      replace (Qltb 0 1) with true by reflexivity. cbn [py_round].
      pose proof (Qround_nonpos n Eq0) as Hr.
      replace (Qltb 0 (Qround q n)) with false
        by (symmetry; apply Qltb_ge; lra).
      replace (Qltb 0 1) with true by reflexivity. cbn. exact H0.
Qed.








(** X22.  The score of inference.py, which clamps and then rounds, and the
    score of recommend.py, which rounds and then clamps, have the same
    value on rows with the same predicted sales and growth rate, for every
    choice of the normalisation constants, NaN included. *)
Theorem scores_agree (pred_max growth_min growth_max : float)
    (r : Recommend.Row) (r' : Inference.Row) :
  Inference.predicted_sales r' = Recommend.predicted_sales r ->
  Inference.growth_rate r' = Recommend.growth_rate r ->
  feq (Inference.score_row pred_max growth_min growth_max r')
      (Recommend.score_row pred_max growth_min growth_max r).
Proof.
  intros Hs Hg. unfold Inference.score_row, Recommend.score_row.
  rewrite Hs, Hg. apply round_clamp_comm.
Qed.

(** A row whose blend of signals is above one, and one with NaN signals. *)
Lemma scores_agree_witness :
  feq (Inference.score_row (Fin 100) (Fin 0) (Fin 10)
         (Inference.mkRow "A" (Fin 250) (Fin 20)))
      (Recommend.score_row (Fin 100) (Fin 0) (Fin 10)
         (Recommend.mkRow "A" (Fin 250) (Fin 20) (Fin 1) (Fin 2)))
  /\ feq (Inference.score_row NaN (Fin 0) (Fin 10)
            (Inference.mkRow "B" NaN NaN))
         (Recommend.score_row NaN (Fin 0) (Fin 10)
            (Recommend.mkRow "B" NaN NaN NaN NaN)).
Proof.
  split; apply scores_agree; reflexivity.
Defined.

Section WithProphet.
Context {Model : Type} `{Prophet Model} `{Evaluate.Sqrt}.
Import Evaluate Train Training Pipeline.

(** A product whose model is saved and whose forecasts do not raise comes
    back with the model, the series and the future rows of the forecasts. *)
Lemma saved_outcome (df : Table) (val_days : Z) (p : string) (m : Model)
    (pred30 pred90 : Frame) :
  saved df val_days p = Some m ->
  forecast_days m 30 = Return pred30 ->
  forecast_days m 90 = Return pred90 ->
  let series := _prepare_prophet_series df p in
  let future := filter (fun r => (ds_max series <? fst r)%Z) in
  exists metrics,
    outcome df val_days p
    = Return (Some m, metrics,
              {| Recommend.d_series := Some series;
                 Recommend.d_forecasts :=
                   [(30%Z, future pred30); (90%Z, future pred90)] |}).
Proof.
  intros Hs H30 H90. cbv zeta.
  unfold saved in Hs. unfold outcome, _train_and_evaluate_one_product.
  set (series := _prepare_prophet_series df p) in *.
  destruct (length series <? 10)%nat; [discriminate|].
  destruct (split_train_val series val_days) as [train_series val_series].
  destruct (length train_series <? 2)%nat; [discriminate|].
  unfold FS.bind, FS.lift, FS.ret.
  pose proof (TrainingFacts.train_prophet_for_product_spec_aux
                train_series p None []) as Hval.
  destruct (train_prophet_for_product train_series p None [])
    as [[model_val|e] fs1].
  2: { destruct Hval as [Hn _]. rewrite Hn in Hs. discriminate. }
  destruct Hval as (Hv & _ & _ & ->). rewrite Hv in Hs.
  destruct (evaluate_product_forecast series model_val val_days)
    as [metrics|e]; [|discriminate].
  pose proof (TrainingFacts.train_prophet_for_product_spec_aux
                series p (Some (artifact_path p)) []) as Hfull.
  destruct (train_prophet_for_product series p (Some (artifact_path p)) [])
    as [[model_full|e] fs2].
  2: { destruct Hfull as [Hn _]. congruence. }
  destruct Hfull as (Hf & _). assert (model_full = m) by congruence.
  subst model_full. rewrite H30, H90. cbn [fst]. now exists metrics.
Qed.


















(** A product whose model is saved comes back with it, or the forecast
    raises. *)
Lemma saved_not_kept (df : Table) (val_days : Z) (p : string) (m : Model) :
  saved df val_days p = Some m ->
  has_model df val_days p = false ->
  exists e, outcome df val_days p = Raise e.
Proof.
  intros Hs Hk.
  destruct (forecast_days m 30) as [pred30|e30] eqn:H30.
  - destruct (forecast_days m 90) as [pred90|e90] eqn:H90.
    + destruct (saved_outcome _ _ _ Hs H30 H90) as [metrics Ho].
      unfold has_model in Hk. rewrite Ho in Hk. discriminate.
    + revert Hs. unfold saved, outcome, _train_and_evaluate_one_product.
      destruct (length (_prepare_prophet_series df p) <? 10)%nat;
        [discriminate|].
      destruct (split_train_val _ val_days) as [train_series val_series].
      destruct (length train_series <? 2)%nat; [discriminate|].
      unfold FS.bind, FS.lift, FS.ret.
      pose proof (TrainingFacts.train_prophet_for_product_spec_aux
                    train_series p None []) as Hval.
      destruct (train_prophet_for_product train_series p None [])
        as [[model_val|e] fs1]; [|now exists e].
      destruct Hval as (-> & _).
      destruct (evaluate_product_forecast _ model_val val_days)
        as [metrics|e]; [|discriminate].
      pose proof (TrainingFacts.train_prophet_for_product_spec_aux
                    (_prepare_prophet_series df p) p
                    (Some (artifact_path p)) fs1) as Hfull.
      destruct (train_prophet_for_product (_prepare_prophet_series df p) p
                  (Some (artifact_path p)) fs1) as [[model_full|e] fs2];
        [|now exists e].
      destruct Hfull as (-> & _). intro E. injection E as ->.
      rewrite H30, H90. now exists e90.
  - revert Hs. unfold saved, outcome, _train_and_evaluate_one_product.
    destruct (length (_prepare_prophet_series df p) <? 10)%nat;
      [discriminate|].
    destruct (split_train_val _ val_days) as [train_series val_series].
    destruct (length train_series <? 2)%nat; [discriminate|].
    unfold FS.bind, FS.lift, FS.ret.
    pose proof (TrainingFacts.train_prophet_for_product_spec_aux
                  train_series p None []) as Hval.
    destruct (train_prophet_for_product train_series p None [])
      as [[model_val|e] fs1]; [|now exists e].
    destruct Hval as (-> & _).
    destruct (evaluate_product_forecast _ model_val val_days)
      as [metrics|e]; [|discriminate].
    pose proof (TrainingFacts.train_prophet_for_product_spec_aux
                  (_prepare_prophet_series df p) p
                  (Some (artifact_path p)) fs1) as Hfull.
    destruct (train_prophet_for_product (_prepare_prophet_series df p) p
                (Some (artifact_path p)) fs1) as [[model_full|e] fs2];
      [|now exists e].
    destruct Hfull as (-> & _). intro E. injection E as ->.
    rewrite H30. now exists e30.
Qed.

(** X26.  A product whose forecast raises after its model was saved.
    [run_pipeline] reports it as failed: its metrics record is the NaN
    record with the error description, it is not recommended, and the
    metadata file has no record for it.  But its artifact stays in the
    models directory, so [load_models] returns a model for it, with the
    placeholder record as its metadata. *)
Theorem failed_forecast_is_served (df : Table)
    (models_dir : option (Dir Model)) (val_days : Z)
    (max_products : option Z) (p : string) (m : Model) :
  df <> [] ->
  let products := limit_products max_products (Preprocess.get_products df) in
  In p products ->
  clean_name p = true ->
  saved df val_days p = Some m ->
  has_model df val_days p = false ->
  exists res fs' e,
    run_pipeline df models_dir val_days max_products = (Return res, fs')
    /\ outcome df val_days p = Raise e
    /\ PyDict.get (metrics res) p
       = Some {| mae := NaN; rmse := NaN; error := Some (Exn.str e) |}
    /\ ~ In p (map Recommend.rec_product (recommendations res))
    /\ Loading.stored_meta fs' = fold_left meta_step
                                   (entries df val_days products) []
    /\ PyDict.get (Loading.stored_meta fs') p = None
    /\ PyDict.contains (fst (Inference.load_models (Some fs'))) p = true
    /\ PyDict.get (snd (Inference.load_models (Some fs'))) p
       = Some Inference.placeholder.
Proof.
  intros Hdf products Hp Hclean Hs Hk.
  destruct (saved_not_kept _ _ _ Hs Hk) as [e He].
  rewrite (PipelineFacts.run_pipeline_parts models_dir val_days max_products
             Hdf).
  fold products.
  pose proof (PipelineFacts.pipeline_forecasts df models_dir val_days
                max_products) as Hfr.
  cbv zeta in Hfr. fold products in Hfr.
  pose proof (@TrainFacts.pipeline_loop_metrics _ _ _ df val_days products
                ([], [], mkdir models_dir) p) as Hms.
  pose proof (PipelineFacts.fold_artifact files_of (pipeline_step df val_days)
                (saved df val_days)
                (PipelineFacts.pipeline_step_files df val_days)
                products ([], [], mkdir models_dir) (saved_name p)) as Hart.
  set (st := fold_left (pipeline_step df val_days) products
                       ([], [], mkdir models_dir)) in *.
  rewrite Hfr.
  set (meta := fold_left meta_step (entries df val_days products) []).
  set (fs' := PyDict.set (files_of st) "meta.json" (Json meta)).
  assert (Hnometa : PyDict.get meta p = None).
  { destruct (PyDict.get meta p) as [info|] eqn:Eg; [|reflexivity].
    apply PipelineFacts.pipeline_meta_get in Eg.
    destruct Eg as (_ & Hc & _). congruence. }
  assert (Hstored : Loading.stored_meta fs' = meta).
  { unfold Loading.stored_meta, fs'. now rewrite DictFacts.get_set_same. }
  assert (Hkey : Inference.product_name_of (saved_name p) = p)
    by (now apply TrainingFacts.clean_name_key).
  assert (Hfile : exists m', In (saved_name p, Pickle m') fs').
  { destruct Hart as [(q & m' & _ & _ & _ & Hg)|[_ Hnone]].
    - exists m'. apply DictKeyFacts.get_In. unfold fs'.
      rewrite DictFacts.get_set_other; [exact Hg|].
      intro E. symmetry in E.
      now apply TrainingFacts.saved_name_not_meta in E.
    - rewrite (Hnone p Hp eq_refl) in Hs. discriminate. }
  destruct Hfile as [m' Hin].
  exists {| recommendations :=
              Recommend.build_recommendations
                (entries df val_days products) 30;
            metrics := metrics_of st;
            message := None;
            products_trained :=
              Some (length (entries df val_days products)) |}, fs', e.
  cbn [metrics recommendations].
  split; [reflexivity|]. split; [exact He|]. split.
  { rewrite Hms. cbn [metrics_of fst snd PyDict.get].
    replace (existsb (String.eqb p) products) with true.
    - now rewrite He.
    - symmetry. apply existsb_exists. exists p.
      split; [exact Hp|apply String.eqb_refl]. }
  split.
  { intro Hc.
    apply (Permutation_in _ (PipelineFacts.pipeline_recommended
                               df val_days products)) in Hc.
    apply filter_In in Hc. destruct Hc as [_ Hc].
    unfold recommendable in Hc. unfold has_model in Hk.
    destruct (kept (outcome df val_days p)); discriminate. }
  split; [exact Hstored|]. split; [now rewrite Hstored|]. split.
  - apply DictKeyFacts.contains_keys.
    apply (proj2 (LoadMoreFacts.loaded_keys_iff fs' p)).
    exists (saved_name p), m'. split; [exact Hin|].
    split; [apply NameFacts.saved_name_is_pkl|exact Hkey].
  - rewrite <- Hkey.
    rewrite (@RoundTripFacts.loaded_record _ fs' meta (saved_name p)
               (Pickle m')).
    + rewrite Hkey, Hnometa. reflexivity.
    + unfold fs'. apply DictFacts.get_set_same.
    + exact Hin.
    + apply NameFacts.saved_name_is_pkl.
Qed.

End WithProphet.


(** A product with twelve observations and a model that forecasts 30 days
    but raises on 90. *)
Lemma failed_forecast_is_served_witness :
  let df : Table :=
    map (fun i => Forecast.mkRow (Z.of_nat i) "A" "x"
                    (10 + inject_Z (Z.of_nat i))%Q)
        (seq 1 12) in
  exists res fs',
    @Train.run_pipeline _ Brittle.ShortHorizonProphet Evaluate.Sqrt_trunc
      df None 3 None = (Return res, fs')
    /\ Train.recommendations res = []
    /\ PyDict.get (snd (@Inference.load_models Toy.Model (Some fs'))) "A"
       = Some Inference.placeholder.
Proof.
  intro df.
  destruct (@failed_forecast_is_served _ Brittle.ShortHorizonProphet
              Evaluate.Sqrt_trunc df None 3 None "A"
              (@Forecast._prepare_prophet_series df "A"))
    as (res & fs' & e & Hrun & _ & _ & _ & _ & _ & _ & Hmeta);
    [discriminate|vm_compute; tauto|reflexivity|vm_compute; reflexivity
    |vm_compute; reflexivity|].
  exists res, fs'. split; [exact Hrun|]. split; [|exact Hmeta].
  vm_compute in Hrun. injection Hrun as <- _. reflexivity.
Defined.

End AgreementFacts.


(** ** evaluate.py: [compute_metrics_for_products] *)

Module EvaluateBatchFacts.
Import PyFloat Exn Forecast Evaluate EvaluateBatch FloatFacts.
Local Open Scope Q_scope.

Lemma valid_pairs_Fin (a p : list Q) :
  valid_pairs (map Fin a) (map Fin p) = combine a p.
Proof.
  unfold valid_pairs. revert p.
  induction a as [|x a IH]; intros [|z p]; simpl; try reflexivity.
  now rewrite IH.
Qed.

Lemma combine_map_same {A B C} (f : A -> B) (g : A -> C) (l : list A) :
  combine (map f l) (map g l) = map (fun t => (f t, g t)) l.
Proof. induction l as [|t l IH]; simpl; [reflexivity|now rewrite IH]. Qed.

Lemma in_get {V} (d : PyDict.dict V) (k : string) (v : V) :
  NoDup (PyDict.keys d) -> In (k, v) d -> PyDict.get d k = Some v.
Proof.
  unfold PyDict.keys. induction d as [|[k0 v0] d IH]; simpl; intros Hnd Hin;
    [contradiction|].
  inversion Hnd as [|? ? Hk Hnd']; subst.
  destruct Hin as [E|Hin].
  - injection E as -> ->. now rewrite String.eqb_refl.
  - destruct (String.eqb k0 k) eqn:E; [|now apply IH].
    apply String.eqb_eq in E. subst k0. exfalso. apply Hk.
    apply in_map_iff. now exists (k, v).
Qed.

(** A loop that sets a value under the key of each item, for items of
    distinct keys. *)
Lemma fold_set_items {A V} (key : A -> string) (g : A -> V)
    (items : list A) (d : PyDict.dict V) :
  NoDup (map key items) ->
  (forall it, In it items -> ~ In (key it) (PyDict.keys d)) ->
  fold_left (fun d it => PyDict.set d (key it) (g it)) items d
  = (d ++ map (fun it => (key it, g it)) items)%list.
Proof.
  revert d. induction items as [|a items IH]; intros d Hnd Hfree;
    cbn [fold_left map] in *.
  - now rewrite app_nil_r.
  - inversion Hnd as [|? ? Ha Hnd']; subst.
    rewrite IH; [|exact Hnd'|].
    + rewrite PipelineFacts.set_new by (apply Hfree; now left).
      now rewrite <- app_assoc.
    + intros it Hit Hc. apply DictKeyFacts.keys_set in Hc.
      destruct Hc as [Hc|Hc].
      * apply Ha. rewrite <- Hc. now apply in_map.
      * revert Hc. apply Hfree. now right.
Qed.

Lemma fold_left_same {A B} (f g : A -> B -> A) (l : list B) (a : A) :
  (forall a b, f a b = g a b) -> fold_left f l a = fold_left g l a.
Proof.
  intro Hfg. revert a. induction l as [|b l IH]; intro a; simpl;
    [reflexivity|].
  now rewrite Hfg, IH.
Qed.

Section WithSqrt.
Context `{Sqrt}.

(** The record that a pass of the loop sets, in terms of the aligned
    pairs. *)
Lemma metrics_step_set (product_forecasts_val : PyDict.dict Frame)
    (out : PyDict.dict Metrics) (item : string * Series) :
  metrics_step product_forecasts_val out item
  = PyDict.set out (fst item)
      (match aligned product_forecasts_val item with
       | [] => nan_metrics
       | pairs => {| mae := Fin (spec_mae pairs);
                     rmse := np_sqrt (Fin (spec_mse pairs));
                     error := None |}
       end).
Proof.
  destruct item as [name series]. unfold metrics_step, aligned.
  cbn [fst snd].
  destruct (PyDict.get product_forecasts_val name) as [pred_df|];
    [|reflexivity].
  destruct series as [|p series]; [reflexivity|].
  cbn [length Nat.eqb].
  destruct (merge_on_ds (p :: series) pred_df) as [|t merged] eqn:Em;
    [reflexivity|].
  cbn [length Nat.eqb].
  rewrite MetricsFacts.evaluate_predictions_pairs.
  rewrite <- (map_map m_y Fin), <- (map_map m_pred Fin).
  rewrite valid_pairs_Fin, combine_map_same. reflexivity.
Qed.

(** X24.  [compute_metrics_for_products] gives one record for each product
    of [product_series], in the same order, and never raises.  No record
    carries an error description.  The mean absolute error of a product is
    NaN exactly when no observation of its series meets a prediction of the
    same date (the product has no predictions, the series is empty, or no
    date is shared); otherwise it is the mean of the absolute differences
    over the aligned pairs, a nonnegative number that is zero exactly when
    every aligned prediction equals the observation. *)
Theorem compute_metrics_for_products_spec
    (product_series : PyDict.dict Series)
    (product_forecasts_val : PyDict.dict Frame) :
  NoDup (PyDict.keys product_series) ->
  let out := compute_metrics_for_products product_series
                                          product_forecasts_val in
  PyDict.keys out = PyDict.keys product_series
  /\ Forall (fun item =>
               let pairs := aligned product_forecasts_val item in
               exists m,
                 PyDict.get out (fst item) = Some m
                 /\ error m = None
                 /\ match mae m with
                    | NaN => pairs = []
                    | Fin q =>
                        pairs <> [] /\ q == spec_mae pairs /\ 0 <= q
                        /\ (q == 0
                            <-> Forall (fun ap => fst ap == snd ap) pairs)
                    end)
            product_series.
Proof.
  intros Hnd out.
  set (value := fun item : string * Series =>
         match aligned product_forecasts_val item with
         | [] => nan_metrics
         | pairs => {| mae := Fin (spec_mae pairs);
                       rmse := np_sqrt (Fin (spec_mse pairs));
                       error := None |}
         end).
  assert (Hout : out = map (fun item => (fst item, value item))
                           product_series).
  { unfold out, compute_metrics_for_products.
    rewrite (fold_left_same _ (fun d it => PyDict.set d (fst it) (value it)))
      by (intros d it; apply metrics_step_set).
    rewrite fold_set_items; [reflexivity|exact Hnd|intros it _ []]. }
  assert (Hkeys : PyDict.keys out = PyDict.keys product_series).
  { rewrite Hout. unfold PyDict.keys. rewrite map_map. reflexivity. }
  split; [exact Hkeys|].
  apply Forall_forall. intros item Hin. cbv zeta.
  exists (value item). split.
  - apply in_get; [now rewrite Hkeys|].
    rewrite Hout. apply in_map_iff. now exists item.
  - unfold value.
    destruct (aligned product_forecasts_val item) as [|ap pairs];
      [now repeat split|].
    cbn [mae error]. split; [reflexivity|].
    split; [discriminate|]. split; [reflexivity|].
    split; [apply MetricsMoreFacts.spec_mae_nonneg; discriminate|].
    apply MetricsMoreFacts.spec_mae_zero_iff. discriminate.
Qed.

End WithSqrt.

(** Two products: one with predictions on two of its three dates, one
    without predictions. *)
Lemma compute_metrics_for_products_spec_witness :
  let product_series : PyDict.dict Series :=
    [("A"%string, [(1%Z, 10); (2%Z, 20); (3%Z, 30)]);
     ("B"%string, [(1%Z, 5)])] in
  let product_forecasts_val : PyDict.dict Frame :=
    [("A"%string, [(2%Z, 22); (3%Z, 27); (4%Z, 40)])] in
  let out :=
    @compute_metrics_for_products Sqrt_trunc product_series
                                  product_forecasts_val in
  PyDict.keys out = ["A"%string; "B"%string]
  /\ PyDict.get out "B"%string = Some nan_metrics.
Proof.
  intros product_series product_forecasts_val out.
  destruct (@compute_metrics_for_products_spec Sqrt_trunc product_series
              product_forecasts_val) as [Hkeys _].
  - repeat constructor; simpl; intuition discriminate.
  - split; [exact Hkeys|reflexivity].
Defined.

End EvaluateBatchFacts.

(** ** forecast.py, train.py, inference.py: the sanitised file name *)

Module SafeNameFacts.
Import Forecast Inference Train.
Local Open Scope string_scope.

Lemma re_sub_unsafe_clean (s : string) :
  no_unsafe_char (re_sub_unsafe s) = true.
Proof.
  unfold no_unsafe_char. induction s as [|c s IH]; [reflexivity|].
  simpl. rewrite IH, andb_true_r.
  destruct (is_unsafe c) eqn:E; [reflexivity|now rewrite E].
Qed.

Lemma all_chars_substring (p : ascii -> bool) (n : nat) (s : string) :
  all_chars p s = true -> all_chars p (substring 0 n s) = true.
Proof.
  revert n. induction s as [|c s IH]; intros [|n]; simpl; try reflexivity.
  intro Hc. apply andb_true_iff in Hc. destruct Hc as [Hc Hs].
  now rewrite Hc, IH.
Qed.

(** X25.  The sanitised name, which names the artifact of a product in
    forecast.py, train.py and inference.py alike: it has the length of the
    name cut to 200, holds none of the nine unsafe characters, is left
    unchanged by sanitising again, and is the name itself exactly when the
    name has at most 200 characters and no unsafe character. *)
Theorem safe_filename_spec (name : string) :
  let s := _safe_filename name in
  String.length s = Nat.min 200 (String.length name)
  /\ no_unsafe_char s = true
  /\ _safe_filename s = s
  /\ (s = name <-> (String.length name <= 200)%nat
                   /\ no_unsafe_char name = true)
  /\ Train._safe_fname name = s
  /\ Inference._safe_fname name = s.
Proof.
  cbv zeta. unfold _safe_filename.
  assert (Hlen : String.length (substring 0 200 (re_sub_unsafe name))
                 = Nat.min 200 (String.length name)).
  { now rewrite NameFacts.length_substring_0, NameFacts.length_re_sub_unsafe. }
  assert (Hclean : no_unsafe_char (substring 0 200 (re_sub_unsafe name))
                   = true).
  { apply all_chars_substring, re_sub_unsafe_clean. }
  split; [exact Hlen|]. split; [exact Hclean|]. split; [|split].
  - rewrite (NameFacts.re_sub_unsafe_id _ Hclean).
    apply NameFacts.substring_0_all. rewrite Hlen. lia.
  - split.
    + intro E. rewrite E in Hlen, Hclean. split; [lia|exact Hclean].
    + intros [Hl Hu]. rewrite (NameFacts.re_sub_unsafe_id _ Hu).
      now apply NameFacts.substring_0_all.
  - split; reflexivity.
Qed.

End SafeNameFacts.

(** ** preprocess.py: [clean_and_aggregate] *)

Module CleanFacts.
Import PyFloat Forecast Clean.
Local Open Scope string_scope.

Lemma key_eqb_eq (a b : Key) : key_eqb a b = true <-> a = b.
Proof.
  destruct a as [[d p] c], b as [[d' p'] c']. unfold key_eqb. cbn [fst snd].
  rewrite !andb_true_iff, Z.eqb_eq, !String.eqb_eq. split.
  - intros [[-> ->] ->]. reflexivity.
  - intro E. injection E as -> -> ->. auto.
Qed.

Lemma key_eqb_refl (a : Key) : key_eqb a a = true.
Proof. now apply key_eqb_eq. Qed.

Lemma unique_keys_in (seen l : list Key) (k : Key) :
  In k (unique_keys seen l) <-> In k l /\ ~ In k seen.
Proof.
  revert seen. induction l as [|z l IH]; intro seen; simpl; [tauto|].
  destruct (existsb (key_eqb z) seen) eqn:E.
  - apply existsb_exists in E. destruct E as [w [Hw Ew]].
    apply key_eqb_eq in Ew. subst w. rewrite IH. split.
    + intros [Hk Hn]. split; [now right|exact Hn].
    + intros [[->|Hk] Hn]; [contradiction|now split].
  - assert (Hz : ~ In z seen).
    { intro Hc. assert (existsb (key_eqb z) seen = true); [|congruence].
      apply existsb_exists. exists z. split; [exact Hc|apply key_eqb_refl]. }
    simpl. rewrite IH. simpl. split.
    + intros [->|[Hk Hn]]; [split; [now left|exact Hz]|].
      split; [now right|]. intro Hc. apply Hn. now right.
    + intros [[->|Hk] Hn]; [now left|].
      destruct (key_eqb z k) eqn:Ek.
      * apply key_eqb_eq in Ek. now left.
      * right. split; [exact Hk|]. intros [Hc|Hc]; [|contradiction].
        subst z. rewrite key_eqb_refl in Ek. discriminate.
Qed.

Lemma unique_keys_NoDup (seen l : list Key) : NoDup (unique_keys seen l).
Proof.
  revert seen. induction l as [|z l IH]; intro seen; simpl; [constructor|].
  destruct (existsb (key_eqb z) seen); [apply IH|].
  constructor; [|apply IH].
  intro Hc. apply unique_keys_in in Hc. destruct Hc as [_ Hn].
  apply Hn. now left.
Qed.

Lemma groupby_keys (rows : Table) :
  map key_of (groupby_sum rows)
  = PySort.sort key_ltb (unique_keys [] (map key_of rows)).
Proof.
  unfold groupby_sum. rewrite map_map.
  rewrite <- (map_id (PySort.sort _ _)) at 2.
  apply map_ext. now intros [[d p] c].
Qed.

Lemma groupby_keys_in (rows : Table) (k : Key) :
  In k (map key_of (groupby_sum rows)) <-> In k (map key_of rows).
Proof.
  rewrite groupby_keys, SortFacts.sort_in, unique_keys_in. tauto.
Qed.

Lemma groupby_keys_NoDup (rows : Table) :
  NoDup (map key_of (groupby_sum rows)).
Proof.
  rewrite groupby_keys.
  apply (Permutation_NoDup
           (Permutation_sym (SortFacts.sort_perm key_ltb _))).
  apply unique_keys_NoDup.
Qed.

Lemma groupby_sales (rows : Table) (r : TableRow) :
  In r (groupby_sum rows) ->
  sales r = Qsum (map sales (group rows (key_of r))).
Proof.
  unfold groupby_sum. intro Hin. apply in_map_iff in Hin.
  destruct Hin as ([[d p] c] & <- & _). reflexivity.
Qed.

(** The order of [sort_values(["product_name", "date"])]. *)
Lemma name_date_lt_true (x z : TableRow) :
  name_date_ltb z x = true -> name_date_le z x.
Proof.
  unfold name_date_ltb, name_date_le, String.ltb.
  destruct (String.compare (product_name z) (product_name x)) eqn:E;
    cbn [orb]; [| |].
  - intro Hl. apply andb_true_iff in Hl. destruct Hl as [_ Hl].
    apply Z.ltb_lt in Hl. lia.
  - trivial.
  - intro Hl. apply andb_true_iff in Hl. destruct Hl as [He _].
    apply String.eqb_eq in He. rewrite He in E.
    rewrite ProductFacts.string_compare_refl in E. discriminate.
Qed.

Lemma name_date_lt_false (x z : TableRow) :
  name_date_ltb z x = false -> name_date_le x z.
Proof.
  unfold name_date_ltb, name_date_le, String.ltb.
  rewrite (String.compare_antisym (product_name x) (product_name z)).
  destruct (String.compare (product_name z) (product_name x)) eqn:E;
    cbn [orb CompOpp]; [|discriminate|trivial].
  apply String.compare_eq_iff in E. rewrite E, String.eqb_refl.
  cbn [andb]. intro Hl. apply Z.ltb_ge in Hl. exact Hl.
Qed.

Lemma name_date_le_trans (x z w : TableRow) :
  name_date_le x z -> name_date_le z w -> name_date_le x w.
Proof.
  unfold name_date_le.
  destruct (String.compare (product_name x) (product_name z)) eqn:Exz;
    [| |contradiction].
  - apply String.compare_eq_iff in Exz. rewrite Exz.
    destruct (String.compare (product_name z) (product_name w));
      [lia|trivial|contradiction].
  - destruct (String.compare (product_name z) (product_name w)) eqn:Ezw;
      [| |contradiction]; intros _ _.
    + apply String.compare_eq_iff in Ezw. rewrite <- Ezw, Exz. trivial.
    + now rewrite (ProductFacts.string_compare_lt_trans _ _ _ Exz Ezw).
Qed.

Lemma clean_perm (df : list RawRow) :
  Permutation (clean_and_aggregate df) (groupby_sum (cleaned df)).
Proof.
  unfold clean_and_aggregate. destruct df as [|r0 df]; [constructor|].
  apply SortFacts.sort_perm.
Qed.

Lemma clean_keys_in (df : list RawRow) (k : Key) :
  In k (map key_of (clean_and_aggregate df))
  <-> In k (map key_of (cleaned df)).
Proof.
  pose proof (Permutation_map key_of (clean_perm df)) as Hperm.
  split; intro Hin.
  - apply groupby_keys_in. exact (Permutation_in _ Hperm Hin).
  - apply groupby_keys_in in Hin.
    exact (Permutation_in _ (Permutation_sym Hperm) Hin).
Qed.

Lemma clean_sales (df : list RawRow) (r : TableRow) :
  In r (clean_and_aggregate df) ->
  sales r = Qsum (map sales (group (cleaned df) (key_of r))).
Proof.
  intro Hr. apply groupby_sales.
  exact (Permutation_in _ (clean_perm df) Hr).
Qed.

(** X27.  [clean_and_aggregate] keeps the rows that have a date, a product
    name and sales (a missing category becomes [Unknown], sales that are
    not a number become 0) and returns one row for each date, product name
    and category that occurs among them, never two: its sales are the sum
    of the sales of the kept rows with that date, product and category.  The
    rows stand in the order of the product names, and by date within a
    product. *)
Theorem clean_and_aggregate_spec (df : list RawRow) :
  let out := clean_and_aggregate df in
  NoDup (map key_of out)
  /\ (forall k, In k (map key_of out) <-> In k (map key_of (cleaned df)))
  /\ Forall (fun r => sales r
                      = Qsum (map sales (group (cleaned df) (key_of r)))) out
  /\ StronglySorted name_date_le out.
Proof.
  cbv zeta. split; [|split; [|split]].
  - apply (Permutation_NoDup
             (Permutation_map key_of (Permutation_sym (clean_perm df)))).
    apply groupby_keys_NoDup.
  - apply clean_keys_in.
  - apply Forall_forall. intros r Hr. now apply clean_sales.
  - unfold clean_and_aggregate. destruct df as [|r0 df]; [constructor|].
    apply SortFacts.sort_sorted with (P := fun _ => True).
    + intros x z _ _. apply name_date_lt_true.
    + intros x z _ _. apply name_date_lt_false.
    + intros x z w _ _ _. apply name_date_le_trans.
    + apply Forall_forall. trivial.
Qed.

(** X28.  From the raw rows to the series of a product.  The series that
    [_prepare_prophet_series] takes from the cleaned table has a point
    exactly on the dates on which the product has a kept row.  The value of
    a point is the sum of the sales of the product's kept rows of that date
    in one category: rows of the same product and date in another category
    are not counted.  When the kept rows of the product all have the same
    category, the value of each point is the sum of the sales of all the
    product's kept rows of that date. *)
Theorem series_of_cleaned (df : list RawRow) (product : string) :
  let s := _prepare_prophet_series (clean_and_aggregate df) product in
  (forall d, In d (map ds s)
             <-> exists r, In r (cleaned df)
                           /\ product_name r = product /\ date r = d)
  /\ Forall (fun pt =>
               exists r, In r (cleaned df)
                 /\ product_name r = product /\ date r = ds pt
                 /\ y pt = Qsum (map sales
                                     (group (cleaned df)
                                            (ds pt, product, category r))))
            s
  /\ ((forall r r', In r (cleaned df) -> In r' (cleaned df) ->
         product_name r = product -> product_name r' = product ->
         category r = category r') ->
      Forall (fun pt => y pt = day_sales (cleaned df) product (ds pt)) s).
Proof.
  cbv zeta. unfold _prepare_prophet_series.
  set (out := clean_and_aggregate df).
  set (rows := filter (fun r => String.eqb (product_name r) product) out).
  assert (Hrows : forall r, In r rows
                            <-> In r out /\ product_name r = product).
  { intro r. unfold rows. rewrite filter_In, String.eqb_eq. tauto. }
  assert (Hkey : forall r, In r out ->
            exists r0, In r0 (cleaned df) /\ key_of r0 = key_of r).
  { intros r Hr.
    assert (Hk : In (key_of r) (map key_of out)) by (now apply in_map).
    apply clean_keys_in in Hk. apply in_map_iff in Hk.
    destruct Hk as (r0 & E & H0). now exists r0. }
  assert (Hpoint : forall pt,
            In pt (drop_duplicates_ds []
                     (sort_values_ds
                        (map (fun r => (date r, sales r)) rows))) ->
            exists r, In r out /\ product_name r = product
                      /\ pt = (date r, sales r)).
  { intros pt Hpt.
    apply SeriesFacts.in_drop_duplicates in Hpt. destruct Hpt as [Hpt _].
    apply SortFacts.sort_in in Hpt. apply in_map_iff in Hpt.
    destruct Hpt as (r & <- & Hr). apply Hrows in Hr.
    exists r. tauto. }
  split; [|split].
  - intro d. rewrite SeriesFacts.drop_duplicates_dates. split.
    + intros [Hd _]. apply in_map_iff in Hd. destruct Hd as (q & <- & Hq).
      apply SortFacts.sort_in in Hq. apply in_map_iff in Hq.
      destruct Hq as (r & <- & Hr). apply Hrows in Hr.
      destruct Hr as [Hr Hp].
      destruct (Hkey r Hr) as (r0 & H0 & E).
      unfold key_of in E. injection E as Ed Ep Ec.
      exists r0. split; [exact H0|]. split; [congruence|exact Ed].
    + intros (r0 & H0 & Hp & <-). split; [|intros []].
      assert (Hk : In (key_of r0) (map key_of out)).
      { apply clean_keys_in. now apply in_map. }
      apply in_map_iff in Hk. destruct Hk as (r & E & Hr).
      unfold key_of in E. injection E as Ed Ep Ec.
      apply in_map_iff. exists (date r, sales r). split; [exact Ed|].
      apply SortFacts.sort_in. apply in_map_iff. exists r.
      split; [reflexivity|]. apply Hrows. split; [exact Hr|congruence].
  - apply Forall_forall. intros pt Hpt.
    destruct (Hpoint pt Hpt) as (r & Hr & Hp & ->).
    destruct (Hkey r Hr) as (r0 & H0 & E).
    unfold key_of in E. injection E as Ed Ep Ec.
    exists r0. unfold y, ds. cbn [fst snd].
    split; [exact H0|]. split; [congruence|]. split; [exact Ed|].
    rewrite (clean_sales _ _ Hr). unfold key_of. now rewrite Hp, Ec.
  - intro Hcat. apply Forall_forall. intros pt Hpt.
    destruct (Hpoint pt Hpt) as (r & Hr & Hp & ->).
    unfold y, ds. cbn [fst snd].
    rewrite (clean_sales _ _ Hr). unfold day_sales, group.
    f_equal. f_equal. apply filter_ext_in. intros v Hv.
    destruct (Hkey r Hr) as (r0 & H0 & E).
    unfold key_of in E. injection E as Ed Ep Ec.
    unfold key_eqb, key_of. cbn [fst snd].
    destruct (String.eqb (product_name v) product) eqn:Epv.
    + apply String.eqb_eq in Epv.
      replace (String.eqb (product_name v) (product_name r)) with true
        by (symmetry; apply String.eqb_eq; congruence).
      replace (String.eqb (category v) (category r)) with true.
      * now rewrite andb_true_r, andb_true_r.
      * symmetry. apply String.eqb_eq. rewrite <- Ec.
        apply Hcat; [exact Hv|exact H0|exact Epv|congruence].
    + replace (String.eqb (product_name v) (product_name r)) with false
        by (rewrite Hp; now symmetry).
      now rewrite andb_false_r.
Qed.

(** Two sales of a product on the first day, one on the second, a row
    without a date and sales that are not a number. *)
Lemma series_of_cleaned_witness :
  let df : list RawRow :=
    [mkRaw (Some 1%Z) (Some "A") (Some "x") (SalesNumber 5);
     mkRaw (Some 2%Z) (Some "A") (Some "x") (SalesNumber 3);
     mkRaw None (Some "A") (Some "x") (SalesNumber 100);
     mkRaw (Some 1%Z) (Some "A") (Some "x") (SalesNumber 7);
     mkRaw (Some 2%Z) (Some "A") (Some "x") SalesNotNumeric] in
  map ds (_prepare_prophet_series (clean_and_aggregate df) "A") = [1%Z; 2%Z]
  /\ Forall (fun pt => y pt = day_sales (cleaned df) "A" (ds pt))
            (_prepare_prophet_series (clean_and_aggregate df) "A").
Proof.
  intro df. split; [reflexivity|].
  apply (proj2 (proj2 (series_of_cleaned df "A"))).
  assert (Hx : Forall (fun r => category r = "x") (cleaned df))
    by (repeat constructor).
  rewrite Forall_forall in Hx.
  intros r r' Hr Hr' _ _. now rewrite (Hx r Hr), (Hx r' Hr').
Defined.

(** With two categories on the same day the sales of one of them are not
    in the series: the day has sales of 5 and 7, and the point is 5. *)
Example two_categories_one_counted :
  let df : list RawRow :=
    [mkRaw (Some 1%Z) (Some "A") (Some "x") (SalesNumber 5);
     mkRaw (Some 1%Z) (Some "A") (Some "y") (SalesNumber 7)] in
  map key_of (clean_and_aggregate df) = [(1%Z, "A", "x"); (1%Z, "A", "y")]
  /\ _prepare_prophet_series (clean_and_aggregate df) "A" = [(1%Z, 0 + 5)%Q]
  /\ day_sales (cleaned df) "A" 1 = (0 + 5 + 7)%Q.
Proof. repeat split. Qed.

End CleanFacts.
